(* ===== verification/_CoqProject ===== *)
-Q . S2P
Prelude.v
Namespace.v
Definitions.v
Scopes.v
Classes.v
Modules.v
Collaborators.v
Fixtures.v
State.v
Prune.v
Passes.v
Analyze.v
Outputs.v
PyObjects.v
YoLinkClient.v
