(* ===== verification/Prelude.v ===== *)
(** * AID-Internetware: a verification development of the call-graph engine

    ** The program
    [src/AID/AID.py] defines [CallGraphGenerator], the driver of an
    abstract-interpretation engine that builds call graphs of Python
    programs.  It owns five managers (definitions with their points-to
    pointers, scopes, classes, modules, import hooks), runs a front-end
    [PreProcessor] over every entry point with import hooks installed,
    completes the definition store, then runs a [PostProcessor] pass in a
    [while] loop until the state snapshot stops changing or [max_iter]
    iterations ran, pruning speculative EXT definitions once after
    iteration 0; finally it calls type inference, dataflow and a
    call-graph (or key-error) pass, selected by [operation].  The managers,
    the processors and the downstream passes live outside src/; the spec
    describes their contracts.  [src/SDK_dataset/yolink/client.py] is an
    asynchronous HTTP client of the analysed dataset ([YoLinkClient]); it
    does not interact with the engine and is modelled on its own.

    ** Files, in dependency order
    - [Prelude] (this file): the state-and-exception monad [pyM S A] of
      Python methods ([Done]/[Raised] with the object's state at the
      [return]/[raise]) with its notation scope [py_scope], the tactics
      [py_inv], [py_run], [py_case], [py_preserves_tac], the relation
      framework [py_preserves] (frame facts composed along binds), the hint
      databases [aid]/[aid_rw] and generic map lemmas.
    - [Namespace]: [str.split('.')]/['.'.join] and the two splits of the
      prune (AID.py 225-228); [utils.equal_attribute] and
      [utils.to_mod_name] (spec-modelled).
    - [Definitions]: [DefinitionManager] (spec-modelled): a pointer is a
      dict from attribute to a Python [set] object, the objects live in a
      [pointer_heap] and are read with [deref]; [create], [remove] (scrubs
      the store's set objects in place), [complete_definitions] (EXT
      placeholders); invariant (D1) [dm_closed].
    - [Scopes], [Classes], [Modules]: the scope tree with its counters and
      the lookup rule (scope, ancestors, import table) as a walk of the
      parent links on fuel ([lookup_name_spec]: with more fuel than the
      namespace has characters it decides the declarative rule, because a
      parent's namespace is a proper prefix of its child's); the class
      registry with C3 linearisation, proved valid ([c3_mro_valid]: no
      duplicates, every base's MRO and the base list kept as
      subsequences), its fuel being the total length of the merged lists,
      which every step decreases; the module registry (all spec-modelled).
    - [Collaborators]: the import-hook state, the [managers] record (the
      shared store handed to every processor by reference, with the heap of
      set objects), the outputs of
      the downstream passes, and the interfaces [FrontEnd] (one operation
      per collaborator class the driver calls) and [OsPath].
    - [Fixtures]: concrete [FrontEnd]/[OsPath] instances for the witnesses
      (a stable front-end, one whose pointer sets grow forever, one whose
      pre-processor raises).
    - [State]: the fields of [CallGraphGenerator] ([__init__], [setUp]),
      [extract_state] (each pointer's [get().copy()] is a copy of the
      values its set objects hold), [reset_counters], [has_converged] (its
      three loops), the hook toggles; the abstract one-sided convergence
      contract [snapshot_le] with the refinement theorem
      [has_converged_spec]; the setoid [gen_equiv] (generators with the
      same snapshots) with a [Proper] instance for [has_converged];
      counter-reset facts.
    - [Prune]: [prune_candidates] and [ext_prune] (AID.py 222-238) and the
      exact effect of the prune; the batch reference [remove_set] and the
      setoid [hd_equiv] (same records and same elements in every set
      object the store holds), in which the removals in any order equal
      the batch ([ext_prune_order_independent]).
    - [Passes]: [_get_mod_name], the processors lifted to the generator,
      [do_pass] ([do_pass_entries] is its [for] loop), the pre-processing
      step of [analyze]; frame facts (one lemma for every preorder the
      steps keep), the hook discipline of [do_pass] (installed for the
      right package at every walk, removed after it unless it raised),
      each module walked once per pass; the module name of an entry point
      and its round trip to the path's components
      ([get_mod_name_roundtrip]).  The section [PassDefs] is parametric in
      the [FrontEnd] and [OsPath] instances.
    - [Analyze]: [postprocess_iteration], [loop_guard], [postprocess_loop]
      (the [while] loop, on fuel), [run_fixpoint], [dispatch_operation],
      [analyze]; (D1) at the fixed point, termination and the iteration
      bound of the loop, the cap of 10 hard-coded in [__init__], monotone
      growth after iteration 0 (spec property 1, over the order
      [store_le] of [Definitions]) and at iteration 0 up to the pruned
      EXT namespaces ([iteration_zero_monotone]), convergence within two iterations for
      a post pass that changes nothing (spec S1), the operations' frames,
      the late [Invalid operation] error, and that an iteration which
      changes some pointer value, in place or not, never ends converged
      ([iteration_change_seen]).  [analyze] runs [ParameterExtraction],
      [TypeInference] and [Dataflow] as front-end steps on the managers,
      which may change them or raise.
    - [Outputs]: the output methods, and the class table
      [output_classes()] composed with the registry: after [set_bases] the
      reported MRO is the class followed by a valid C3 linearisation.
    - [PyObjects]: the Python object model the client needs: values
      (with coroutine objects that hold bound arguments), dicts as mutable
      objects on a heap (aliasing: two names for one dict see each other's
      writes), [pop], item assignment, [update], keyword-dict building and
      argument binding with their [TypeError]s; the heap invariant
      [heap_ok] and the dict steps that keep it.
    - [YoLinkClient]: [request] (its pops, [set_auth_headers],
      [extend_optional], [session_call]), [get], [post], [execute] (its
      [try] block, [except] clauses, and tenacity's [retry_loop]), over the
      interfaces [YoLinkEnv] (auth manager, session, responses, BRDP) and
      [PyExnClasses] (the exception hierarchy); calling an [async def]
      binds its arguments into a [VCoro] value and [await_val] runs it.
      Theorems: [execute] never returns (missing [await]); [get] returns an
      un-run coroutine; the header precedence and aliasing of [request];
      the exact session call and the [timeout] conflict; [headers=None].
    Each file holds its definitions first and its theorems after, with
    witnesses that run the definitions on the fixtures.

    ** Fuel
    The [while] loop is a [Fixpoint] on fuel returning [None] when the fuel
    runs out.  [postprocess_loop_terminates] shows that for a non-negative
    [max_iter], [max_iter - iter_cnt + 1] steps are enough, and
    [postprocess_loop_fuel_mono] that more fuel never changes a result; as
    [__init__] always stores 10, [analyze] with 11 steps never runs out
    ([analyze_init_terminates]).

    ** Not modelled
    The front-end walks (pure syntax traversal), parameter extraction, type
    inference, dataflow, the call-graph and key-error processors are
    reached only through the [FrontEnd] interface, each a step on the
    managers that may raise; the theorems hold for every implementation.
    Python dict iteration order is abstracted by [gmap]'s order: no theorem
    depends on it.  For the client: the libraries it calls (auth manager,
    aiohttp, BRDP, tenacity's waits and callbacks) are interfaces or are
    reduced to the decorator's two arguments; the exception chaining of
    [raise ... from] and the reuse error of an awaited coroutine are not
    represented (no theorem depends on them); dict keys are strings;
    [YoLinkClient.__init__] only stores the manager, which the model
    passes as the [YoLinkEnv] instance.  The pointer of a [Definition] has
    the spec's shape (a dict from attribute to a set object; the root
    attribute [""] is the flat set [get()] returns in the code's
    [NamePointer]); the manager is not under src/.  A corrected [execute] (with the missing [await]s) is not
    written: it is not code of the repository, and the theorems on
    [execute] are about the code as it stands.  The front-end's use of the
    scope lookup and of the class MROs is not modelled (it is the
    front-end's); the theorems on [lookup_name] and [c3_mro] state what
    the managers promise it.  The [CycleInMRO] warning is output only. *)

From stdpp Require Export base gmap strings list fin_maps sets.

(** ** Python exceptions and methods that mutate their object

    A Python method run on an object either returns a value or raises; in
    both cases it leaves the object in some state.  [pyM S A] is that: a
    state-passing function whose outcome is [Done s a] or [Raised s e], the
    state at the [return] or at the [raise]. *)

(** A raised Python exception: its class name and its message. *)
Record PyExn := mkExn { exn_class : string; exn_msg : string }.

Inductive outcome (S A : Type) : Type :=
| Done (s : S) (a : A)
| Raised (s : S) (e : PyExn).
Arguments Done {S A} s a.
Arguments Raised {S A} s e.

Definition pyM (S A : Type) : Type := S -> outcome S A.

Definition py_ret {S A} (a : A) : pyM S A := fun s => Done s a.
Definition py_bind {S A B} (m : pyM S A) (k : A -> pyM S B) : pyM S B :=
  fun s => match m s with Done s' a => k a s' | Raised s' e => Raised s' e end.
Definition py_get {S} : pyM S S := fun s => Done s s.
Definition py_modify {S} (f : S -> S) : pyM S unit := fun s => Done (f s) tt.
Definition py_raise {S A} (e : PyExn) : pyM S A := fun s => Raised s e.

(** The state of an outcome, whichever way the method ended. *)
Definition outcome_state {S A} (o : outcome S A) : S :=
  match o with Done s _ => s | Raised s _ => s end.

Declare Scope py_scope.
Delimit Scope py_scope with py.
Notation "'let*' x ':=' c 'in' k" := (py_bind c (fun x => k))
  (at level 10, x name, c at level 100, k at level 200) : py_scope.
Notation "'let*' ' p ':=' c 'in' k" :=
  (py_bind c (fun x => match x with p => k end))
  (at level 10, p pattern, c at level 100, k at level 200) : py_scope.
Open Scope py_scope.

Lemma py_bind_Done {S A B} (m : pyM S A) (k : A -> pyM S B) s s' a :
  m s = Done s' a -> py_bind m k s = k a s'.
Proof. unfold py_bind. by intros ->. Qed.

Lemma py_bind_Raised {S A B} (m : pyM S A) (k : A -> pyM S B) s s' e :
  m s = Raised s' e -> py_bind m k s = Raised s' e.
Proof. unfold py_bind. by intros ->. Qed.

Lemma py_bind_Done_inv {S A B} (m : pyM S A) (k : A -> pyM S B) s s'' b :
  py_bind m k s = Done s'' b -> exists s' a, m s = Done s' a /\ k a s' = Done s'' b.
Proof. unfold py_bind. destruct (m s); [eauto|discriminate]. Qed.

Lemma py_bind_Raised_inv {S A B} (m : pyM S A) (k : A -> pyM S B) s s'' e :
  py_bind m k s = Raised s'' e ->
  m s = Raised s'' e \/ exists s' a, m s = Done s' a /\ k a s' = Raised s'' e.
Proof. unfold py_bind. destruct (m s); [eauto|intros [= -> ->]; by left]. Qed.

(** A method of a sub-object run on the whole object: [focus get set m]
    runs [m] on [get s] and writes the resulting sub-object back, also when
    [m] raises. *)
Definition py_focus {S T A} (get : S -> T) (set : T -> S -> S) (m : pyM T A) : pyM S A :=
  fun s => match m (get s) with
           | Done t a => Done (set t s) a
           | Raised t e => Raised (set t s) e
           end.

(** [try: m except: h]: the handler receives the exception and the state at
    the [raise]. *)
Definition py_try {S A} (m : pyM S A) (h : PyExn -> pyM S A) : pyM S A :=
  fun s => match m s with Done s' a => Done s' a | Raised s' e => h e s' end.

(** [py_inv] splits every successful [py_bind] hypothesis into its steps. *)
Ltac py_inv :=
  repeat match goal with
  | H : py_bind _ _ _ = Done _ _ |- _ =>
      let s := fresh "s" in let a := fresh "a" in
      let Hm := fresh "Hm" in let Hk := fresh "Hk" in
      apply py_bind_Done_inv in H as (s & a & Hm & Hk)
  | H : Done _ _ = Done _ _ |- _ => injection H as H
  | H : Raised _ _ = Done _ _ |- _ => discriminate H
  | H : Done _ _ = Raised _ _ |- _ => discriminate H
  end.

(** [py_steps] does so through the continuations as well, one hypothesis
    per call of a successful run. *)
Ltac py_steps := repeat (progress (py_inv; cbv beta in *)).

(** A closed decidable proposition, by evaluation. *)
Ltac decide_closed := apply (bool_decide_unpack _); vm_compute; exact I.

(** [py_run H] unfolds the monad in hypothesis [H]; [py_case H] then splits
    on the first method call whose outcome [H] matches on, and discards the
    branch that contradicts [H]. *)
Ltac py_run H := unfold py_bind, py_modify, py_ret, py_get, py_raise, py_focus in H; simpl in H.
Ltac py_case H :=
  cbv beta in H;
  match type of H with
  | context [match ?x with Done _ _ => _ | Raised _ _ => _ end] =>
      let E := fresh "E" in destruct x eqn:E; try discriminate H
  end.

(** ** Relations a computation preserves

    [py_preserves R m]: whatever way [m] ends, its final state is related to
    its initial one by [R].  With [R] a preorder this composes along
    [py_bind], which is how the frame facts of the driver (which fields a
    pass can change) are proved. *)

Section Preserves.
Context {S : Type} (R : relation S) `{!PreOrder R}.

Definition py_preserves {A} (m : pyM S A) : Prop :=
  forall s, R s (outcome_state (m s)).

Lemma py_preserves_ret {A} (a : A) : py_preserves (py_ret a).
Proof. intros s. simpl. reflexivity. Qed.

Lemma py_preserves_get : py_preserves py_get.
Proof. intros s. simpl. reflexivity. Qed.

Lemma py_preserves_raise {A} e : py_preserves (@py_raise S A e).
Proof. intros s. simpl. reflexivity. Qed.

Lemma py_preserves_modify f : (forall s, R s (f s)) -> py_preserves (py_modify f).
Proof. intros Hf s. apply Hf. Qed.

Lemma py_preserves_bind {A B} (m : pyM S A) (k : A -> pyM S B) :
  py_preserves m -> (forall a, py_preserves (k a)) -> py_preserves (py_bind m k).
Proof.
  intros Hm Hk s. unfold py_bind. specialize (Hm s).
  destruct (m s) as [s' a|s' e]; simpl in *; [|done].
  etrans; [exact Hm|apply Hk].
Qed.

Lemma py_preserves_focus {T A} (get : S -> T) (set : T -> S -> S) (m : pyM T A) :
  (forall t s, R s (set t s)) -> py_preserves (py_focus get set m).
Proof. intros Hset s. unfold py_focus. destruct (m (get s)); simpl; apply Hset. Qed.

Lemma py_preserves_Done {A} (m : pyM S A) s s' a :
  py_preserves m -> m s = Done s' a -> R s s'.
Proof. intros Hm E. specialize (Hm s). by rewrite E in Hm. Qed.

Lemma py_preserves_Raised {A} (m : pyM S A) s s' e :
  py_preserves m -> m s = Raised s' e -> R s s'.
Proof. intros Hm E. specialize (Hm s). by rewrite E in Hm. Qed.
End Preserves.

(** A relation on the whole state follows from one on the focused part. *)
Lemma py_preserves_focus_rel {S T A} (R : relation S) (R' : relation T) `{!PreOrder R} `{!PreOrder R'}
    (get : S -> T) (set : T -> S -> S) (m : pyM T A) :
  (forall s t, R' (get s) t -> R s (set t s)) -> py_preserves R' m -> py_preserves R (py_focus get set m).
Proof.
  intros Hset Hm s. unfold py_focus. specialize (Hm (get s)).
  destruct (m (get s)); simpl in *; by apply Hset.
Qed.

(** Decompose a [py_preserves] goal along the binds, ifs and matches of a
    computation. *)
Ltac py_preserves_tac :=
  repeat match goal with
  | |- PreOrder _ => typeclasses eauto
  | |- forall _, py_preserves _ _ => intros ?
  | |- forall _, _ => intros ?
  | |- py_preserves _ (py_bind _ _) => apply py_preserves_bind
  | |- py_preserves _ (py_ret _) => apply py_preserves_ret
  | |- py_preserves _ py_get => apply py_preserves_get
  | |- py_preserves _ (py_raise _) => apply py_preserves_raise
  | |- py_preserves _ (py_modify _) => apply py_preserves_modify
  | |- py_preserves _ (py_focus _ _ _) => apply py_preserves_focus
  | |- py_preserves _ (if ?b then _ else _) => destruct b
  | |- py_preserves _ (match ?x with _ => _ end) => destruct x
  end.

(** ** Bounded loops *)

(** A [while] loop of the source is modelled by a [Fixpoint] on fuel that
    returns an [option]: running out of fuel is [None], distinct from every
    outcome of the loop; the theorems say how much fuel is enough. *)

(** ** Generic lemmas on maps and sets *)

Create HintDb aid.
Create Rewrite HintDb aid_rw.

Section MapLemmas.
Context {K : Type} `{Countable K} {V : Type}.

(** A boolean scan of every entry of a map decides [map_Forall]. *)
Lemma forallb_map_to_list (f : K -> V -> bool) (m : gmap K V) :
  forallb (fun kv => f kv.1 kv.2) (map_to_list m) = true <->
  map_Forall (fun k v => f k v = true) m.
Proof.
  rewrite forallb_forall, map_Forall_to_list, Forall_forall.
  split; intros Hall [k v] Hin; apply (Hall (k, v)); by apply list_elem_of_In.
Qed.

Lemma lookup_fmap_Some_iff {W} (f : V -> W) (m : gmap K V) k w :
  (f <$> m) !! k = Some w <-> exists v, w = f v /\ m !! k = Some v.
Proof. rewrite lookup_fmap. destruct (m !! k) as [v|]; simpl; split; intros Hw.
  - injection Hw as <-. eauto.
  - destruct Hw as (v' & -> & [= ->]). done.
  - discriminate.
  - by destruct Hw as (? & ? & ?). Qed.
End MapLemmas.

#[export] Hint Resolve py_bind_Done py_bind_Raised py_preserves_ret py_preserves_get
  py_preserves_raise : aid.
