(* ===== verification/Namespace.v ===== *)
(** * Namespace utilities

    Dotted namespaces and the string operations the engine applies to them:
    Python's [str.split('.')] and ['.'.join], the two splits the external
    prune of [CallGraphGenerator.analyze] performs on an EXT namespace
    ([rsplit('.', 1)[0]] and [split('.')[-1]], src/AID/AID.py lines
    225-228), the attribute-equality test [utils.equal_attribute] and the
    entry-point canonicalisation [utils.to_mod_name] (both outside src/,
    modelled from the spec, section 3 and section 6). *)

From S2P Require Import Prelude.
From Stdlib Require Import Ascii.

Local Open Scope string_scope.

(** ** Python's [str.split(c)] and [c.join(l)] on one-character separators *)

Fixpoint split_on (c : ascii) (s : string) : list string :=
  match s with
  | EmptyString => [""]
  | String a s' =>
      let rest := split_on c s' in
      if Ascii.eqb a c then "" :: rest
      else match rest with
           | r :: rs => String a r :: rs
           | [] => [String a ""]
           end
  end.

Fixpoint join_on (c : ascii) (l : list string) : string :=
  match l with
  | [] => ""
  | [x] => x
  | x :: xs => String.append x (String c (join_on c xs))
  end.

(** Python's [c in s]. *)
Fixpoint str_contains (c : ascii) (s : string) : bool :=
  match s with
  | EmptyString => false
  | String a s' => Ascii.eqb a c || str_contains c s'
  end.

Definition dot : ascii := ".".

Definition split_dots (s : string) : list string := split_on dot s.
Definition join_dots (l : list string) : string := join_on dot l.

(** ** The two splits of the external prune (AID.py 225-228) *)

(** ['.' in ns1] *)
Definition has_dot (ns : string) : bool := str_contains dot ns.

(** [ext_class = ns1.rsplit('.', 1)[0]] *)
Definition ext_class_of (ns : string) : string :=
  join_dots (removelast (split_dots ns)).

(** [ext_method = ns1.split('.')[-1]] *)
Definition ext_method_of (ns : string) : string :=
  List.last (split_dots ns) "".

(** ** [utils.equal_attribute] (spec, section 3)

    Two namespaces are attribute-equal when the dotted components of one are
    a suffix of the components of the other. *)

Fixpoint is_prefix (xs ys : list string) : bool :=
  match xs, ys with
  | [], _ => true
  | x :: xs', y :: ys' => bool_decide (x = y) && is_prefix xs' ys'
  | _ :: _, [] => false
  end.

Definition equal_attribute (a b : string) : bool :=
  let xs := rev (split_dots a) in
  let ys := rev (split_dots b) in
  is_prefix xs ys || is_prefix ys xs.

(** ** [utils.to_mod_name] (spec, section 6)

    A path relative to the package root becomes a module namespace: the
    extension of the last component is stripped ([os.path.splitext]: the
    last dot, when something other than dots precedes it), both path
    separators become dots, and a trailing [__init__] component is dropped,
    so that [pkg/__init__.py] is the module [pkg]. *)

Fixpoint rindex_of (c : ascii) (cs : list ascii) : option nat :=
  match cs with
  | [] => None
  | a :: cs' =>
      match rindex_of c cs' with
      | Some i => Some (S i)
      | None => if Ascii.eqb a c then Some 0 else None
      end
  end.

Fixpoint leading (c : ascii) (cs : list ascii) : nat :=
  match cs with
  | a :: cs' => if Ascii.eqb a c then S (leading c cs') else 0
  | [] => 0
  end.

Definition strip_ext (b : string) : string :=
  let cs := String.list_ascii_of_string b in
  match rindex_of dot cs with
  | Some i => if bool_decide (leading dot cs < i) then String.string_of_list_ascii (take i cs) else b
  | None => b
  end.

Definition to_mod_name (path : string) : string :=
  let comps : list string := split_on "/" path ≫= split_on "\" in
  let comps := app (removelast comps) [strip_ext (List.last comps "")] in
  let comps := if bool_decide (List.last comps "" = "__init__") then removelast comps else comps in
  join_dots comps.

(** A path component a module name can be built from: non-empty, without
    a separator or a dot; an extension: without a separator or a dot. *)
Definition comp_ok (x : string) : bool :=
  negb (String.eqb x "") && negb (str_contains "/" x) && negb (str_contains "\" x) &&
  negb (str_contains dot x).
Definition ext_ok (e : string) : bool :=
  negb (str_contains "/" e) && negb (str_contains "\" e) && negb (str_contains dot e).

(** ** Lemmas *)

Lemma split_on_nonempty c s : split_on c s <> [].
Proof.
  induction s as [|a s IH]; simpl; [done|].
  destruct (Ascii.eqb a c); [done|]. by destruct (split_on c s).
Qed.

Lemma join_on_String c a r rs :
  join_on c (String a r :: rs) = String a (join_on c (r :: rs)).
Proof. by destruct rs. Qed.

Lemma join_on_cons_cons c x y ys :
  join_on c (x :: y :: ys) = String.append x (String c (join_on c (y :: ys))).
Proof. reflexivity. Qed.

(** ['.'.join(s.split('.')) == s]. *)
Lemma join_split_on c s : join_on c (split_on c s) = s.
Proof.
  induction s as [|a s IH]; cbn [split_on]; [done|].
  destruct (Ascii.eqb a c) eqn:Hac.
  - apply Ascii.eqb_eq in Hac as ->.
    destruct (split_on c s) as [|r rs] eqn:Hs; [by destruct (split_on_nonempty c s)|].
    rewrite join_on_cons_cons, IH; reflexivity.
  - destruct (split_on c s) as [|r rs] eqn:Hs; [by destruct (split_on_nonempty c s)|].
    rewrite join_on_String, IH; reflexivity.
Qed.

Lemma string_app_assoc (a b c : string) :
  String.append a (String.append b c) = String.append (String.append a b) c.
Proof.
  induction a as [|x a IH]; [reflexivity|].
  change (String x (String.append a (String.append b c)) =
          String x (String.append (String.append a b) c)).
  by rewrite IH.
Qed.

Lemma is_prefix_refl xs : is_prefix xs xs = true.
Proof. induction xs; simpl; [done|]. by rewrite bool_decide_eq_true_2. Qed.

Lemma equal_attribute_refl a : equal_attribute a a = true.
Proof. unfold equal_attribute. by rewrite is_prefix_refl. Qed.

Lemma equal_attribute_sym a b : equal_attribute a b = equal_attribute b a.
Proof. unfold equal_attribute. apply orb_comm. Qed.

(** ** Splitting a joined list, and [to_mod_name] on a well-formed path *)

Lemma str_contains_append c a b :
  str_contains c (String.append a b) = str_contains c a || str_contains c b.
Proof. induction a as [|x a IH]; simpl; [done|]. by rewrite IH, orb_assoc. Qed.

Lemma split_on_no_sep c s : str_contains c s = false -> split_on c s = [s].
Proof.
  induction s as [|a s IH]; simpl; [done|]. intros [Ha Hs]%orb_false_iff. by rewrite Ha, IH.
Qed.

Lemma split_on_append_sep c x r :
  str_contains c x = false -> split_on c (String.append x (String c r)) = x :: split_on c r.
Proof.
  induction x as [|a x IH]; simpl; intros H.
  - by rewrite Ascii.eqb_refl.
  - apply orb_false_iff in H as [Ha Hx]. by rewrite Ha, IH.
Qed.

(** [c.join(l).split(c) == l] when no element of [l] contains [c]. *)
Lemma split_join_on c l :
  l <> [] -> Forall (fun x => str_contains c x = false) l -> split_on c (join_on c l) = l.
Proof.
  induction l as [|x [|y ys] IH]; intros Hne Hl; [done| |].
  - inversion Hl; subst. simpl. by apply split_on_no_sep.
  - inversion Hl as [|? ? Hx Hrest]; subst.
    rewrite join_on_cons_cons, split_on_append_sep by done. by rewrite IH.
Qed.

Lemma bind_split_on_no_sep c l :
  Forall (fun x => str_contains c x = false) l -> l ≫= split_on c = l.
Proof.
  induction 1 as [|x l Hx _ IH]; [done|].
  change ((x :: l) ≫= split_on c) with (app (split_on c x) (l ≫= split_on c)).
  by rewrite split_on_no_sep, IH.
Qed.

Lemma list_ascii_of_string_append a b :
  String.list_ascii_of_string (String.append a b) = app (String.list_ascii_of_string a) (String.list_ascii_of_string b).
Proof.
  induction a as [|x a IH]; [done|].
  change (String.list_ascii_of_string (String x (String.append a b)) =
          x :: app (String.list_ascii_of_string a) (String.list_ascii_of_string b)).
  simpl. by rewrite IH.
Qed.

Lemma rindex_of_app c xs ys :
  rindex_of c (app xs ys) =
    match rindex_of c ys with Some i => Some (length xs + i) | None => rindex_of c xs end.
Proof.
  induction xs as [|a xs IH]; simpl; [by destruct (rindex_of c ys)|].
  rewrite IH. by destruct (rindex_of c ys).
Qed.

Lemma rindex_of_none c s : str_contains c s = false -> rindex_of c (String.list_ascii_of_string s) = None.
Proof. induction s as [|a s IH]; simpl; [done|]. intros [Ha Hs]%orb_false_iff. by rewrite IH, Ha. Qed.

(** [os.path.splitext(b + '.' + e)[0] == b] for a non-empty [b] and an [e]
    without dots. *)
Lemma strip_ext_append b e :
  b <> "" -> str_contains dot b = false -> str_contains dot e = false ->
  strip_ext (String.append b (String dot e)) = b.
Proof.
  intros Hb Hbd Hed. unfold strip_ext.
  rewrite list_ascii_of_string_append, rindex_of_app.
  replace (rindex_of dot (String.list_ascii_of_string (String dot e))) with (Some 0)
    by (simpl; rewrite rindex_of_none by done; reflexivity).
  destruct b as [|a b0]; [done|]. simpl in Hbd. apply orb_false_iff in Hbd as [Ha _].
  rewrite bool_decide_eq_true_2.
  - rewrite Nat.add_0_r, take_app_length. apply String.string_of_list_ascii_of_string.
  - simpl. rewrite Ha. lia.
Qed.

Lemma comp_ok_spec x :
  comp_ok x = true ->
  x <> "" /\ str_contains "/" x = false /\ str_contains "\" x = false /\ str_contains dot x = false.
Proof.
  unfold comp_ok. intros H. repeat (apply andb_true_iff in H as [H ?]).
  rewrite !negb_true_iff in *. repeat split; try done.
  intros ->. discriminate.
Qed.

Lemma forallb_comp_ok l :
  forallb comp_ok l = true ->
  Forall (fun x => str_contains "/" x = false) l /\ Forall (fun x => str_contains "\" x = false) l /\
  Forall (fun x => str_contains dot x = false) l.
Proof.
  induction l as [|x l IH]; simpl; [done|]. intros [Hx Hl]%andb_true_iff.
  destruct (comp_ok_spec _ Hx) as (_ & H1 & H2 & H3). destruct (IH Hl) as (A & B & C).
  repeat split; by constructor.
Qed.

(** [to_mod_name] of [c1/.../cn/m.e] is [c1. ... .cn.m], and [c1. ... .cn]
    when [m] is [__init__]. *)
Lemma to_mod_name_path cs m e :
  forallb comp_ok (app cs [m]) = true -> ext_ok e = true ->
  to_mod_name (join_on "/" (app cs [String.append m (String dot e)])) =
    join_dots (if String.eqb m "__init__" then cs else app cs [m]).
Proof.
  intros Hc He. unfold ext_ok in He. repeat (apply andb_true_iff in He as [He ?]).
  rewrite !negb_true_iff in *.
  destruct (forallb_comp_ok _ Hc) as (Hs & Hb & Hd).
  rewrite forallb_app in Hc. apply andb_true_iff in Hc as [_ Hm]. simpl in Hm.
  rewrite andb_true_r in Hm. destruct (comp_ok_spec _ Hm) as (Hm0 & Hms & Hmb & Hmd).
  assert (Hsep : forall c, str_contains c m = false -> str_contains c e = false -> Ascii.eqb dot c = false ->
            str_contains c (String.append m (String dot e)) = false).
  { intros c H1 H2 H3. rewrite str_contains_append. cbn [str_contains]. by rewrite H1, H2, H3. }
  apply Forall_app in Hs as [Hs _], Hb as [Hb _].
  unfold to_mod_name. rewrite split_join_on, bind_split_on_no_sep.
  - rewrite removelast_last, !last_last, strip_ext_append by done.
    destruct (String.eqb_spec m "__init__") as [->|Hne].
    + rewrite bool_decide_eq_true_2, removelast_last by done. done.
    + by rewrite bool_decide_eq_false_2.
  - apply Forall_app. split; [done|]. constructor; [|done]. by apply Hsep.
  - by destruct cs.
  - apply Forall_app. split; [done|]. constructor; [|done]. by apply Hsep.
Qed.

(** ['.'.join(l).split('.') == l] for components without dots. *)
Lemma split_join_dots l :
  l <> [] -> Forall (fun x => str_contains dot x = false) l -> split_dots (join_dots l) = l.
Proof. apply split_join_on. Qed.

#[export] Hint Resolve split_on_nonempty is_prefix_refl equal_attribute_refl : aid.
#[export] Hint Rewrite join_split_on : aid_rw.

Example split_dots_ex : split_dots "pkg.mod.Cls.m" = ["pkg"; "mod"; "Cls"; "m"].
Proof. reflexivity. Qed.
Example ext_ex : ext_class_of "pkg.X.run" = "pkg.X" /\ ext_method_of "pkg.X.run" = "run".
Proof. split; reflexivity. Qed.
Example to_mod_name_ex :
  to_mod_name "pkg/__init__.py" = "pkg" /\ to_mod_name "pkg\sub\m.py" = "pkg.sub.m" /\
  to_mod_name "__init__.py" = "" /\ to_mod_name "a/.hidden" = "a..hidden".
Proof. repeat split; reflexivity. Qed.
Example eqattr_ex : equal_attribute "X" "pkg.X" = true /\ equal_attribute "a.X" "b.X" = false.
Proof. split; reflexivity. Qed.
