(* ===== verification/Definitions.v ===== *)
(** * The definition store ([machinery.definitions.DefinitionManager])

    The store maps every fully-qualified namespace to its [Definition]: its
    kind and its points-to pointers.  A pointer is a dict from attribute to
    a Python [set] object; the set objects live in a [pointer_heap] and are
    read with [deref].  The manager lives outside src/; its
    operations are modelled from the spec (sections 3 and 4.1): [create] is
    idempotent, [remove] also scrubs the namespace, in place, from every
    set object the remaining store holds,
    and [complete_definitions] adds an EXT placeholder for every namespace a
    pointer set names that the store lacks.  The theorems show the
    referential-integrity invariant (D1) that [complete_definitions]
    establishes and [remove] preserves. *)

From S2P Require Import Prelude.

(** ** Data *)

(** [utils.constants]: FUN_DEF, MOD_DEF, NAME_DEF, CLS_DEF, EXT_DEF. *)
Inductive def_kind := FUN_DEF | MOD_DEF | NAME_DEF | CLS_DEF | EXT_DEF.

#[export] Instance def_kind_eq_dec : EqDecision def_kind.
Proof. solve_decision. Defined.

(** The literal tags a [LiteralPointer] carries. *)
Inductive lit_tag := LitStr | LitInt | LitFloat | LitBool | LitNone.

#[export] Instance lit_tag_eq_dec : EqDecision lit_tag.
Proof. solve_decision. Defined.

#[export] Instance lit_tag_countable : Countable lit_tag.
Proof.
  refine (inj_countable'
    (fun t => match t with LitStr => 0 | LitInt => 1 | LitFloat => 2
                      | LitBool => 3 | LitNone => 4 end)
    (fun n => match n with 0 => LitStr | 1 => LitInt | 2 => LitFloat
                      | 3 => LitBool | _ => LitNone end) _).
  by intros [].
Defined.

(** The Python [set] objects the pointers hold, by identity: a
    post-processor may grow a set in place ([set.add]) or replace it, and
    [remove] scrubs the store's sets in place.  The convergence snapshot
    copies their values ([State.extract_defs]). *)
Abbreviation set_ref := positive.

Record pointer_heap := mkPHeap {
  heap_names : gmap set_ref (gset string);
  heap_lits : gmap set_ref (gset lit_tag);
}.

(** A [Definition]: its namespace, its kind, its name pointer (attribute ->
    the set of namespaces it holds, the root attribute being [""]) and its
    literal pointer (attribute -> the set of literal tags it holds). *)
Record defi := mkDefi {
  def_ns : string;
  def_type : def_kind;
  def_names : gmap string set_ref;
  def_lits : gmap string set_ref;
}.

Abbreviation def_store := (gmap string defi).

(** ** The values of pointers *)

(** The elements of a set object now. *)
Definition deref {V} `{Countable V} (objs : gmap set_ref (gset V)) (r : set_ref) : gset V :=
  default ∅ (objs !! r).

(** A pointer's dict with each set object read in the heap: the value
    Python's [==] on two such dicts compares. *)
Definition names_of (h : pointer_heap) (p : gmap string set_ref) : gmap string (gset string) :=
  deref (heap_names h) <$> p.

Definition lits_of (h : pointer_heap) (p : gmap string set_ref) : gmap string (gset lit_tag) :=
  deref (heap_lits h) <$> p.

(** ** Operations *)

(** [Definition(ns, def_type)]: empty pointers. *)
Definition new_defi (ns : string) (k : def_kind) : defi := mkDefi ns k ∅ ∅.

(** [create(ns, kind)]: an existing record is returned unchanged. *)
Definition dm_create (ns : string) (k : def_kind) (dm : def_store) : def_store * defi :=
  match dm !! ns with
  | Some d => (dm, d)
  | None => let d := new_defi ns k in (<[ns := d]> dm, d)
  end.

(** Every namespace a definition's name pointer names. *)
Definition defi_pointees (h : pointer_heap) (d : defi) : gset string :=
  ⋃ (snd <$> map_to_list (names_of h (def_names d))).

(** Every namespace any pointer set of the store names. *)
Definition store_pointees (h : pointer_heap) (dm : def_store) : gset string :=
  ⋃ ((fun kv => defi_pointees h kv.2) <$> map_to_list dm).

(** The name-set objects the store's definitions hold. *)
Definition store_name_refs (dm : def_store) : gset set_ref :=
  ⋃ ((fun kv => list_to_set (snd <$> map_to_list (def_names kv.2))) <$> map_to_list dm).

(** Erase [ns], in place, from every name-set object of [R]. *)
Definition scrub_heap (ns : string) (R : gset set_ref) (h : pointer_heap) : pointer_heap :=
  mkPHeap (map_imap (fun r s => Some (if decide (r ∈ R) then s ∖ {[ns]} else s)) (heap_names h))
          (heap_lits h).

(** [remove(ns)]: drop the record and erase [ns] from every pointer set of
    the store. *)
Definition dm_remove (ns : string) (hd : pointer_heap * def_store) : pointer_heap * def_store :=
  let dm' := delete ns hd.2 in (scrub_heap ns (store_name_refs dm') hd.1, dm').

(** The EXT placeholder [complete_definitions] creates. *)
Definition ext_placeholder (ns : string) : defi := new_defi ns EXT_DEF.

(** [complete_definitions()]: an EXT placeholder for every pointee that the
    store lacks; existing records and the set objects are untouched. *)
Definition complete_definitions (h : pointer_heap) (dm : def_store) : def_store :=
  dm ∪ set_to_map (fun ns => (ns, ext_placeholder ns)) (store_pointees h dm ∖ dom dm).

(** ** Invariants *)

(** (D1) every namespace in a pointer set is a key of the store. *)
Definition dm_closed (h : pointer_heap) (dm : def_store) : Prop := store_pointees h dm ⊆ dom dm.

(** Every record is stored under its own namespace. *)
Definition dm_keys_wf (dm : def_store) : Prop := map_Forall (fun ns d => def_ns d = ns) dm.

(** (D2) growth: every pointer set of an attribute is contained in the set
    of the same attribute later; a definition keeps its kind; the store
    keeps every namespace. *)
Definition ptr_le {V} `{Countable V} (p p' : gmap string (gset V)) : Prop :=
  forall k s, p !! k = Some s -> exists s', p' !! k = Some s' /\ s ⊆ s'.

Definition defi_le (h h' : pointer_heap) (d d' : defi) : Prop :=
  def_type d' = def_type d /\ ptr_le (names_of h (def_names d)) (names_of h' (def_names d')) /\
  ptr_le (lits_of h (def_lits d)) (lits_of h' (def_lits d')).

Definition store_le (hd hd' : pointer_heap * def_store) : Prop :=
  forall ns d, hd.2 !! ns = Some d -> exists d', hd'.2 !! ns = Some d' /\ defi_le hd.1 hd'.1 d d'.

(** ** Membership in pointer sets *)

Lemma elem_of_defi_pointees h d t :
  t ∈ defi_pointees h d <-> exists a r, def_names d !! a = Some r /\ t ∈ deref (heap_names h) r.
Proof.
  unfold defi_pointees, names_of. rewrite elem_of_union_list. setoid_rewrite list_elem_of_fmap.
  split.
  - intros (X & ([a s] & -> & Hin) & Ht).
    apply elem_of_map_to_list, lookup_fmap_Some in Hin as (r & <- & Hr). eauto.
  - intros (a & r & Hl & Ht). exists (deref (heap_names h) r). split; [|done].
    exists (a, deref (heap_names h) r). split; [done|].
    apply elem_of_map_to_list. by rewrite lookup_fmap, Hl.
Qed.

Lemma elem_of_store_pointees h dm t :
  t ∈ store_pointees h dm <-> exists ns d, dm !! ns = Some d /\ t ∈ defi_pointees h d.
Proof.
  unfold store_pointees. rewrite elem_of_union_list. setoid_rewrite list_elem_of_fmap.
  split.
  - intros (X & ([ns d] & -> & Hin) & Ht). apply elem_of_map_to_list in Hin. eauto.
  - intros (ns & d & Hl & Ht). exists (defi_pointees h d). split; [|done].
    exists (ns, d). split; [done|]. by apply elem_of_map_to_list.
Qed.

Lemma elem_of_store_name_refs dm r :
  r ∈ store_name_refs dm <-> exists ns d a, dm !! ns = Some d /\ def_names d !! a = Some r.
Proof.
  unfold store_name_refs. rewrite elem_of_union_list. setoid_rewrite list_elem_of_fmap. split.
  - intros (X & ([ns d] & -> & Hin) & Hr).
    apply elem_of_list_to_set, list_elem_of_fmap in Hr as ([a r'] & -> & Ha).
    apply elem_of_map_to_list in Hin, Ha. eauto.
  - intros (ns & d & a & Hd & Ha). eexists. split.
    + exists (ns, d). split; [done|by apply elem_of_map_to_list].
    + apply elem_of_list_to_set, list_elem_of_fmap.
      exists (a, r). split; [done|by apply elem_of_map_to_list].
Qed.

Lemma defi_pointees_new h ns k t : t ∉ defi_pointees h (new_defi ns k).
Proof. rewrite elem_of_defi_pointees. intros (a & s & Hl & _). simpl in Hl. by rewrite lookup_empty in Hl. Qed.

(** Scrubbing changes exactly the objects of [R]. *)
Lemma deref_scrub ns R h r :
  deref (heap_names (scrub_heap ns R h)) r =
    if decide (r ∈ R) then deref (heap_names h) r ∖ {[ns]} else deref (heap_names h) r.
Proof.
  unfold deref. simpl. rewrite map_lookup_imap.
  destruct (heap_names h !! r); simpl; case_decide; set_solver.
Qed.

Lemma defi_pointees_scrub ns R h d t :
  (forall a r, def_names d !! a = Some r -> r ∈ R) ->
  t ∈ defi_pointees (scrub_heap ns R h) d <-> t ∈ defi_pointees h d /\ t <> ns.
Proof.
  intros HR. rewrite !elem_of_defi_pointees. setoid_rewrite deref_scrub.
  split.
  - intros (a & r & Hr & Ht). rewrite decide_True in Ht by eauto. set_solver.
  - intros ((a & r & Hr & Ht) & Hne). exists a, r. rewrite decide_True by eauto. set_solver.
Qed.

Lemma store_name_refs_held dm ns d a r :
  dm !! ns = Some d -> def_names d !! a = Some r -> r ∈ store_name_refs dm.
Proof. intros. apply elem_of_store_name_refs. eauto. Qed.

(** ** [complete_definitions] *)

Lemma lookup_ext_map (Y : gset string) ns :
  (set_to_map (fun ns => (ns, ext_placeholder ns)) Y : def_store) !! ns =
    if decide (ns ∈ Y) then Some (ext_placeholder ns) else None.
Proof.
  assert (Hinj : forall y y', y ∈ Y -> y' ∈ Y ->
    (y, ext_placeholder y).1 = (y', ext_placeholder y').1 -> y = y') by done.
  case_decide as HY.
  - apply (lookup_set_to_map _ _ _ _ Hinj). eauto.
  - apply eq_None_not_Some. intros [x Hx].
    apply (lookup_set_to_map _ _ _ _ Hinj) in Hx as (y & Hy & Heq).
    by injection Heq as -> _.
Qed.

Lemma lookup_complete h dm ns :
  complete_definitions h dm !! ns =
    match dm !! ns with
    | Some d => Some d
    | None => if decide (ns ∈ store_pointees h dm) then Some (ext_placeholder ns) else None
    end.
Proof.
  unfold complete_definitions. rewrite lookup_union, lookup_ext_map.
  destruct (dm !! ns) eqn:E; [by case_decide|].
  apply not_elem_of_dom in E. simpl.
  repeat case_decide; first [reflexivity | set_solver].
Qed.

Lemma complete_subseteq h dm : dm ⊆ complete_definitions h dm.
Proof. apply map_union_subseteq_l. Qed.

Lemma store_pointees_complete h dm :
  store_pointees h (complete_definitions h dm) = store_pointees h dm.
Proof.
  apply set_eq. intros t. rewrite !elem_of_store_pointees. split.
  - intros (ns & d & Hl & Ht). rewrite lookup_complete in Hl.
    destruct (dm !! ns) eqn:E; [injection Hl as <-; eauto|].
    case_decide; [|done]. injection Hl as <-. by apply defi_pointees_new in Ht.
  - intros (ns & d & Hl & Ht). exists ns, d. split; [|done].
    by apply (lookup_weaken dm); [|apply complete_subseteq].
Qed.

(** (D1) holds after every [complete_definitions]. *)
Lemma complete_closed h dm : dm_closed h (complete_definitions h dm).
Proof.
  unfold dm_closed. rewrite store_pointees_complete. intros t Ht.
  apply elem_of_dom. rewrite lookup_complete.
  destruct (dm !! t); [done|]. by rewrite decide_True.
Qed.

Lemma complete_id h dm : dm_closed h dm -> complete_definitions h dm = dm.
Proof.
  intros Hc. apply map_eq. intros ns. rewrite lookup_complete.
  destruct (dm !! ns) eqn:E; [done|].
  rewrite decide_False; [done|]. intros Hin.
  apply Hc, elem_of_dom in Hin. rewrite E in Hin. by destruct Hin.
Qed.

(** [complete_definitions] is idempotent (spec 4.1). *)
Lemma complete_idem h dm :
  complete_definitions h (complete_definitions h dm) = complete_definitions h dm.
Proof. apply complete_id, complete_closed. Qed.

(** A record [complete_definitions] adds is the EXT placeholder. *)
Lemma complete_new_is_ext h dm ns d :
  dm !! ns = None -> complete_definitions h dm !! ns = Some d -> d = ext_placeholder ns.
Proof.
  intros E. rewrite lookup_complete, E. case_decide; [by intros [= <-]|done].
Qed.

(** ** [remove] *)

Lemma lookup_dm_remove ns hd t :
  (dm_remove ns hd).2 !! t = if decide (ns = t) then None else hd.2 !! t.
Proof. unfold dm_remove. simpl. rewrite lookup_delete. by case_decide. Qed.

Lemma dm_remove_pointees ns hd t :
  t ∈ store_pointees (dm_remove ns hd).1 (dm_remove ns hd).2 <->
  t ∈ store_pointees hd.1 (delete ns hd.2) /\ t <> ns.
Proof.
  unfold dm_remove. simpl. rewrite !elem_of_store_pointees. split.
  - intros (k & d & Hd & Ht).
    rewrite defi_pointees_scrub in Ht by eauto using store_name_refs_held. naive_solver.
  - intros ((k & d & Hd & Ht) & Hne). exists k, d. split; [done|].
    rewrite defi_pointees_scrub by eauto using store_name_refs_held. done.
Qed.

Lemma store_pointees_delete h ns dm : store_pointees h (delete ns dm) ⊆ store_pointees h dm.
Proof.
  intros t. rewrite !elem_of_store_pointees.
  intros (k & d & Hd & Ht). apply lookup_delete_Some in Hd. naive_solver.
Qed.

(** After [remove(ns)] the namespace is neither a key nor a pointee. *)
Lemma dm_remove_gone ns hd :
  (dm_remove ns hd).2 !! ns = None /\ ns ∉ store_pointees (dm_remove ns hd).1 (dm_remove ns hd).2.
Proof.
  split; [by rewrite lookup_dm_remove, decide_True|].
  rewrite dm_remove_pointees. naive_solver.
Qed.

(** (D3) [remove] preserves (D1). *)
Lemma dm_remove_closed ns hd :
  dm_closed hd.1 hd.2 -> dm_closed (dm_remove ns hd).1 (dm_remove ns hd).2.
Proof.
  intros Hc t Ht. apply dm_remove_pointees in Ht as [Ht Hne].
  apply store_pointees_delete, Hc, elem_of_dom in Ht as [d Hd].
  apply elem_of_dom. rewrite lookup_dm_remove, decide_False by done. by eexists.
Qed.

(** ** Keys *)

Lemma complete_keys_wf h dm : dm_keys_wf dm -> dm_keys_wf (complete_definitions h dm).
Proof.
  intros Hwf ns d Hl. rewrite lookup_complete in Hl.
  destruct (dm !! ns) eqn:E; [injection Hl as <-; by apply (Hwf ns)|].
  case_decide; [|done]. by injection Hl as <-.
Qed.

Lemma dm_remove_keys_wf ns hd : dm_keys_wf hd.2 -> dm_keys_wf (dm_remove ns hd).2.
Proof.
  intros Hwf t d Hl. rewrite lookup_dm_remove in Hl. case_decide; [done|].
  by apply (Hwf t).
Qed.

Lemma dm_create_keys_wf ns k dm :
  dm_keys_wf dm -> dm_keys_wf (dm_create ns k dm).1.
Proof.
  unfold dm_create. intros Hwf. destruct (dm !! ns); [done|].
  by apply map_Forall_insert_2.
Qed.

#[export] Hint Resolve complete_closed dm_remove_closed complete_subseteq
  complete_keys_wf dm_remove_keys_wf dm_create_keys_wf : aid.

(** ** Growth *)

#[export] Instance ptr_le_preorder {V} `{Countable V} : PreOrder (@ptr_le V _ _).
Proof.
  split.
  - intros p k s Hs. by exists s.
  - intros p1 p2 p3 H12 H23 k s Hs.
    destruct (H12 _ _ Hs) as (s2 & H2 & Hsub2). destruct (H23 _ _ H2) as (s3 & H3 & Hsub3).
    exists s3. split; [done|]. by etrans.
Qed.

Lemma defi_le_refl h d : defi_le h h d d.
Proof. split; [done|]. split; reflexivity. Qed.

Lemma defi_le_trans h1 h2 h3 d1 d2 d3 :
  defi_le h1 h2 d1 d2 -> defi_le h2 h3 d2 d3 -> defi_le h1 h3 d1 d3.
Proof.
  intros (Ht1 & Hn1 & Hl1) (Ht2 & Hn2 & Hl2).
  split; [congruence|]. split; by etrans.
Qed.

#[export] Instance store_le_preorder : PreOrder store_le.
Proof.
  split.
  - intros [h dm] ns d Hd. exists d. split; [done|apply defi_le_refl].
  - intros hd1 hd2 hd3 H12 H23 ns d Hd.
    destruct (H12 _ _ Hd) as (d2 & H2 & Hle2). destruct (H23 _ _ H2) as (d3 & H3 & Hle3).
    exists d3. split; [done|]. by eapply defi_le_trans.
Qed.

(** With the set objects unchanged, a larger store has grown. *)
Lemma store_le_subseteq h dm dm' : dm ⊆ dm' -> store_le (h, dm) (h, dm').
Proof.
  intros Hsub ns d Hd. exists d. split; [|apply defi_le_refl].
  by eapply lookup_weaken.
Qed.

Lemma complete_grows h dm : store_le (h, dm) (h, complete_definitions h dm).
Proof. apply store_le_subseteq, complete_subseteq. Qed.

(** Growing set objects in place grows every definition holding them. *)
Lemma store_le_heap_grow h h' dm :
  (forall r, deref (heap_names h) r ⊆ deref (heap_names h') r) -> heap_lits h' = heap_lits h ->
  store_le (h, dm) (h', dm).
Proof.
  intros Hn Hl ns d Hd. exists d. split; [done|]. split; [done|]. split.
  - intros a s. unfold names_of. rewrite lookup_fmap_Some. intros (r & <- & Hr).
    eexists. split; [by rewrite lookup_fmap, Hr|]. apply Hn.
  - unfold lits_of. simpl. rewrite Hl. reflexivity.
Qed.

#[export] Hint Resolve complete_grows store_le_subseteq defi_le_refl : aid.
