(* ===== verification/Scopes.v ===== *)
(** * The scope tree ([machinery.scopes.ScopeManager])

    Each scope has a fully-qualified namespace, a parent link, a table from
    simple names to the namespaces of the definitions bound there, and a
    counter map used to name anonymous sites ([<lambda>#3]).  The manager is
    outside src/; it is modelled from the spec (sections 3 and 4.2).  The
    lemmas show that resetting the counters makes the anonymous names of the
    next pass independent of the previous one (spec, section 5).  The lookup
    rule of section 4.2 (the scope, then its ancestors, then the module's
    import table) is [scope_lookup]/[lookup_name], a walk of the parent
    links on fuel; the theorems show that [add_scope] and [bind] keep the
    tree well formed and that, on a well-formed tree, the walk with more
    fuel than the namespace has characters decides the declarative rule
    [resolves]. *)

From S2P Require Import Prelude Namespace.

Record scope := mkScope {
  scope_fullns : string;
  scope_parent : option string;
  scope_defs : gmap string string;
  scope_cnt : gmap string nat;
}.

Abbreviation scope_tree := (gmap string scope).

(** [ScopeItem.reset_counters()]: every counter back to 0. *)
Definition scope_reset_counters (sc : scope) : scope :=
  mkScope (scope_fullns sc) (scope_parent sc) (scope_defs sc) ((fun _ => 0) <$> scope_cnt sc).

(** The value of a counter, 0 when the counter was never used. *)
Definition scope_counter (key : string) (sc : scope) : nat :=
  default 0 (scope_cnt sc !! key).

(** [inc_*_counter()]: bump a counter and return its new value, the number
    the front-end puts in the anonymous site's name. *)
Definition scope_inc_counter (key : string) (sc : scope) : scope * nat :=
  let n := S (scope_counter key sc) in
  (mkScope (scope_fullns sc) (scope_parent sc) (scope_defs sc) (<[key := n]> (scope_cnt sc)), n).

(** [bind(scope, simple_name, defn)]. *)
Definition scope_bind (name ns : string) (sc : scope) : scope :=
  mkScope (scope_fullns sc) (scope_parent sc) (<[name := ns]> (scope_defs sc)) (scope_cnt sc).

(** [add_scope(parent_ns, name)]: a fresh child scope. *)
Definition add_scope (parent_ns name : string) (st : scope_tree) : scope_tree * scope :=
  let ns := String.append parent_ns (String dot name) in
  let sc := mkScope ns (Some parent_ns) ∅ ∅ in
  (<[ns := sc]> st, sc).

(** The namespaces of a scope's local definitions (the scope part of the
    convergence snapshot). *)
Definition scope_local_nss (sc : scope) : gset string := map_img (scope_defs sc).

(** The anonymous numbers a sequence of counter bumps produces. *)
Fixpoint run_counters (keys : list string) (sc : scope) : scope * list nat :=
  match keys with
  | [] => (sc, [])
  | k :: ks =>
      let '(sc1, n) := scope_inc_counter k sc in
      let '(sc2, ns) := run_counters ks sc1 in
      (sc2, n :: ns)
  end.

(** ** The lookup rule (spec, section 4.2)

    A simple name is searched in the scope, then in its parent, and so on
    up to the module scope; [scope_lookup] walks the parent links with
    [fuel] bounding the walk ([None]: not found, or out of fuel).  The
    import table the spec consults next is the module's map from imported
    simple names to namespaces; a name still missing is the caller's
    business (usually an EXT definition), here [None]. *)
Fixpoint scope_lookup (fuel : nat) (st : scope_tree) (ns name : string) : option string :=
  match fuel with
  | O => None
  | S fuel' =>
      match st !! ns with
      | None => None
      | Some sc =>
          match scope_defs sc !! name with
          | Some d => Some d
          | None =>
              match scope_parent sc with
              | Some p => scope_lookup fuel' st p name
              | None => None
              end
          end
      end
  end.

Definition lookup_name (fuel : nat) (st : scope_tree) (imports : gmap string string)
    (ns name : string) : option string :=
  match scope_lookup fuel st ns name with
  | Some d => Some d
  | None => imports !! name
  end.

(** [bind] on the tree: the scope [ns], if it exists, gets [name := d]. *)
Definition tree_bind (ns name d : string) (st : scope_tree) : scope_tree :=
  match st !! ns with
  | Some sc => <[ns := scope_bind name d sc]> st
  | None => st
  end.

(** The declarative rule: [name] resolves to [d] from scope [ns]. *)
Inductive resolves (st : scope_tree) : string -> string -> string -> Prop :=
  | resolves_here ns name sc d :
      st !! ns = Some sc -> scope_defs sc !! name = Some d -> resolves st ns name d
  | resolves_parent ns name sc p d :
      st !! ns = Some sc -> scope_defs sc !! name = None -> scope_parent sc = Some p ->
      resolves st p name d -> resolves st ns name d.

(** Well-formedness of the tree: each scope is stored under its own
    namespace, and a parent's namespace is shorter than its child's (it is a
    proper prefix, since [add_scope] appends [.name]), so the parent walk
    ends within [String.length ns] steps. *)
Definition parent_shorter (ns : string) (sc : scope) : bool :=
  match scope_parent sc with
  | Some p => Nat.ltb (String.length p) (String.length ns)
  | None => true
  end.

Definition scope_tree_wf (st : scope_tree) : Prop :=
  map_Forall (fun ns sc => scope_fullns sc = ns /\ parent_shorter ns sc = true) st.

#[export] Instance scope_tree_wf_dec st : Decision (scope_tree_wf st).
Proof. unfold scope_tree_wf. apply _. Defined.

(** A module [m] binding [x], with a function scope [m.f] created in it. *)
Definition module_scope : scope := mkScope "m" None {[ "x" := "m.x" ]} ∅.
Definition fixture_tree : scope_tree := (add_scope "m" "f" {[ "m" := module_scope ]}).1.

(** ** Lemmas *)

Lemma scope_counter_reset key sc : scope_counter key (scope_reset_counters sc) = 0.
Proof.
  unfold scope_counter, scope_reset_counters. simpl.
  rewrite lookup_fmap. by destruct (scope_cnt sc !! key).
Qed.

Lemma scope_counter_inc k k' sc :
  scope_counter k' (scope_inc_counter k sc).1 =
    if decide (k = k') then S (scope_counter k sc) else scope_counter k' sc.
Proof.
  unfold scope_counter at 1. simpl. rewrite lookup_insert.
  by case_decide; [subst|].
Qed.

Lemma run_counters_cons_snd k ks sc :
  (run_counters (k :: ks) sc).2 =
    S (scope_counter k sc) :: (run_counters ks (scope_inc_counter k sc).1).2.
Proof. simpl. by destruct (run_counters ks _). Qed.

(** Two scopes whose counters read the same give the same anonymous numbers. *)
Lemma run_counters_ext keys sc1 sc2 :
  (forall k, scope_counter k sc1 = scope_counter k sc2) ->
  (run_counters keys sc1).2 = (run_counters keys sc2).2.
Proof.
  revert sc1 sc2. induction keys as [|k ks IH]; intros sc1 sc2 Heq; [done|].
  rewrite !run_counters_cons_snd, Heq. f_equal. apply IH.
  intros k'. rewrite !scope_counter_inc. case_decide; by rewrite Heq.
Qed.

(** After [reset_counters()] the anonymous numbers of a pass do not depend on
    what the previous pass counted. *)
Lemma run_counters_after_reset keys sc1 sc2 :
  (run_counters keys (scope_reset_counters sc1)).2 =
  (run_counters keys (scope_reset_counters sc2)).2.
Proof. apply run_counters_ext. intros k. by rewrite !scope_counter_reset. Qed.

Lemma string_length_append a b :
  String.length (String.append a b) = String.length a + String.length b.
Proof.
  induction a as [|c a IH]; [done|].
  change (String.append (String c a) b) with (String c (String.append a b)).
  cbn [String.length]. by rewrite IH.
Qed.

Lemma scope_lookup_sound fuel st ns name d :
  scope_lookup fuel st ns name = Some d -> resolves st ns name d.
Proof.
  revert ns. induction fuel as [|fuel IH]; intros ns; simpl; [done|].
  destruct (st !! ns) as [sc|] eqn:Hs; [|done].
  destruct (scope_defs sc !! name) as [d'|] eqn:Hd.
  - intros [= <-]. by eapply resolves_here.
  - destruct (scope_parent sc) as [p|] eqn:Hp; [|done].
    intros H. eapply resolves_parent; [exact Hs|exact Hd|exact Hp|]. by apply IH.
Qed.

Lemma scope_lookup_complete st ns name d fuel :
  scope_tree_wf st -> resolves st ns name d -> String.length ns < fuel ->
  scope_lookup fuel st ns name = Some d.
Proof.
  intros Hwf Hr. revert fuel.
  induction Hr as [ns name sc d Hs Hd|ns name sc p d Hs Hd Hp _ IH]; intros [|fuel] Hf;
    try lia; simpl; rewrite Hs, Hd; [done|].
  rewrite Hp. apply IH. destruct (Hwf ns sc Hs) as [_ Hlt].
  unfold parent_shorter in Hlt. rewrite Hp in Hlt. apply Nat.ltb_lt in Hlt. lia.
Qed.

Lemma scope_bind_wf ns name d sc :
  scope_fullns sc = ns /\ parent_shorter ns sc = true ->
  scope_fullns (scope_bind name d sc) = ns /\ parent_shorter ns (scope_bind name d sc) = true.
Proof. done. Qed.

(** ** Theorems *)

(** Creating a scope and binding a name keep the tree
    well formed: every scope under its own namespace, every parent's
    namespace shorter than its child's. *)
Theorem scope_ops_wf st parent_ns name ns x d :
  scope_tree_wf st ->
  scope_tree_wf (add_scope parent_ns name st).1 /\ scope_tree_wf (tree_bind ns x d st).
Proof.
  intros Hwf. split.
  - apply map_Forall_insert_2; [|done]. split; [done|].
    apply Nat.ltb_lt. rewrite string_length_append. cbn [String.length]. lia.
  - unfold tree_bind. destruct (st !! ns) as [sc|] eqn:Hs; [|done].
    apply map_Forall_insert_2; [|done]. exact (Hwf ns sc Hs).
Qed.

Section Lookup.
Context (st : scope_tree) (Hwf : scope_tree_wf st).

Lemma scope_lookup_det ns x d d' fuel :
  String.length ns < fuel -> scope_lookup fuel st ns x = Some d' ->
  resolves st ns x d -> d = d'.
Proof. intros Hf H Hr. rewrite (scope_lookup_complete st ns x d fuel Hwf Hr Hf) in H. congruence. Qed.

(** In a well-formed tree, with more fuel than the
    namespace has characters, the lookup of a simple name returns [d]
    exactly when the lookup rule resolves it to [d] (in the scope or the
    nearest ancestor that binds it), and otherwise falls back to the
    module's import table. *)
Theorem lookup_name_spec imports ns x d fuel :
  String.length ns < fuel ->
  lookup_name fuel st imports ns x = Some d <->
    resolves st ns x d \/ ((forall d', ~ resolves st ns x d') /\ imports !! x = Some d).
Proof.
  intros Hf. unfold lookup_name.
  destruct (scope_lookup fuel st ns x) as [d'|] eqn:Hl.
  - pose proof (scope_lookup_sound _ _ _ _ _ Hl) as Hr. split.
    + intros [= <-]. by left.
    + intros [Hr'|[Hn _]]; [|by destruct (Hn d')].
      by rewrite (scope_lookup_det ns x d d' fuel Hf Hl Hr').
  - split.
    + intros Hi. right. split; [|done]. intros d' Hr.
      rewrite (scope_lookup_complete st ns x d' fuel Hwf Hr Hf) in Hl. done.
    + intros [Hr|[_ Hi]]; [|done].
      rewrite (scope_lookup_complete st ns x d fuel Hwf Hr Hf) in Hl. done.
Qed.

End Lookup.

Lemma scope_ops_wf_witness :
  scope_tree_wf {[ "m" := module_scope ]} /\
  scope_tree_wf fixture_tree /\ scope_tree_wf (tree_bind "m" "y" "m.y" {[ "m" := module_scope ]}).
Proof.
  assert (H : scope_tree_wf {[ "m" := module_scope ]}) by decide_closed.
  split; [exact H|]. exact (scope_ops_wf _ "m" "f" "m" "y" "m.y" H).
Defined.

Lemma lookup_name_spec_witness :
  scope_tree_wf fixture_tree /\ String.length "m.f" < 4 /\
  lookup_name 4 fixture_tree ∅ "m.f" "x" = Some "m.x" /\
  (lookup_name 4 fixture_tree ∅ "m.f" "x" = Some "m.x" <->
     resolves fixture_tree "m.f" "x" "m.x" \/
     ((forall d', ~ resolves fixture_tree "m.f" "x" d') /\ (∅ : gmap string string) !! "x" = Some "m.x")).
Proof.
  assert (H : scope_tree_wf fixture_tree) by decide_closed.
  split; [exact H|]. split; [cbn; lia|]. split; [vm_compute; reflexivity|].
  apply (lookup_name_spec fixture_tree H). cbn; lia.
Defined.

#[export] Hint Rewrite scope_counter_reset : aid_rw.
