(* ===== verification/Classes.v ===== *)
(** * The class registry ([machinery.classes.ClassManager])

    A class descriptor has its namespace, its owning module, its declared
    bases and its linearised MRO.  The registry is outside src/ and is
    modelled from the spec (sections 3 and 4.3): a new class starts with the
    MRO [self]; its MRO is recomputed by C3 over the bases currently known,
    and a C3 failure degrades it to [self].  The invariant [cm_wf] (the MRO
    starts with the class itself, spec property 6) holds for every registry
    these operations build.  The merge is proved valid (no duplicates,
    every input list a subsequence, exactly the inputs' classes) and its
    fuel, the total length of the lists, is shown to be enough: every step
    removes the chosen head from at least one list. *)

From S2P Require Import Prelude.

Record class_node := mkClass {
  cls_ns : string;
  cls_module : string;
  cls_bases : list string;
  cls_mro : list string;
}.

Abbreviation class_manager := (gmap string class_node).

(** ** C3 linearisation *)

(** A candidate head: the head of some list that occurs in no list's tail. *)
Definition in_some_tail (x : string) (seqs : list (list string)) : bool :=
  existsb (fun l => bool_decide (x ∈ tail l)) seqs.

Fixpoint find_c3_head (cands seqs : list (list string)) : option string :=
  match cands with
  | [] => None
  | [] :: rest => find_c3_head rest seqs
  | (h :: _) :: rest => if in_some_tail h seqs then find_c3_head rest seqs else Some h
  end.

(** Drop [h] from the front of every list that starts with it. *)
Definition drop_head (h : string) (l : list string) : list string :=
  match l with
  | x :: l' => if bool_decide (x = h) then l' else l
  | [] => []
  end.

Definition seqs_size (seqs : list (list string)) : nat := sum_list (length <$> seqs).

(** C3's [merge]; [None] is an inconsistent hierarchy.  Each step removes
    the chosen head from at least one list, so [seqs_size seqs] steps are
    enough. *)
Fixpoint c3_merge_fuel (fuel : nat) (seqs : list (list string)) : option (list string) :=
  if bool_decide (seqs_size seqs = 0) then Some []
  else match fuel with
       | O => None
       | S f =>
           match find_c3_head seqs seqs with
           | None => None
           | Some h => cons h <$> c3_merge_fuel f (drop_head h <$> seqs)
           end
       end.

Definition c3_merge (seqs : list (list string)) : option (list string) :=
  c3_merge_fuel (seqs_size seqs) seqs.

(** ** Operations *)

(** [ClassNode(ns, module)]: a new class is its own MRO. *)
Definition new_class (ns module : string) : class_node := mkClass ns module [] [ns].

(** [add_class(ns, module_ns)]: an existing descriptor is kept. *)
Definition cm_add_class (ns module : string) (cm : class_manager) : class_manager :=
  match cm !! ns with
  | Some _ => cm
  | None => <[ns := new_class ns module]> cm
  end.

(** The C3 MRO of a class over its currently known bases; a base that is
    not registered is left out, and a C3 failure gives [self]. *)
Definition c3_known (c : class_node) (cm : class_manager) : list string :=
  filter (fun b => is_Some (cm !! b)) (cls_bases c).

(** The lists C3 merges: the MRO of every known base, then the known bases. *)
Definition c3_inputs (c : class_node) (cm : class_manager) : list (list string) :=
  ((fun b => default [b] (cls_mro <$> cm !! b)) <$> c3_known c cm) ++ [c3_known c cm].

Definition c3_mro (c : class_node) (cm : class_manager) : list string :=
  match c3_merge (c3_inputs c cm) with
  | Some l => cls_ns c :: l
  | None => [cls_ns c]
  end.

(** [set_bases(ns, bases)] followed by the recomputation of the MRO. *)
Definition cm_set_bases (ns : string) (bases : list string) (cm : class_manager) : class_manager :=
  alter (fun c => let c' := mkClass (cls_ns c) (cls_module c) bases (cls_mro c) in
                  mkClass (cls_ns c) (cls_module c) bases (c3_mro c' cm)) ns cm.

(** The diamond [D(B, C, X)] with [B(A)] and [C(A)]; [X] is not registered. *)
Definition diamond_cm : class_manager :=
  {[ "A" := mkClass "A" "m" [] ["A"];
     "B" := mkClass "B" "m" ["A"] ["B"; "A"];
     "C" := mkClass "C" "m" ["A"] ["C"; "A"] ]}.
Definition diamond_D : class_node := mkClass "D" "m" ["B"; "C"; "X"] ["D"].

(** ** Invariant: every descriptor is stored under its namespace and its MRO
    starts with it. *)
Definition cm_wf (cm : class_manager) : Prop :=
  map_Forall (fun ns c => cls_ns c = ns /\ head (cls_mro c) = Some ns) cm.

Lemma c3_mro_head c cm : head (c3_mro c cm) = Some (cls_ns c).
Proof. unfold c3_mro. by destruct (c3_merge _). Qed.

Lemma cm_add_class_wf ns module cm : cm_wf cm -> cm_wf (cm_add_class ns module cm).
Proof.
  unfold cm_add_class. intros Hwf. destruct (cm !! ns); [done|].
  by apply map_Forall_insert_2.
Qed.

Lemma cm_set_bases_wf ns bases cm : cm_wf cm -> cm_wf (cm_set_bases ns bases cm).
Proof.
  intros Hwf k c Hk. unfold cm_set_bases in Hk.
  apply lookup_alter_Some in Hk as [(-> & c0 & Hc0 & ->) | [_ Hk]].
  - destruct (Hwf _ _ Hc0) as [Hns _]. simpl. rewrite c3_mro_head. simpl. by rewrite Hns.
  - by apply Hwf.
Qed.

(** *** Validity of the merge *)

Lemma find_c3_head_spec cands seqs h :
  find_c3_head cands seqs = Some h ->
  (exists l, (h :: l) ∈ cands) /\ in_some_tail h seqs = false.
Proof.
  induction cands as [|[|x l] rest IH]; simpl; [done| |].
  - intros H. destruct (IH H) as [[l Hl] Ht]. split; [|done]. exists l. by right.
  - destruct (in_some_tail x seqs) eqn:Ht.
    + intros H. destruct (IH H) as [[l' Hl] Ht']. split; [|done]. exists l'. by right.
    + intros [= <-]. split; [|done]. exists l. by left.
Qed.

Lemma not_in_some_tail h seqs s :
  in_some_tail h seqs = false -> s ∈ seqs -> h ∉ tail s.
Proof.
  unfold in_some_tail. intros Hn Hs Ht.
  assert (existsb (fun l => bool_decide (h ∈ tail l)) seqs = true) as Hc; [|congruence].
  apply existsb_exists. exists s. split; [by apply list_elem_of_In|by apply bool_decide_eq_true].
Qed.

(** A chosen head is in no list after [drop_head]. *)
Lemma drop_head_gone h s : h ∉ tail s -> h ∉ drop_head h s.
Proof.
  destruct s as [|x s]; simpl; [by intros _ ?%elem_of_nil|].
  intros Ht. case_bool_decide as Hx; [done|]. intros [->|?]%elem_of_cons; done.
Qed.

Lemma drop_head_sublist h s : drop_head h s `sublist_of` s.
Proof.
  destruct s as [|x s]; simpl; [done|]. case_bool_decide; [by apply sublist_cons|done].
Qed.

Lemma drop_head_sublist_cons h s : s `sublist_of` h :: drop_head h s.
Proof.
  destruct s as [|x s]; simpl; [apply sublist_nil_l|].
  case_bool_decide as Hx; [subst; done|]. by apply sublist_cons.
Qed.

Lemma seqs_size_zero seqs s : seqs_size seqs = 0 -> s ∈ seqs -> s = [].
Proof.
  unfold seqs_size. induction seqs as [|s' seqs IH]; [by intros _ ?%elem_of_nil|].
  rewrite fmap_cons. cbn [sum_list sum_list_with id].
  intros Hz [->|Hs]%elem_of_cons; [destruct s'; [done|simpl in Hz; lia]|].
  apply IH; [lia|done].
Qed.

Lemma seqs_size_drop_le h seqs : seqs_size (drop_head h <$> seqs) <= seqs_size seqs.
Proof.
  unfold seqs_size. induction seqs as [|s seqs IH]; [done|].
  rewrite !fmap_cons. cbn [sum_list sum_list_with id].
  pose proof (sublist_length _ _ (drop_head_sublist h s)). lia.
Qed.

(** A step removes the head it chose from at least one list. *)
Lemma seqs_size_drop_lt h l seqs :
  (h :: l) ∈ seqs -> seqs_size (drop_head h <$> seqs) < seqs_size seqs.
Proof.
  induction seqs as [|s seqs IH]; [by intros ?%elem_of_nil|].
  pose proof (sublist_length _ _ (drop_head_sublist h s)).
  pose proof (seqs_size_drop_le h seqs).
  unfold seqs_size in *. rewrite !fmap_cons. cbn [sum_list sum_list_with id]. intros [<-|Hs]%elem_of_cons.
  - cbn [drop_head length]. rewrite bool_decide_true by done. lia.
  - specialize (IH Hs). lia.
Qed.

(** What C3 promises: the result has no duplicates, every input list is a
    subsequence of it, and it holds exactly the elements of the inputs. *)
Definition c3_valid (seqs : list (list string)) (l : list string) : Prop :=
  NoDup l /\ Forall (fun s => s `sublist_of` l) seqs /\
  (forall x, x ∈ l <-> exists s, s ∈ seqs /\ x ∈ s).

Lemma c3_merge_fuel_valid fuel seqs l :
  c3_merge_fuel fuel seqs = Some l -> c3_valid seqs l.
Proof.
  revert seqs l. induction fuel as [|fuel IH]; intros seqs l; simpl;
    case_bool_decide as Hz.
  1,3: intros [= <-]; split; [constructor|]; split;
    [apply Forall_forall; intros s Hs; rewrite (seqs_size_zero _ _ Hz Hs); done|];
    intros x; split; [by intros ?%elem_of_nil|];
    intros (s & Hs & Hx); rewrite (seqs_size_zero _ _ Hz Hs) in Hx; by apply elem_of_nil in Hx.
  1: done.
  destruct (find_c3_head seqs seqs) as [h|] eqn:Hh; [|done].
  destruct (c3_merge_fuel fuel _) as [l'|] eqn:Hl; [|done]. intros [= <-].
  destruct (find_c3_head_spec _ _ _ Hh) as [[l0 Hl0] Ht].
  destruct (IH _ _ Hl) as (Hnd & Hsub & Hel).
  split; [|split].
  - constructor; [|done]. intros (s' & (s & -> & Hs)%list_elem_of_fmap & Hx)%Hel.
    exact (drop_head_gone h s (not_in_some_tail h seqs s Ht Hs) Hx).
  - apply Forall_forall. intros s Hs. etrans; [apply drop_head_sublist_cons|].
    apply sublist_skip. rewrite Forall_forall in Hsub. apply Hsub, list_elem_of_fmap. by exists s.
  - intros x. rewrite elem_of_cons, Hel. split.
    + intros [->|(s' & (s & -> & Hs)%list_elem_of_fmap & Hx)].
      * exists (h :: l0). split; [done|]. by left.
      * exists s. split; [done|]. exact (elem_of_sublist _ _ _ Hx (drop_head_sublist h s)).
    + intros (s & Hs & Hx). destruct (decide (x = h)) as [->|Hne]; [by left|right].
      exists (drop_head h s). split; [apply list_elem_of_fmap; by exists s|].
      pose proof (elem_of_sublist _ _ _ Hx (drop_head_sublist_cons h s)) as Hx'.
      apply elem_of_cons in Hx' as [?|?]; done.
Qed.

(** Fuel adequacy: with at least [seqs_size seqs] steps the merge gives the
    same answer as [c3_merge]; running out of fuel never causes a failure. *)
Lemma c3_merge_fuel_enough fuel1 fuel2 seqs :
  seqs_size seqs <= fuel1 -> seqs_size seqs <= fuel2 ->
  c3_merge_fuel fuel1 seqs = c3_merge_fuel fuel2 seqs.
Proof.
  revert fuel2 seqs. induction fuel1 as [|f1 IH]; intros [|f2] seqs H1 H2; simpl;
    case_bool_decide; try done; try lia.
  destruct (find_c3_head seqs seqs) as [h|] eqn:Hh; [|done].
  destruct (find_c3_head_spec _ _ _ Hh) as [[l0 Hl0] _].
  pose proof (seqs_size_drop_lt h l0 seqs Hl0). f_equal. apply IH; lia.
Qed.

(** Spec property 6: when C3 succeeds on a class's known
    bases, its MRO is the class followed by the merge, and the merge is a
    valid C3 linearisation: no duplicates, the MRO of every known base and
    the list of known bases are subsequences of it (local precedence and
    monotonicity), and it holds exactly the classes of those lists. *)
Theorem c3_mro_valid c cm l :
  c3_merge (c3_inputs c cm) = Some l ->
  c3_mro c cm = cls_ns c :: l /\ c3_valid (c3_inputs c cm) l.
Proof.
  intros H. unfold c3_mro. rewrite H. split; [done|]. exact (c3_merge_fuel_valid _ _ _ H).
Qed.

Lemma c3_mro_valid_witness :
  c3_merge (c3_inputs diamond_D diamond_cm) = Some ["B"; "C"; "A"] /\
  c3_mro diamond_D diamond_cm = ["D"; "B"; "C"; "A"] /\
  c3_valid (c3_inputs diamond_D diamond_cm) ["B"; "C"; "A"].
Proof.
  assert (H : c3_merge (c3_inputs diamond_D diamond_cm) = Some ["B"; "C"; "A"])
    by (vm_compute; reflexivity).
  split; [exact H|]. exact (c3_mro_valid diamond_D diamond_cm _ H).
Defined.

Example c3_diamond :
  c3_merge [["B"; "A"]; ["C"; "A"]; ["B"; "C"]] = Some ["B"; "C"; "A"].
Proof. reflexivity. Qed.
