(* ===== verification/Modules.v ===== *)
(** * The module registry ([machinery.modules.ModuleManager])

    Internal modules (their source was parsed) and external ones (no source
    path), each with the list of its top-level callables.  The registry is
    outside src/ and is modelled from the spec (sections 3 and 4). *)

From S2P Require Import Prelude.

Record module_node := mkModule {
  mod_name : string;
  mod_filename : option string;
  mod_methods : list string;
}.

Record module_manager := mkModuleManager {
  internal_mods : gmap string module_node;
  external_mods : gmap string module_node;
}.

Definition empty_module_manager : module_manager := mkModuleManager ∅ ∅.

(** [create(name, fname, external)]: a module without a source path is
    external; an existing module is kept. *)
Definition mm_create (name : string) (fname : option string) (mm : module_manager)
    : module_manager :=
  let node := mkModule name fname [] in
  match fname with
  | Some _ =>
      match internal_mods mm !! name with
      | Some _ => mm
      | None => mkModuleManager (<[name := node]> (internal_mods mm)) (external_mods mm)
      end
  | None =>
      match external_mods mm !! name with
      | Some _ => mm
      | None => mkModuleManager (internal_mods mm) (<[name := node]> (external_mods mm))
      end
  end.

(** [add_method(method)] on a module: appended once. *)
Definition mod_add_method (m : string) (node : module_node) : module_node :=
  if bool_decide (m ∈ mod_methods node) then node
  else mkModule (mod_name node) (mod_filename node) (mod_methods node ++ [m]).

(** Internal modules have a source path, external ones none. *)
Definition mm_wf (mm : module_manager) : Prop :=
  map_Forall (fun _ n => is_Some (mod_filename n)) (internal_mods mm) /\
  map_Forall (fun _ n => mod_filename n = None) (external_mods mm).

Lemma mm_create_wf name fname mm : mm_wf mm -> mm_wf (mm_create name fname mm).
Proof.
  intros [Hi He]. unfold mm_create.
  destruct fname as [f|].
  - destruct (internal_mods mm !! name); [done|]. split; [|done].
    apply map_Forall_insert_2; [simpl; by eexists|done].
  - destruct (external_mods mm !! name); [done|]. split; [done|].
    by apply map_Forall_insert_2.
Qed.

#[export] Hint Resolve mm_create_wf : aid.
