(* ===== verification/Collaborators.v ===== *)
(** * The engine's collaborators and the interfaces it calls them through

    [CallGraphGenerator] owns five managers (created in [setUp],
    src/AID/AID.py lines 30-37) and hands them by reference to the
    front-end processors.  This file holds
    - the import manager's hook state (spec 4.4, modelled from the spec);
    - the [managers] record, the engine's shared store: the five managers
      and the heap of the set objects the definitions' pointers hold;
    - the outputs of the downstream passes (type inference, dataflow,
      parameters, call graph, key errors), as the spec shapes them
      (sections 4.7-4.10);
    - the interface [FrontEnd]: one operation per collaborator class the
      engine calls ([PreProcessor], [PostProcessor], [CallGraphProcessor],
      [KeyErrProcessor], [ParameterExtraction], [TypeInference],
      [Dataflow], [CallGraph.generate_datacg]); a processor's [analyze()]
      mutates the managers it was given and either returns (the result is
      its [get_modules_analyzed()]) or raises, leaving the managers as they
      were at the raise;
    - the interface [OsPath] for the three [os.path] functions the driver
      calls.
    The driver's theorems are proved for every instance of these classes;
    the laws some of them need are hypotheses of their sections. *)

From S2P Require Import Prelude Namespace Definitions Scopes Classes Modules.

(** ** Import hooks ([machinery.imports.ImportManager]) *)

Record import_manager := mkImportManager {
  im_pkg : option string;
  im_hooks_installed : bool;
}.

Definition im_set_pkg (pkg : option string) (im : import_manager) : import_manager :=
  mkImportManager pkg (im_hooks_installed im).
Definition im_install_hooks (im : import_manager) : import_manager :=
  mkImportManager (im_pkg im) true.
(** [remove_hooks()] restores the saved import machinery: idempotent. *)
Definition im_remove_hooks (im : import_manager) : import_manager :=
  mkImportManager (im_pkg im) false.

(** ** The shared store *)

(** The five managers, and the set objects the Definitions' pointers hold
    (they are Python objects the processors grow in place or replace). *)
Record managers := mkManagers {
  import_mgr : import_manager;
  scope_mgr : scope_tree;
  def_mgr : def_store;
  class_mgr : class_manager;
  module_mgr : module_manager;
  ptr_heap : pointer_heap;
}.

Definition set_def_mgr (dm : def_store) (m : managers) : managers :=
  mkManagers (import_mgr m) (scope_mgr m) dm (class_mgr m) (module_mgr m) (ptr_heap m).
Definition set_scope_mgr (st : scope_tree) (m : managers) : managers :=
  mkManagers (import_mgr m) st (def_mgr m) (class_mgr m) (module_mgr m) (ptr_heap m).
Definition set_import_mgr (im : import_manager) (m : managers) : managers :=
  mkManagers im (scope_mgr m) (def_mgr m) (class_mgr m) (module_mgr m) (ptr_heap m).
Definition set_ptr_heap (h : pointer_heap) (m : managers) : managers :=
  mkManagers (import_mgr m) (scope_mgr m) (def_mgr m) (class_mgr m) (module_mgr m) h.

(** ** Outputs of the downstream passes *)

Record ti_result := mkTI {
  attribute_matching_to_class : gmap string (gset string);
  methods_with_no_path : gset string;
  attributes_with_no_path : gset string;
}.

Record df_result := mkDF {
  df_methods : gset string;
  df_assign_information : gmap string (gset string);
  df_return_information : gmap string (gset string);
}.

Record call_graph := mkCG {
  cg_edges : gmap string (gset string);
  cg_dataflow : option (df_result * gmap string (list string));
}.

Definition empty_call_graph : call_graph := mkCG ∅ None.

(** [CallGraph.add_dataflow_info(methods, assign, return, parameters)]. *)
Definition add_dataflow_info (df : df_result) (params : gmap string (list string))
    (cg : call_graph) : call_graph :=
  mkCG (cg_edges cg) (Some (df, params)).

Record key_err := mkKeyErr { ke_ns : string; ke_key : string }.

(** ** Interfaces *)

(** What a processor's constructor receives besides the managers. *)
Record proc_input := mkProcInput {
  pi_file : string;
  pi_mod : string;
  pi_analyzed : gset string;
}.

(** The collaborator classes the driver calls, each receiving the managers
    by reference: a step on the managers that may change them or raise.
    [get_parameter] is [ParameterExtraction(...).get_parameter()],
    [type_infer] is [TypeInference(...).generate()] with its three result
    fields, [dataflow_info] is [Dataflow(...)] with [get_all_methods()],
    [get_assign()] and [get_return()] in that order, and [generate_datacg]
    is [CallGraph.generate_datacg()]. *)
Class FrontEnd := {
  pre_analyze : proc_input -> pyM managers (gset string);
  post_analyze : proc_input -> pyM managers (gset string);
  cg_analyze : ti_result -> proc_input -> pyM (managers * call_graph) (gset string);
  keyerr_analyze : proc_input -> pyM (managers * list key_err) (gset string);
  get_parameter : pyM managers (gmap string (list string));
  type_infer : pyM managers ti_result;
  dataflow_info : pyM managers df_result;
  generate_datacg : call_graph -> call_graph;
}.

Class OsPath := {
  os_relpath : string -> option string -> string;
  os_abspath : string -> string;
  os_dirname : string -> string;
}.

(** Python's truth value of an optional string: [None] and [""] are false. *)
Definition str_truthy (o : option string) : bool :=
  match o with Some s => negb (String.eqb s "") | None => false end.
