(* ===== verification/Fixtures.v ===== *)
(** * Concrete collaborators for the witnesses

    Small instances of the [FrontEnd] and [OsPath] interfaces, used only to
    run the driver on concrete inputs:
    - [posix_path]: [relpath] strips a [pkg/] prefix, [abspath] is the
      identity, [dirname] drops the last component;
    - [stable_fe]: the pre-processor records each module as a MOD_DEF whose
      root pointer holds a new set object naming an undefined [<mod>.ext], and the post-processor
      changes nothing, so the fixed point is reached at once;
    - [growing_fe]: the post-processor adds, on every pass and in place,
      to the set object of the module's root pointer a namespace that does
      not exist yet, so the store grows forever (the spec's pathological
      scenario S5);
    - [raising_fe]: the pre-processor raises on every module, leaving the
      managers untouched. *)

From S2P Require Import Prelude Namespace Definitions Scopes Classes Modules Collaborators.
From Stdlib Require Import Ascii.

Local Open Scope string_scope.

Definition posix_path : OsPath := {|
  os_relpath := fun entry pkg =>
    match pkg with
    | Some p =>
        let pre := String.append p "/" in
        if String.prefix pre entry
        then String.substring (String.length pre) (String.length entry) entry
        else entry
    | None => entry
    end;
  os_abspath := fun p => p;
  os_dirname := fun p => join_on "/" (removelast (split_on "/" p));
|}.

Definition record_module (pi : proc_input) (m : managers) : managers :=
  let ns := pi_mod pi in
  let h := ptr_heap m in
  let r := fresh (dom (heap_names h)) in
  set_ptr_heap (mkPHeap (<[r := {[String.append ns ".ext"]}]> (heap_names h)) (heap_lits h))
    (set_def_mgr (<[ns := mkDefi ns MOD_DEF {["" := r]} ∅]> (def_mgr m)) m).

Fixpoint a_string (n : nat) : string :=
  match n with O => "" | S n' => String "a" (a_string n') end.

(** Add [t], in place, to the set object of the module's root pointer. *)
Definition add_to_root (ns t : string) (m : managers) : managers :=
  let h := ptr_heap m in
  match def_mgr m !! ns ≫= fun d => def_names d !! "" with
  | Some r => set_ptr_heap (mkPHeap (<[r := {[t]} ∪ deref (heap_names h) r]> (heap_names h))
                                    (heap_lits h)) m
  | None => m
  end.

(** Add to the module's root pointer a namespace named after the store's
    current size: a new key after every [complete_definitions()]. *)
Definition grow_module (pi : proc_input) (m : managers) : managers :=
  let ns := pi_mod pi in
  add_to_root ns (String.append ns (String.append ".x" (a_string (size (def_mgr m))))) m.

Definition fe_with (pre post : proc_input -> pyM managers (gset string)) : FrontEnd := {|
  pre_analyze := pre;
  post_analyze := post;
  cg_analyze := fun _ pi mc => Done mc {[pi_mod pi]};
  keyerr_analyze := fun pi mk => Done mk {[pi_mod pi]};
  get_parameter := py_ret ∅;
  type_infer := py_ret (mkTI ∅ ∅ ∅);
  dataflow_info := py_ret (mkDF ∅ ∅ ∅);
  generate_datacg := fun c => c;
|}.

Definition stable_fe : FrontEnd :=
  fe_with (fun pi m => Done (record_module pi m) {[pi_mod pi]})
          (fun pi m => Done m {[pi_mod pi]}).

Definition growing_fe : FrontEnd :=
  fe_with (fun pi m => Done (record_module pi m) {[pi_mod pi]})
          (fun pi m => Done (grow_module pi m) {[pi_mod pi]}).

Definition raising_fe : FrontEnd :=
  fe_with (fun pi m => Raised m (mkExn "SyntaxError" "invalid syntax"))
          (fun pi m => Done m {[pi_mod pi]}).
