(* ===== verification/State.v ===== *)
(** * The generator's state and the convergence test (src/AID/AID.py 21-98)

    The fields of [CallGraphGenerator] ([__init__], [setUp]), the snapshot
    [extract_state] takes, [reset_counters], the three loops of
    [has_converged] and the hook toggles.  The snapshot copies the value
    of each pointer ([get().copy()]): it holds, per attribute, the set of
    namespaces (and of literal tags) the set objects hold when it is taken,
    so a later change of a set object, in place or not, is seen by the
    next [has_converged].  The abstract contract
    of the convergence test is [snapshot_le]: every entry of the current
    snapshot is in the saved one with the same value, a map inclusion per
    component, so new keys break convergence and vanished keys do not;
    [has_converged_spec] proves the loops implement it.  [gen_equiv]
    identifies generators with the same saved and current snapshots;
    [has_converged] respects it and [reset_counters] stays in its class. *)

From S2P Require Import Prelude Namespace Definitions Scopes Classes Modules Collaborators.

Local Open Scope string_scope.

(** ** The generator's state *)

(** The entry of a definition in the snapshot: the values of its name
    and literal pointers, per attribute. *)
Abbreviation def_snap := (gmap string (gset string) * gmap string (gset lit_tag))%type.

(** The convergence snapshot ([extract_state]'s dict). *)
Record snapshot := mkSnapshot {
  snap_defs : gmap string def_snap;
  snap_scopes : gmap string (gset string);
  snap_classes : gmap string (list string);
}.

(** The fields of a [CallGraphGenerator] object. *)
Record CallGraphGenerator := mkCGG {
  entry_points : list string;
  package : option string;
  state : option snapshot;
  max_iter : Z;
  operation : string;
  mgrs : managers;
  cg : call_graph;
  key_errs : list key_err;
}.

Definition set_state (s : option snapshot) (g : CallGraphGenerator) : CallGraphGenerator :=
  mkCGG (entry_points g) (package g) s (max_iter g) (operation g) (mgrs g) (cg g) (key_errs g).
Definition set_mgrs (m : managers) (g : CallGraphGenerator) : CallGraphGenerator :=
  mkCGG (entry_points g) (package g) (state g) (max_iter g) (operation g) m (cg g) (key_errs g).
Definition set_cg (c : call_graph) (g : CallGraphGenerator) : CallGraphGenerator :=
  mkCGG (entry_points g) (package g) (state g) (max_iter g) (operation g) (mgrs g) c (key_errs g).
Definition set_key_errs (k : list key_err) (g : CallGraphGenerator) : CallGraphGenerator :=
  mkCGG (entry_points g) (package g) (state g) (max_iter g) (operation g) (mgrs g) (cg g) k.
Definition set_defs (dm : def_store) (g : CallGraphGenerator) : CallGraphGenerator :=
  set_mgrs (set_def_mgr dm (mgrs g)) g.
(** Replace the store and the set objects ([DefinitionManager.remove]
    changes both). *)
Definition set_defs_state (hd : pointer_heap * def_store) (g : CallGraphGenerator) : CallGraphGenerator :=
  set_mgrs (set_ptr_heap hd.1 (set_def_mgr hd.2 (mgrs g))) g.

(** [utils.constants.CALL_GRAPH_OP] and [KEY_ERR_OP]. *)
Definition CALL_GRAPH_OP : string := "call-graph".
Definition KEY_ERR_OP : string := "key-error".

(** [setUp()]: fresh managers, call graph and key-error list. *)
Definition setUp_managers : managers :=
  mkManagers (mkImportManager None false) ∅ ∅ ∅ empty_module_manager (mkPHeap ∅ ∅).

(** [__init__(entry_points, package, max_iter, operation)]: note that the
    [max_iter] argument is not stored; the field is set to 10. *)
Definition init_generator (eps : list string) (pkg : option string) (max_iter_arg : Z)
    (op : string) : CallGraphGenerator :=
  mkCGG eps pkg None 10 op setUp_managers empty_call_graph [].

(** ** [extract_state] *)

(** [get().copy()] of each pointer: a copy of the values its set objects
    hold now. *)
Definition extract_defs (h : pointer_heap) (dm : def_store) : gmap string def_snap :=
  (fun d => (names_of h (def_names d), lits_of h (def_lits d))) <$> dm.

Definition extract_scopes (st : scope_tree) : gmap string (gset string) :=
  scope_local_nss <$> st.

Definition extract_classes (cm : class_manager) : gmap string (list string) :=
  cls_mro <$> cm.

Definition extract_state (g : CallGraphGenerator) : snapshot :=
  mkSnapshot (extract_defs (ptr_heap (mgrs g)) (def_mgr (mgrs g))) (extract_scopes (scope_mgr (mgrs g)))
             (extract_classes (class_mgr (mgrs g))).

(** [reset_counters()] *)
Definition reset_counters (g : CallGraphGenerator) : CallGraphGenerator :=
  set_mgrs (set_scope_mgr (scope_reset_counters <$> scope_mgr (mgrs g)) (mgrs g)) g.

(** ** [has_converged] *)

(** The loop over [curr_state["defs"]]: every current key is in the old
    snapshot with equal [names] and equal [lit]. *)
Definition defs_converged (cur old : gmap string def_snap) : bool :=
  forallb (fun kv => match old !! kv.1 with
                     | None => false
                     | Some o => bool_decide (kv.2.1 = o.1) && bool_decide (kv.2.2 = o.2)
                     end) (map_to_list cur).

(** The loops over [curr_state["scopes"]] and [curr_state["classes"]]. *)
Definition entries_converged {V} `{EqDecision V} (cur old : gmap string V) : bool :=
  forallb (fun kv => match old !! kv.1 with
                     | None => false
                     | Some o => bool_decide (kv.2 = o)
                     end) (map_to_list cur).

Definition has_converged (g : CallGraphGenerator) : bool :=
  match state g with
  | None => false
  | Some old =>
      let cur := extract_state g in
      defs_converged (snap_defs cur) (snap_defs old) &&
      entries_converged (snap_scopes cur) (snap_scopes old) &&
      entries_converged (snap_classes cur) (snap_classes old)
  end.

(** ** Import hooks *)

Definition remove_import_hooks (g : CallGraphGenerator) : CallGraphGenerator :=
  set_mgrs (set_import_mgr (im_remove_hooks (import_mgr (mgrs g))) (mgrs g)) g.

Definition tearDown (g : CallGraphGenerator) : CallGraphGenerator := remove_import_hooks g.

Definition install_import_hooks (pkg : option string) (g : CallGraphGenerator) : CallGraphGenerator :=
  set_mgrs (set_import_mgr (im_install_hooks (im_set_pkg pkg (import_mgr (mgrs g)))) (mgrs g)) g.

(** ** The abstract convergence predicate *)

Definition snapshot_le (cur old : snapshot) : Prop :=
  snap_defs cur ⊆ snap_defs old /\ snap_scopes cur ⊆ snap_scopes old /\
  snap_classes cur ⊆ snap_classes old.

(** Generators with the same saved and current snapshots. *)
Definition gen_equiv (g1 g2 : CallGraphGenerator) : Prop :=
  state g1 = state g2 /\ extract_state g1 = extract_state g2.

(** A generator with one scope whose [lambda] counter is [n]. *)
Definition scoped_gen (n : nat) : CallGraphGenerator :=
  set_mgrs (set_scope_mgr {["m" := mkScope "m" None ∅ {["lambda" := n]}]} setUp_managers)
           (init_generator [] None 10 CALL_GRAPH_OP).

(** ** Theorems *)

#[export] Instance snapshot_le_preorder : PreOrder snapshot_le.
Proof.
  split.
  - intros s. repeat split; reflexivity.
  - intros s1 s2 s3 (? & ? & ?) (? & ? & ?). repeat split; etrans; eauto.
Qed.

(** ** The loops of [has_converged] *)

Lemma entries_converged_spec {V} `{EqDecision V} (cur old : gmap string V) :
  entries_converged cur old = true <-> cur ⊆ old.
Proof.
  set (f := fun k (v : V) => match old !! k with None => false | Some o => bool_decide (v = o) end).
  change (entries_converged cur old) with (forallb (fun kv => f kv.1 kv.2) (map_to_list cur)).
  rewrite forallb_map_to_list, map_subseteq_spec. unfold map_Forall, f.
  split; intros Hall k v Hk; specialize (Hall k v Hk).
  - destruct (old !! k); [|done]. by case_bool_decide; [subst|].
  - rewrite Hall. by apply bool_decide_eq_true_2.
Qed.

(** The two comparisons of the [defs] loop compare the pairs. *)
Lemma defs_converged_spec cur old : defs_converged cur old = true <-> cur ⊆ old.
Proof.
  set (f := fun k (v : def_snap) => match old !! k with
    | None => false | Some o => bool_decide (v.1 = o.1) && bool_decide (v.2 = o.2) end).
  change (defs_converged cur old) with (forallb (fun kv => f kv.1 kv.2) (map_to_list cur)).
  rewrite forallb_map_to_list, map_subseteq_spec. unfold map_Forall, f.
  split; intros Hall k v Hk; specialize (Hall k v Hk).
  - destruct (old !! k) as [o|]; [|done]. apply andb_true_iff in Hall as [H1 H2].
    apply bool_decide_eq_true_1 in H1, H2. destruct v, o; simpl in *; congruence.
  - rewrite Hall. by rewrite !bool_decide_eq_true_2.
Qed.

(** With a saved snapshot, the three loops compare against it. *)
Lemma has_converged_saved g old :
  state g = Some old -> has_converged g = true <-> snapshot_le (extract_state g) old.
Proof.
  intros Hs. unfold has_converged, snapshot_le. rewrite Hs.
  rewrite !andb_true_iff, defs_converged_spec, !entries_converged_spec. tauto.
Qed.

(** Before the first snapshot, the generator has not converged. *)
Lemma has_converged_unsaved g : state g = None -> has_converged g = false.
Proof. intros Hs. unfold has_converged. by rewrite Hs. Qed.

(** C2 (refinement): [has_converged()] is true exactly when a snapshot was
    saved and the current snapshot is included in it, component by
    component (the pointer values of every definition, the local
    namespaces of every scope, the MRO of every class): the convergence
    test is one-sided, so new keys break convergence and vanished keys do
    not. *)
Theorem has_converged_spec g :
  has_converged g = true <->
  exists old, state g = Some old /\ snapshot_le (extract_state g) old.
Proof.
  destruct (state g) as [old|] eqn:Hs.
  - rewrite (has_converged_saved _ _ Hs). split; [eauto|]. by intros (? & [= <-] & ?).
  - rewrite (has_converged_unsaved _ Hs). split; [done|]. by intros (? & ? & _).
Qed.

#[export] Instance gen_equiv_equiv : Equivalence gen_equiv.
Proof.
  split.
  - by intros g.
  - intros g1 g2 (? & ?). by split.
  - intros g1 g2 g3 (? & ?) (? & ?). split; congruence.
Qed.

#[export] Instance has_converged_proper : Proper (gen_equiv ==> eq) has_converged.
Proof. intros g1 g2 (Hs & Hx). unfold has_converged. by rewrite Hs, Hx. Qed.

Lemma extract_scopes_reset (st : scope_tree) :
  extract_scopes (scope_reset_counters <$> st) = extract_scopes st.
Proof. unfold extract_scopes. rewrite <- map_fmap_compose. reflexivity. Qed.

Lemma reset_counters_equiv g : gen_equiv (reset_counters g) g.
Proof.
  split; [done|]. unfold extract_state. simpl. by rewrite extract_scopes_reset.
Qed.

#[export] Hint Resolve reset_counters_equiv : aid.

(** C13 (invariant, spec property 4): after [reset_counters()], a scope
    numbers its anonymous sites the same way whatever the earlier passes
    counted: two generators that have the scope give identical numbers for
    the same sequence of counter bumps. *)
Theorem reset_counters_anonymous_names g1 g2 ns sc1 sc2 keys :
  scope_mgr (mgrs (reset_counters g1)) !! ns = Some sc1 ->
  scope_mgr (mgrs (reset_counters g2)) !! ns = Some sc2 ->
  (run_counters keys sc1).2 = (run_counters keys sc2).2.
Proof.
  simpl. rewrite !lookup_fmap.
  destruct (scope_mgr (mgrs g1) !! ns), (scope_mgr (mgrs g2) !! ns); try discriminate.
  intros [= <-] [= <-]. apply run_counters_after_reset.
Qed.

Lemma reset_counters_anonymous_names_witness :
  scope_mgr (mgrs (reset_counters (scoped_gen 3))) !! "m" =
    Some (scope_reset_counters (mkScope "m" None ∅ {["lambda" := 3]})) /\
  scope_mgr (mgrs (reset_counters (scoped_gen 7))) !! "m" =
    Some (scope_reset_counters (mkScope "m" None ∅ {["lambda" := 7]})) /\
  (run_counters ["lambda"; "lambda"] (scope_reset_counters (mkScope "m" None ∅ {["lambda" := 3]}))).2 =
  (run_counters ["lambda"; "lambda"] (scope_reset_counters (mkScope "m" None ∅ {["lambda" := 7]}))).2.
Proof.
  assert (H1 : scope_mgr (mgrs (reset_counters (scoped_gen 3))) !! "m" =
    Some (scope_reset_counters (mkScope "m" None ∅ {["lambda" := 3]}))) by reflexivity.
  assert (H2 : scope_mgr (mgrs (reset_counters (scoped_gen 7))) !! "m" =
    Some (scope_reset_counters (mkScope "m" None ∅ {["lambda" := 7]}))) by reflexivity.
  split; [exact H1|]. split; [exact H2|].
  exact (reset_counters_anonymous_names _ _ _ _ _ _ H1 H2).
Defined.

