(* ===== verification/Prune.v ===== *)
(** * The one-shot prune of external definitions (src/AID/AID.py 222-238)

    After iteration 0 of the post-processing loop, [analyze] schedules for
    removal every EXT definition [C.m] for which a class attribute-equal to
    [C] lacks [<class>.m], and removes the scheduled ones with
    [DefinitionManager.remove].  The theorems say exactly which namespaces
    go, that they vanish from every pointer set, that (D1) is kept, and that
    an external already resolved to a real method is kept (the opposite of
    the spec's property 5).  The Python [set] of scheduled namespaces is
    iterated in an order the program does not fix: removing them one by
    one in any order is equivalent to the batch reference [remove_set], in
    the setoid [hd_equiv] (same records, same elements in every set object
    the store holds), which [store_pointees] and so [complete_definitions]
    respect.  [store_le_except P] is growth up to the namespaces [P]: the
    removals keep every other record and erase only [P] from the name
    sets, which the driver uses for iteration 0. *)

From S2P Require Import Prelude Namespace Definitions.

Local Open Scope string_scope.

(** ** The one-shot prune of external definitions (AID.py 222-238) *)

Definition prune_candidates (dm : def_store) : gset string :=
  list_to_set (omap (fun kv : string * defi =>
    let '(ns1, defi1) := kv in
    if bool_decide (def_type defi1 = EXT_DEF) && has_dot ns1 then
      let ext_class := ext_class_of ns1 in
      let ext_method := ext_method_of ns1 in
      if existsb (fun kv2 : string * defi =>
                    let '(ns2, defi2) := kv2 in
                    bool_decide (def_type defi2 = CLS_DEF) && equal_attribute ext_class ns2 &&
                    negb (bool_decide (is_Some (dm !! String.append ns2 (String dot ext_method)))))
                 (map_to_list dm)
      then Some ns1 else None
    else None) (map_to_list dm)).

(** The scheduled namespaces are removed one by one ([remove] scrubs the
    set objects of the store, so the heap is threaded through). *)
Definition ext_prune (h : pointer_heap) (dm : def_store) : pointer_heap * def_store :=
  fold_left (fun acc ns => dm_remove ns acc) (elements (prune_candidates dm)) (h, dm).

(** [ext_prune] is the removal of a list of namespaces in order. *)
Definition remove_all (l : list string) (hd : pointer_heap * def_store) : pointer_heap * def_store :=
  fold_left (fun acc ns => dm_remove ns acc) l hd.

(** The spec's scenario S3: an unresolved [X.run] became EXT, and a class
    [pkg.X] with a method [run] was discovered.  The prune keeps [X.run]. *)
Definition s3_store : def_store :=
  <["X.run" := ext_placeholder "X.run"]>
  (<["pkg.X" := new_defi "pkg.X" CLS_DEF]>
  (<["pkg.X.run" := new_defi "pkg.X.run" FUN_DEF]> ∅)).

(** ** A reference for the removals: all at once

    [for ns in ns_to_be_remove] iterates a Python [set], in an order the
    program does not fix.  The reference [remove_set] drops every scheduled
    namespace at once and erases all of them from the set objects the
    remaining store holds. *)
Definition scrub_set (C : gset string) (R : gset set_ref) (h : pointer_heap) : pointer_heap :=
  mkPHeap (map_imap (fun r s => Some (if decide (r ∈ R) then s ∖ C else s)) (heap_names h))
          (heap_lits h).

Definition remove_set (C : gset string) (hd : pointer_heap * def_store) : pointer_heap * def_store :=
  let dm' := filter (fun kv : string * defi => kv.1 ∉ C) hd.2 in
  (scrub_set C (store_name_refs dm') hd.1, dm').

(** A store with its heap as the program reads it through the store: the
    same records, the same literal sets, and the same elements in every
    name-set object a record holds (objects no record holds may differ). *)
Definition hd_equiv (hd hd' : pointer_heap * def_store) : Prop :=
  hd'.2 = hd.2 /\ heap_lits hd'.1 = heap_lits hd.1 /\
  forall r, r ∈ store_name_refs hd.2 -> deref (heap_names hd'.1) r = deref (heap_names hd.1) r.

(** Growth up to a set [P] of namespaces: every record whose namespace is
    not in [P] is kept with its kind, its literal sets grown, and each of
    its name sets grown but for the elements of [P]. *)
Definition store_le_except (P : gset string) (hd hd' : pointer_heap * def_store) : Prop :=
  forall ns d, hd.2 !! ns = Some d -> ns ∉ P ->
    exists d', hd'.2 !! ns = Some d' /\ def_type d' = def_type d /\
      ptr_le (lits_of hd.1 (def_lits d)) (lits_of hd'.1 (def_lits d')) /\
      forall a X, names_of hd.1 (def_names d) !! a = Some X ->
        exists X', names_of hd'.1 (def_names d') !! a = Some X' /\ X ∖ P ⊆ X'.

(** Two EXT methods [X.run] and [X.stop] of a class [pkg.X] that defines
    neither, both named by the root pointer of module [m] (set object 1). *)
Definition two_ext_store : def_store :=
  <["X.run" := ext_placeholder "X.run"]>
  (<["X.stop" := ext_placeholder "X.stop"]>
  (<["pkg.X" := new_defi "pkg.X" CLS_DEF]>
  (<["m" := mkDefi "m" MOD_DEF {["" := 1%positive]} ∅]> ∅))).
Definition two_ext_heap : pointer_heap := mkPHeap {[1%positive := {["X.run"; "X.stop"]}]} ∅.

(** ** Theorems *)

Lemma remove_all_lookup_None l hd t :
  (remove_all l hd).2 !! t = None <-> hd.2 !! t = None \/ t ∈ l.
Proof.
  revert hd. induction l as [|x l IH]; intros hd; simpl; [set_solver|].
  unfold remove_all in IH. rewrite IH, lookup_dm_remove, elem_of_cons.
  case_decide as Hx; [subst; naive_solver|]. naive_solver.
Qed.

Lemma remove_all_pointees l hd t :
  t ∈ store_pointees (remove_all l hd).1 (remove_all l hd).2 -> t ∈ store_pointees hd.1 hd.2 /\ t ∉ l.
Proof.
  revert hd. induction l as [|x l IH]; intros hd; simpl; [set_solver|].
  intros [Ht Hl]%IH. apply dm_remove_pointees in Ht as [Ht Hne].
  split; [by apply (store_pointees_delete _ x)|set_solver].
Qed.

Lemma remove_all_closed l hd : dm_closed hd.1 hd.2 -> dm_closed (remove_all l hd).1 (remove_all l hd).2.
Proof.
  revert hd. induction l as [|x l IH]; intros hd Hc; simpl; [done|].
  apply IH, dm_remove_closed, Hc.
Qed.

(** A scheduled namespace is an EXT definition with a class lacking the method. *)
Lemma prune_candidates_sound dm ns :
  ns ∈ prune_candidates dm ->
  exists d, dm !! ns = Some d /\ def_type d = EXT_DEF /\ has_dot ns = true /\
    exists ns2 d2, dm !! ns2 = Some d2 /\ def_type d2 = CLS_DEF /\
      equal_attribute (ext_class_of ns) ns2 = true /\
      dm !! String.append ns2 (String dot (ext_method_of ns)) = None.
Proof.
  unfold prune_candidates. rewrite elem_of_list_to_set, list_elem_of_omap.
  intros ([ns1 d1] & Hin & Hf). apply elem_of_map_to_list in Hin.
  destruct (bool_decide _ && _) eqn:Hc; [|done].
  destruct (existsb _ _) eqn:Hx; [|done]. injection Hf as ->.
  apply andb_true_iff in Hc as [Ht Hd]. apply bool_decide_eq_true_1 in Ht.
  apply existsb_exists in Hx as ([ns2 d2] & Hin2 & Hx).
  apply list_elem_of_In, elem_of_map_to_list in Hin2.
  apply andb_true_iff in Hx as [[Hc2 Ha]%andb_true_iff Hm].
  apply bool_decide_eq_true_1 in Hc2. apply negb_true_iff, bool_decide_eq_false_1 in Hm.
  exists d1. repeat split; try done. exists ns2, d2. repeat split; try done.
  by apply eq_None_not_Some.
Qed.

(** C7 (functional): the namespaces the prune schedules for removal are
    exactly the EXT definitions [C.m] whose namespace contains a dot and for
    which some class attribute-equal to [C] has no definition [<class>.m]. *)
Theorem prune_candidates_spec dm ns :
  ns ∈ prune_candidates dm <->
  exists d, dm !! ns = Some d /\ def_type d = EXT_DEF /\ has_dot ns = true /\
    exists ns2 d2, dm !! ns2 = Some d2 /\ def_type d2 = CLS_DEF /\
      equal_attribute (ext_class_of ns) ns2 = true /\
      dm !! String.append ns2 (String dot (ext_method_of ns)) = None.
Proof.
  split; [apply prune_candidates_sound|].
  unfold prune_candidates. rewrite elem_of_list_to_set, list_elem_of_omap.
  intros (d & Hd & Ht & Hdot & ns2 & d2 & Hd2 & Hc2 & Ha & Hm).
  exists (ns, d). split; [by apply elem_of_map_to_list|].
  rewrite bool_decide_eq_true_2, Hdot by done. simpl.
  replace (existsb _ _) with true; [done|]. symmetry. apply existsb_exists.
  exists (ns2, d2). split; [by apply list_elem_of_In, elem_of_map_to_list|].
  rewrite bool_decide_eq_true_2, Ha, Hm by done. done.
Qed.

(** C8 (invariant): the prune removes exactly the scheduled namespaces from
    the store, erases them from every pointer set, and keeps (D1). *)
Theorem ext_prune_spec h dm :
  (forall t, (ext_prune h dm).2 !! t = None <-> dm !! t = None \/ t ∈ prune_candidates dm) /\
  (forall t, t ∈ prune_candidates dm -> t ∉ store_pointees (ext_prune h dm).1 (ext_prune h dm).2) /\
  (dm_closed h dm -> dm_closed (ext_prune h dm).1 (ext_prune h dm).2).
Proof.
  unfold ext_prune. fold (remove_all (elements (prune_candidates dm)) (h, dm)).
  split; [|split].
  - intros t. rewrite remove_all_lookup_None. by rewrite elem_of_elements.
  - intros t Ht [_ Hn]%remove_all_pointees. by apply Hn, elem_of_elements.
  - apply (remove_all_closed _ (h, dm)).
Qed.

(** C9 (functional): an EXT definition [C.m] is kept by the prune whenever
    every class attribute-equal to [C] does define [<class>.m], i.e. when the
    external has been resolved to a real method. *)
Theorem ext_prune_keeps_resolved h dm ns d :
  dm !! ns = Some d ->
  (forall ns2 d2, dm !! ns2 = Some d2 -> def_type d2 = CLS_DEF ->
     equal_attribute (ext_class_of ns) ns2 = true ->
     is_Some (dm !! String.append ns2 (String dot (ext_method_of ns)))) ->
  is_Some ((ext_prune h dm).2 !! ns).
Proof.
  intros Hd Hres. apply not_eq_None_Some. intros Hn.
  unfold ext_prune in Hn. fold (remove_all (elements (prune_candidates dm)) (h, dm)) in Hn.
  apply remove_all_lookup_None in Hn as [Hn|Hn%elem_of_elements]; [simpl in Hn; congruence|].
  apply prune_candidates_sound in Hn
    as (d' & _ & _ & _ & ns2 & d2 & Hd2 & Hc & Ha & Hm).
  destruct (Hres ns2 d2 Hd2 Hc Ha) as [x Hx]. congruence.
Qed.

Lemma ext_prune_keeps_resolved_witness :
  s3_store !! "X.run" = Some (ext_placeholder "X.run") /\
  (forall ns2 d2, s3_store !! ns2 = Some d2 -> def_type d2 = CLS_DEF ->
     equal_attribute (ext_class_of "X.run") ns2 = true ->
     is_Some (s3_store !! String.append ns2 (String dot (ext_method_of "X.run")))) /\
  is_Some ((ext_prune (mkPHeap ∅ ∅) s3_store).2 !! "X.run").
Proof.
  assert (H1 : s3_store !! "X.run" = Some (ext_placeholder "X.run")) by reflexivity.
  assert (H2 : forall ns2 d2, s3_store !! ns2 = Some d2 -> def_type d2 = CLS_DEF ->
     equal_attribute (ext_class_of "X.run") ns2 = true ->
     is_Some (s3_store !! String.append ns2 (String dot (ext_method_of "X.run")))).
  { intros ns2 d2 Hl Hc _. unfold s3_store in Hl. rewrite !lookup_insert, lookup_empty in Hl.
    repeat case_decide; simplify_eq; try discriminate. vm_compute. by eexists. }
  split; [exact H1|]. split; [exact H2|]. exact (ext_prune_keeps_resolved _ _ _ _ H1 H2).
Defined.

(** ** The order of the removals *)

Lemma deref_scrub_set C R h r :
  deref (heap_names (scrub_set C R h)) r =
    if decide (r ∈ R) then deref (heap_names h) r ∖ C else deref (heap_names h) r.
Proof.
  unfold deref. simpl. rewrite map_lookup_imap.
  destruct (heap_names h !! r); simpl; case_decide; set_solver.
Qed.

Lemma store_name_refs_mono dm dm' :
  (forall k d, dm' !! k = Some d -> dm !! k = Some d) -> store_name_refs dm' ⊆ store_name_refs dm.
Proof. intros Hsub r. rewrite !elem_of_store_name_refs. naive_solver. Qed.

#[export] Instance hd_equiv_equivalence : Equivalence hd_equiv.
Proof.
  split.
  - intros hd. by repeat split.
  - intros hd hd' (Hd & Hl & Hr). split; [done|]. split; [done|].
    intros r Hin. rewrite Hd in Hin. symmetry. by apply Hr.
  - intros hd1 hd2 hd3 (Hd1 & Hl1 & Hr1) (Hd2 & Hl2 & Hr2).
    split; [congruence|]. split; [congruence|]. intros r Hin.
    rewrite Hr2, Hr1 by (rewrite ?Hd1; done). done.
Qed.

(** What the program reads of the store, the namespaces its pointers name,
    is the same in equivalent stores. *)
#[export] Instance store_pointees_proper :
  Proper (hd_equiv ==> eq) (fun hd : pointer_heap * def_store => store_pointees hd.1 hd.2).
Proof.
  intros hd hd' (Hd & _ & Hr). apply set_eq. intros t. rewrite Hd, !elem_of_store_pointees.
  setoid_rewrite elem_of_defi_pointees.
  split; intros (k & d & Hk & a & r & Ha & Ht); exists k, d; split; try done;
    exists a, r; split; try done.
  - rewrite Hr by eauto using store_name_refs_held. done.
  - rewrite Hr in Ht by eauto using store_name_refs_held. done.
Qed.

#[export] Instance remove_set_proper C : Proper (hd_equiv ==> hd_equiv) (remove_set C).
Proof.
  intros hd hd' (Hd & Hl & Hr). unfold hd_equiv, remove_set. cbn [fst snd]. rewrite Hd.
  split; [done|]. split; [done|]. intros r Hin. rewrite !deref_scrub_set, !decide_True by done.
  rewrite Hr; [done|]. revert Hin. apply store_name_refs_mono.
  intros k d. by rewrite map_lookup_filter_Some; intros [? _].
Qed.

Lemma remove_set_empty hd : hd_equiv (remove_set ∅ hd) hd.
Proof.
  destruct hd as [h dm]. unfold hd_equiv, remove_set. cbn [fst snd].
  rewrite map_filter_id by set_solver. split; [done|]. split; [done|]. intros r _.
  rewrite deref_scrub_set. case_decide; set_solver.
Qed.

(** Removing [x] and then the set [C] is removing [{x} ∪ C]. *)
Lemma remove_set_step x C hd :
  hd_equiv (remove_set ({[x]} ∪ C) hd) (remove_set C (dm_remove x hd)).
Proof.
  destruct hd as [h dm]. unfold hd_equiv, remove_set, dm_remove. cbn [fst snd].
  assert (Hf : filter (fun kv : string * defi => kv.1 ∉ C) (delete x dm) =
               filter (fun kv : string * defi => kv.1 ∉ {[x]} ∪ C) dm).
  { apply map_eq. intros k. rewrite !map_lookup_filter, lookup_delete.
    case_decide as Hx; simpl.
    - subst. destruct (dm !! k); simpl; [|done]. by rewrite option_guard_False by set_solver.
    - destruct (dm !! k); simpl; [|done]. destruct (decide (k ∈ C)).
      + by rewrite !option_guard_False by set_solver.
      + by rewrite !option_guard_True by set_solver. }
  rewrite Hf. split; [done|]. split; [done|]. intros r Hin.
  assert (Hin' : r ∈ store_name_refs (delete x dm)).
  { revert Hin. apply store_name_refs_mono. intros k d.
    rewrite map_lookup_filter_Some, lookup_delete. intros [Hk Hn]. simpl in Hn.
    destruct (decide (x = k)) as [->|]; [exfalso; apply Hn; set_solver|done]. }
  rewrite !deref_scrub_set, deref_scrub, !decide_True by done. set_solver.
Qed.

(** Removing a list one namespace at a time is the batch removal of its
    elements. *)
Lemma remove_all_batch l hd : hd_equiv (remove_set (list_to_set l) hd) (remove_all l hd).
Proof.
  revert hd. induction l as [|x l IH]; intros hd; simpl; [apply remove_set_empty|].
  etrans; [apply remove_set_step|]. apply IH.
Qed.

(** C26 (equivalence): the order in which the prune iterates the Python
    set of scheduled namespaces does not matter: removing them one by one
    in any order gives the store, the literal sets and the elements of
    every set object the store holds that the batch reference [remove_set]
    gives, and therefore the same store after [complete_definitions()]. *)
Theorem ext_prune_order_independent h dm l :
  l ≡ₚ elements (prune_candidates dm) ->
  hd_equiv (remove_set (prune_candidates dm) (h, dm)) (remove_all l (h, dm)) /\
  hd_equiv (remove_set (prune_candidates dm) (h, dm)) (ext_prune h dm) /\
  complete_definitions (remove_all l (h, dm)).1 (remove_all l (h, dm)).2 =
    complete_definitions (ext_prune h dm).1 (ext_prune h dm).2.
Proof.
  intros Hp.
  assert (Hl : list_to_set l = prune_candidates dm).
  { apply set_eq. intros t. rewrite elem_of_list_to_set, Hp. apply elem_of_elements. }
  assert (H1 : hd_equiv (remove_set (prune_candidates dm) (h, dm)) (remove_all l (h, dm)))
    by (rewrite <- Hl; apply remove_all_batch).
  assert (H2 : hd_equiv (remove_set (prune_candidates dm) (h, dm)) (ext_prune h dm)).
  { unfold ext_prune. fold (remove_all (elements (prune_candidates dm)) (h, dm)).
    rewrite <- (list_to_set_elements_L (prune_candidates dm)) at 1. apply remove_all_batch. }
  split; [done|]. split; [done|].
  assert (H3 : hd_equiv (remove_all l (h, dm)) (ext_prune h dm)) by (etrans; [symmetry; exact H1|exact H2]).
  pose proof (store_pointees_proper _ _ H3) as Hp3. simpl in Hp3.
  destruct H3 as (Hd3 & _). unfold complete_definitions. by rewrite Hp3, Hd3.
Qed.

Lemma ext_prune_order_independent_witness :
  size (prune_candidates two_ext_store) = 2 /\
  reverse (elements (prune_candidates two_ext_store)) ≡ₚ elements (prune_candidates two_ext_store) /\
  complete_definitions
    (remove_all (reverse (elements (prune_candidates two_ext_store))) (two_ext_heap, two_ext_store)).1
    (remove_all (reverse (elements (prune_candidates two_ext_store))) (two_ext_heap, two_ext_store)).2 =
  complete_definitions (ext_prune two_ext_heap two_ext_store).1 (ext_prune two_ext_heap two_ext_store).2.
Proof.
  assert (H : reverse (elements (prune_candidates two_ext_store)) ≡ₚ elements (prune_candidates two_ext_store))
    by apply reverse_Permutation.
  split; [vm_compute; reflexivity|]. split; [exact H|].
  exact (proj2 (proj2 (ext_prune_order_independent _ _ _ H))).
Defined.

(** ** What the prune keeps *)

Lemma store_le_except_refl hd : store_le_except ∅ hd hd.
Proof.
  intros ns d Hd _. exists d. split; [done|]. split; [done|]. split; [reflexivity|].
  intros a X HX. exists X. split; [done|set_solver].
Qed.

Lemma store_le_except_trans P Q hd1 hd2 hd3 :
  store_le_except P hd1 hd2 -> store_le_except Q hd2 hd3 -> store_le_except (P ∪ Q) hd1 hd3.
Proof.
  intros H12 H23 ns d Hd Hns.
  destruct (H12 ns d Hd) as (d2 & Hd2 & Ht2 & Hl2 & Hn2); [set_solver|].
  destruct (H23 ns d2 Hd2) as (d3 & Hd3 & Ht3 & Hl3 & Hn3); [set_solver|].
  exists d3. split; [done|]. split; [congruence|]. split; [by etrans|].
  intros a X HX. destruct (Hn2 a X HX) as (X2 & HX2 & Hs2). destruct (Hn3 a X2 HX2) as (X3 & HX3 & Hs3).
  exists X3. split; [done|set_solver].
Qed.

(** Growth before, and after, growth up to [P] is growth up to [P]. *)
Lemma store_le_except_le_l P hd1 hd2 hd3 :
  store_le hd1 hd2 -> store_le_except P hd2 hd3 -> store_le_except P hd1 hd3.
Proof.
  intros H12 H23 ns d Hd Hns.
  destruct (H12 ns d Hd) as (d2 & Hd2 & Ht2 & Hn2 & Hl2).
  destruct (H23 ns d2 Hd2 Hns) as (d3 & Hd3 & Ht3 & Hl3 & Hn3).
  exists d3. split; [done|]. split; [congruence|]. split; [by etrans|].
  intros a X HX. destruct (Hn2 a X HX) as (X2 & HX2 & Hs2). destruct (Hn3 a X2 HX2) as (X3 & HX3 & Hs3).
  exists X3. split; [done|set_solver].
Qed.

Lemma store_le_except_le_r P hd1 hd2 hd3 :
  store_le_except P hd1 hd2 -> store_le hd2 hd3 -> store_le_except P hd1 hd3.
Proof.
  intros H12 H23 ns d Hd Hns.
  destruct (H12 ns d Hd Hns) as (d2 & Hd2 & Ht2 & Hl2 & Hn2).
  destruct (H23 ns d2 Hd2) as (d3 & Hd3 & Ht3 & Hn3 & Hl3).
  exists d3. split; [done|]. split; [congruence|]. split; [by etrans|].
  intros a X HX. destruct (Hn2 a X HX) as (X2 & HX2 & Hs2). destruct (Hn3 a X2 HX2) as (X3 & HX3 & Hs3).
  exists X3. split; [done|set_solver].
Qed.

(** [remove(x)] keeps every other record, and its name sets lose [x] only. *)
Lemma dm_remove_le_except x hd : store_le_except {[x]} hd (dm_remove x hd).
Proof.
  intros ns d Hd Hns. exists d. rewrite lookup_dm_remove, decide_False by set_solver.
  split; [done|]. split; [done|]. split; [reflexivity|].
  intros a X. unfold names_of. rewrite !lookup_fmap.
  destruct (def_names d !! a) as [r|] eqn:Hr; [|done]. intros [= <-].
  eexists. split; [reflexivity|].
  change (dm_remove x hd).1 with (scrub_heap x (store_name_refs (delete x hd.2)) hd.1).
  rewrite deref_scrub, decide_True; [set_solver|].
  apply (store_name_refs_held _ ns d a); [|done]. rewrite lookup_delete, decide_False by set_solver.
  exact Hd.
Qed.

Lemma remove_all_le_except l hd : store_le_except (list_to_set l) hd (remove_all l hd).
Proof.
  revert hd. induction l as [|x l IH]; intros hd; simpl; [apply store_le_except_refl|].
  apply (store_le_except_trans {[x]} (list_to_set l) _ (dm_remove x hd)); [apply dm_remove_le_except|apply IH].
Qed.
