(* ===== verification/Passes.v ===== *)
(** * The passes over the entry points (src/AID/AID.py 100-202)

    [_get_mod_name], the four processors of [analyze] lifted to the
    generator's state, [do_pass] (the loop over entry points that runs a
    processor once per new module, installing and removing import hooks
    around the pre-processing walk), [do_pass_attribute_matching_to_class]
    and the pre-processing step of [analyze].  The theorems: no pass changes
    the generator's configuration; each module is walked at most once per
    pass; every walk starts with the hooks installed for its package; the
    hooks are removed after every walk that returns and stay installed
    when the pre-processor raises (no [try/finally]). *)

From S2P Require Import Prelude Namespace Definitions Scopes Classes Modules Collaborators Fixtures State.
From Stdlib Require Import Ascii.

Local Open Scope string_scope.

Section PassDefs.
Context `{FE : FrontEnd} `{OS : OsPath}.

(** [_get_mod_name(entry, pkg)] *)
Definition get_mod_name (entry : string) (pkg : option string) : string :=
  to_mod_name (os_relpath entry pkg).

(** A processor class: constructed on one entry point, [analyze()]d, and
    asked for [get_modules_analyzed()]. *)
Definition processor := proc_input -> pyM CallGraphGenerator (gset string).

Definition pre_proc : processor := fun pi => py_focus mgrs set_mgrs (pre_analyze pi).
Definition post_proc : processor := fun pi => py_focus mgrs set_mgrs (post_analyze pi).
Definition cg_proc (ti : ti_result) : processor := fun pi =>
  py_focus (fun g => (mgrs g, cg g)) (fun mc g => set_mgrs mc.1 (set_cg mc.2 g))
           (cg_analyze ti pi).
Definition keyerr_proc : processor := fun pi =>
  py_focus (fun g => (mgrs g, key_errs g)) (fun mk g => set_mgrs mk.1 (set_key_errs mk.2 g))
           (keyerr_analyze pi).

(** The body of [do_pass]'s [for] loop; the value returned lists the
    modules a processor was run on, in order. *)
Fixpoint do_pass_entries (proc : processor) (install_hooks : bool) (eps : list string)
    (modules_analyzed : gset string) : pyM CallGraphGenerator (list string) :=
  match eps with
  | [] => py_ret []
  | entry_point :: rest =>
      let* g := py_get in
      let input_pkg := package g in
      let input_mod := get_mod_name entry_point input_pkg in
      let input_file := os_abspath entry_point in
      if negb (str_truthy (Some input_mod)) then
        do_pass_entries proc install_hooks rest modules_analyzed
      else
        let input_pkg := if str_truthy input_pkg then input_pkg else Some (os_dirname input_file) in
        if bool_decide (input_mod ∈ modules_analyzed) then
          do_pass_entries proc install_hooks rest modules_analyzed
        else
          let* _ := (if install_hooks then py_modify (install_import_hooks input_pkg)
                     else py_ret tt) in
          let* mods := proc (mkProcInput input_file input_mod modules_analyzed) in
          let* _ := (if install_hooks then py_modify remove_import_hooks else py_ret tt) in
          let* trace := do_pass_entries proc install_hooks rest (modules_analyzed ∪ mods) in
          py_ret (input_mod :: trace)
  end.

Definition do_pass (proc : processor) (install_hooks : bool)
    : pyM CallGraphGenerator (list string) :=
  let* g := py_get in do_pass_entries proc install_hooks (entry_points g) ∅.

(** Its body is a copy of [do_pass]'s. *)
Definition do_pass_attribute_matching_to_class (proc : processor) (install_hooks : bool)
    : pyM CallGraphGenerator (list string) :=
  let* g := py_get in do_pass_entries proc install_hooks (entry_points g) ∅.

(** ** [analyze] *)

(** The pre-processing pass and the first [complete_definitions()]. *)
Definition preprocess : pyM CallGraphGenerator unit :=
  let* _ := do_pass pre_proc true in
  py_modify (fun g => set_defs (complete_definitions (ptr_heap (mgrs g)) (def_mgr (mgrs g))) g).

(** A processor that raises leaves the hook flag as it found it. *)
Definition raise_keeps_hooks (proc : processor) : Prop :=
forall pi s s' e, proc pi s = Raised s' e ->
  im_hooks_installed (import_mgr (mgrs s')) = im_hooks_installed (import_mgr (mgrs s)).

(** A processor whose [get_modules_analyzed()] contains its own module. *)
Definition reports_own_module (proc : processor) : Prop :=
forall pi s s' mods, proc pi s = Done s' mods -> pi_mod pi ∈ mods.
(** In [s], the import hooks are installed for the package the walk of
    [pi] expects: the generator's package, or the directory of the entry's
    file when there is none. *)
Definition hooks_ready (pi : proc_input) (s : CallGraphGenerator) : bool :=
  im_hooks_installed (import_mgr (mgrs s)) &&
  bool_decide (im_pkg (import_mgr (mgrs s)) =
               if str_truthy (package s) then package s else Some (os_dirname (pi_file pi))).

(** The processor, preceded by an assertion of [hooks_ready]. *)
Definition assert_hooks (proc : processor) : processor := fun pi s =>
  if hooks_ready pi s then proc pi s else Raised s (mkExn "AssertionError" "import hooks not ready").
End PassDefs.

(** ** Frame relations *)

Definition same_config (g g' : CallGraphGenerator) : Prop :=
  entry_points g' = entry_points g /\ package g' = package g /\
  max_iter g' = max_iter g /\ operation g' = operation g.

Definition same_state (g g' : CallGraphGenerator) : Prop := state g' = state g.

(** ** Concrete runs *)

Definition demo_entries : list string := ["pkg/m.py"; "pkg/sub/__init__.py"; "pkg/m.py"].

Definition demo_gen (arg : Z) (op : string) : CallGraphGenerator :=
  init_generator demo_entries (Some "pkg") arg op.

Definition pre_of (fe : FrontEnd) (g : CallGraphGenerator) : CallGraphGenerator :=
  outcome_state (@preprocess fe posix_path g).


(** ** Theorems *)

#[export] Instance same_config_preorder : PreOrder same_config.
Proof.
  split; [by intros g|].
  intros g1 g2 g3 (? & ? & ? & ?) (? & ? & ? & ?). repeat split; congruence.
Qed.

Ltac config_tac := unfold same_config; simpl; repeat split.

#[export] Instance same_state_preorder : PreOrder same_state.
Proof. split; [by intros g | intros g1 g2 g3 H1 H2; unfold same_state in *; congruence]. Qed.

Section PassProofs.
Context `{FE : FrontEnd} `{OS : OsPath}.

(** A relation that every run of the processor and both hook toggles
    keep holds across the loop of [do_pass]. *)
Lemma do_pass_entries_preserves (R : relation CallGraphGenerator) `{!PreOrder R} proc h eps A :
  (forall pkg g, R g (install_import_hooks pkg g)) -> (forall g, R g (remove_import_hooks g)) ->
  (forall pi, py_preserves R (proc pi)) -> py_preserves R (do_pass_entries proc h eps A).
Proof.
  intros Hi Hr Hproc. revert A. induction eps as [|ep eps IH]; intros A; simpl;
    py_preserves_tac; first [apply Hproc | apply IH | apply Hi | apply Hr | reflexivity].
Qed.

Lemma do_pass_entries_config proc h eps A :
  (forall pi, py_preserves same_config (proc pi)) ->
  py_preserves same_config (do_pass_entries proc h eps A).
Proof. intros Hproc. apply (do_pass_entries_preserves same_config); [intros; config_tac..|exact Hproc]. Qed.

Lemma lifted_procs_config pi :
  py_preserves same_config (pre_proc pi) /\ py_preserves same_config (post_proc pi) /\
  py_preserves same_config (keyerr_proc pi) /\
  forall ti, py_preserves same_config (cg_proc ti pi).
Proof.
  refine (conj _ (conj _ (conj _ _))); unfold pre_proc, post_proc, keyerr_proc, cg_proc;
    py_preserves_tac; config_tac.
Qed.

Lemma do_pass_preserves (R : relation CallGraphGenerator) `{!PreOrder R} proc h :
  (forall pkg g, R g (install_import_hooks pkg g)) -> (forall g, R g (remove_import_hooks g)) ->
  (forall pi, py_preserves R (proc pi)) -> py_preserves R (do_pass proc h).
Proof. intros Hi Hr Hproc. unfold do_pass. py_preserves_tac. by apply do_pass_entries_preserves. Qed.

Lemma do_pass_attribute_preserves (R : relation CallGraphGenerator) `{!PreOrder R} proc h :
  (forall pkg g, R g (install_import_hooks pkg g)) -> (forall g, R g (remove_import_hooks g)) ->
  (forall pi, py_preserves R (proc pi)) -> py_preserves R (do_pass_attribute_matching_to_class proc h).
Proof.
  intros Hi Hr Hproc. unfold do_pass_attribute_matching_to_class. py_preserves_tac.
  by apply do_pass_entries_preserves.
Qed.

Lemma do_pass_config proc h :
  (forall pi, py_preserves same_config (proc pi)) ->
  py_preserves same_config (do_pass proc h).
Proof. intros Hproc. apply (do_pass_preserves same_config); [intros; config_tac..|exact Hproc]. Qed.

Lemma preprocess_config : py_preserves same_config preprocess.
Proof.
  unfold preprocess. py_preserves_tac;
    first [apply do_pass_config; intros pi; apply lifted_procs_config | config_tac].
Qed.

(** ** [do_pass] *)

Lemma do_pass_entries_nil proc h eps A g g' :
  do_pass_entries proc h eps A g = Done g' [] -> g' = g.
Proof.
  revert A. induction eps as [|ep eps IH]; intros A; simpl; [by intros [= ->]|].
  unfold py_bind at 1. simpl.
  destruct (negb _); [apply IH|]. destruct (bool_decide _); [apply IH|].
  intros H. py_inv. destruct a1. simpl in *. by injection Hk0.
Qed.

(** After every walk that returns, the hooks are removed. *)
Lemma do_pass_entries_hooks_removed proc eps A g g' trace :
  do_pass_entries proc true eps A g = Done g' trace -> trace <> [] ->
  im_hooks_installed (import_mgr (mgrs g')) = false.
Proof.
  revert A g g' trace. induction eps as [|ep eps IH]; intros A g g' trace H Hne.
  - by injection H as _ <-.
  - simpl in H. py_run H.
    destruct (negb _); [by eapply IH|]. destruct (bool_decide _); [by eapply IH|].
    py_case H. py_case H. injection H as <- <-.
    match goal with E : do_pass_entries _ _ _ _ _ = Done _ ?tr |- _ =>
      destruct tr; [apply do_pass_entries_nil in E as ->; done | by eapply IH] end.
Qed.

(** When the processor raises, the hooks stay installed. *)
Lemma do_pass_entries_raise_hooks proc eps A g g' e :
  raise_keeps_hooks proc ->
  do_pass_entries proc true eps A g = Raised g' e ->
  im_hooks_installed (import_mgr (mgrs g')) = true.
Proof.
  intros Hproc. revert A g. induction eps as [|ep eps IH]; intros A g H; [inversion H|].
  simpl in H. py_run H.
  destruct (negb _); [by eapply IH|]. destruct (bool_decide _); [by eapply IH|].
  py_case H.
  - py_case H. injection H as <- <-. by eapply IH.
  - injection H as <- <-. match goal with E : proc _ _ = Raised _ _ |- _ =>
      rewrite (Hproc _ _ _ _ E) end. reflexivity.
Qed.

Lemma do_pass_entries_once proc h eps A g g' trace :
  reports_own_module proc ->
  do_pass_entries proc h eps A g = Done g' trace ->
  NoDup trace /\ forall m, m ∈ trace -> m ∉ A.
Proof.
  intros Hproc. revert A g g' trace.
  induction eps as [|ep eps IH]; intros A g g' trace H.
  - injection H as _ <-. split; [constructor|set_solver].
  - simpl in H. py_run H.
    destruct (negb _); [by eapply IH|]. destruct (bool_decide _) eqn:Hin; [by eapply IH|].
    apply bool_decide_eq_false_1 in Hin.
    destruct h; py_case H; py_case H; injection H as <- <-;
    match goal with
    | Ep : proc _ _ = Done _ _, Er : do_pass_entries _ _ _ _ _ = Done _ _ |- _ =>
        apply Hproc in Ep; apply IH in Er as [Hnd Hout]
    end; simpl in *;
    (split; [constructor; [intros Hm; by apply Hout in Hm; set_solver|done]
            |intros m [->|Hm]%elem_of_cons; [done|apply Hout in Hm; set_solver]]).
Qed.

Lemma preprocess_closed g g' u :
  preprocess g = Done g' u -> dm_closed (ptr_heap (mgrs g')) (def_mgr (mgrs g')).
Proof. intros H. unfold preprocess in H. py_run H. py_case H. injection H as <- _. apply complete_closed. Qed.

Lemma do_pass_entries_state proc h eps A :
  (forall pi, py_preserves same_state (proc pi)) ->
  py_preserves same_state (do_pass_entries proc h eps A).
Proof. intros Hproc. apply (do_pass_entries_preserves same_state); [done..|exact Hproc]. Qed.

Lemma post_proc_state pi : py_preserves same_state (post_proc pi).
Proof. unfold post_proc. py_preserves_tac. reflexivity. Qed.

Lemma do_pass_entries_nil_skipped proc h eps A g g' :
  do_pass_entries proc h eps A g = Done g' [] ->
  forall ep, ep ∈ eps -> get_mod_name ep (package g) = "" \/ get_mod_name ep (package g) ∈ A.
Proof.
  revert A. induction eps as [|ep0 eps IH]; intros A H ep Hep; [set_solver|].
  apply elem_of_cons in Hep. simpl in H. py_run H.
  destruct (String.eqb (get_mod_name ep0 (package g)) "") eqn:Hemp; simpl in H.
  - destruct Hep as [->|Hep]; [left; by apply String.eqb_eq|by eapply IH].
  - destruct (bool_decide _) eqn:Hin.
    + destruct Hep as [->|Hep]; [right; by apply bool_decide_eq_true_1 in Hin|by eapply IH].
    + destruct h; py_case H; py_case H; by injection H.
Qed.

(** C10 (safety): if the pre-processor raises on an entry point (and does
    not itself touch the hooks), [analyze]'s pre-processing pass ends by
    the exception with the import hooks still installed: [do_pass] has no
    [try/finally] around [processor.analyze()]. *)
Theorem preprocess_raise_keeps_hooks g g' e :
  (forall pi m m' e', pre_analyze pi m = Raised m' e' ->
     im_hooks_installed (import_mgr m') = im_hooks_installed (import_mgr m)) ->
  preprocess g = Raised g' e ->
  im_hooks_installed (import_mgr (mgrs g')) = true.
Proof.
  intros Hpre H. unfold preprocess, do_pass in H. py_run H. py_case H.
  injection H as <- <-. eapply do_pass_entries_raise_hooks; [|eassumption].
  intros pi s0 s1 e1 Hp. unfold pre_proc, py_focus in Hp.
  destruct (pre_analyze pi (mgrs s0)) as [|m' e''] eqn:Ea; [done|].
  injection Hp as <- <-. simpl. by apply (Hpre _ _ _ _ Ea).
Qed.

(** C11 (safety): when some entry point names a module, a pre-processing
    pass that returns leaves the import hooks removed. *)
Theorem preprocess_hooks_removed g g' u :
  (exists ep, ep ∈ entry_points g /\ get_mod_name ep (package g) <> "") ->
  preprocess g = Done g' u ->
  im_hooks_installed (import_mgr (mgrs g')) = false.
Proof.
  intros (ep & Hep & Hne) H. unfold preprocess, do_pass in H. py_run H. py_case H.
  injection H as <- _. simpl.
  match goal with E : do_pass_entries _ _ _ _ _ = Done _ ?tr |- _ =>
    rename E into Ep; destruct tr as [|m tr] end.
  - eapply do_pass_entries_nil_skipped in Ep as [Hm|Hm]; [done|set_solver|exact Hep].
  - eapply do_pass_entries_hooks_removed; [exact Ep|done].
Qed.

(** C12 (invariant): when the processor's [get_modules_analyzed()]
    includes the module it was started on, one [do_pass] walks every module
    at most once, even when several entry points name the same module. *)
Theorem do_pass_walks_once proc h g g' trace :
  reports_own_module proc -> do_pass proc h g = Done g' trace -> NoDup trace.
Proof.
  intros Hproc H. unfold do_pass in H. py_run H.
  by apply do_pass_entries_once in H as [? _].
Qed.

Lemma do_pass_entries_hooks_ready proc eps A g :
  do_pass_entries (assert_hooks proc) true eps A g = do_pass_entries proc true eps A g.
Proof.
  revert A g. induction eps as [|ep eps IH]; intros A g; [done|]. simpl.
  unfold py_bind, py_get, py_modify, py_ret. simpl.
  destruct (negb _); [apply IH|]. destruct (bool_decide _); [apply IH|].
  unfold assert_hooks, hooks_ready. simpl.
  rewrite bool_decide_eq_true_2 by reflexivity. simpl.
  destruct (proc _ _); [|done]. by rewrite IH.
Qed.

(** C23 (safety, spec section 5): every walk of a pre-processing pass
    starts with the import hooks installed for its package: running the
    pass with a processor that first asserts it changes nothing, so the
    assertion never fails. *)
Theorem do_pass_hooks_ready proc g :
  do_pass (assert_hooks proc) true g = do_pass proc true g.
Proof. unfold do_pass, py_bind, py_get. apply do_pass_entries_hooks_ready. Qed.

End PassProofs.

Section ModName.
Context `{OS : OsPath}.

(** C27 (roundtrip): an entry point whose path below the package is
    [c1/.../cn/m.e] gets the module name [c1. ... .cn.m] ([c1. ... .cn]
    when [m] is [__init__]), and splitting that name on dots gives the
    path's components back. *)
Theorem get_mod_name_roundtrip entry pkg cs m e :
  os_relpath entry pkg = join_on "/"%char (app cs [String.append m (String dot e)]) ->
  forallb comp_ok (app cs [m]) = true -> ext_ok e = true -> app cs [m] <> ["__init__"] ->
  get_mod_name entry pkg = join_dots (if String.eqb m "__init__" then cs else app cs [m]) /\
  split_dots (get_mod_name entry pkg) = if String.eqb m "__init__" then cs else app cs [m].
Proof.
  intros Hr Hc He Hi. unfold get_mod_name. rewrite Hr, to_mod_name_path by done.
  split; [done|]. destruct (forallb_comp_ok _ Hc) as (_ & _ & Hd).
  apply split_join_dots; destruct (String.eqb_spec m "__init__") as [->|].
  - by intros ->.
  - by destruct cs.
  - by apply Forall_app in Hd as [Hd _].
  - done.
Qed.

End ModName.

Lemma preprocess_raise_keeps_hooks_witness :
  (forall pi m m' e', @pre_analyze raising_fe pi m = Raised m' e' ->
     im_hooks_installed (import_mgr m') = im_hooks_installed (import_mgr m)) /\
  @preprocess raising_fe posix_path (demo_gen 10 CALL_GRAPH_OP) =
    Raised (pre_of raising_fe (demo_gen 10 CALL_GRAPH_OP)) (mkExn "SyntaxError" "invalid syntax") /\
  im_hooks_installed (import_mgr (mgrs (pre_of raising_fe (demo_gen 10 CALL_GRAPH_OP)))) = true.
Proof.
  assert (H1 : forall pi m m' e', @pre_analyze raising_fe pi m = Raised m' e' ->
     im_hooks_installed (import_mgr m') = im_hooks_installed (import_mgr m))
    by (intros pi m m' e' H; simpl in H; by injection H as <- _).
  assert (H2 : @preprocess raising_fe posix_path (demo_gen 10 CALL_GRAPH_OP) =
    Raised (pre_of raising_fe (demo_gen 10 CALL_GRAPH_OP)) (mkExn "SyntaxError" "invalid syntax"))
    by (vm_compute; reflexivity).
  split; [exact H1|]. split; [exact H2|]. exact (preprocess_raise_keeps_hooks _ _ _ H1 H2).
Defined.

Lemma preprocess_hooks_removed_witness :
  (exists ep, ep ∈ entry_points (demo_gen 10 CALL_GRAPH_OP) /\
     @get_mod_name posix_path ep (package (demo_gen 10 CALL_GRAPH_OP)) <> "") /\
  @preprocess stable_fe posix_path (demo_gen 10 CALL_GRAPH_OP) =
    Done (pre_of stable_fe (demo_gen 10 CALL_GRAPH_OP)) tt /\
  im_hooks_installed (import_mgr (mgrs (pre_of stable_fe (demo_gen 10 CALL_GRAPH_OP)))) = false.
Proof.
  assert (H1 : exists ep, ep ∈ entry_points (demo_gen 10 CALL_GRAPH_OP) /\
     @get_mod_name posix_path ep (package (demo_gen 10 CALL_GRAPH_OP)) <> "").
  { exists "pkg/m.py". split; [by left|vm_compute; discriminate]. }
  assert (H2 : @preprocess stable_fe posix_path (demo_gen 10 CALL_GRAPH_OP) =
    Done (pre_of stable_fe (demo_gen 10 CALL_GRAPH_OP)) tt) by (vm_compute; reflexivity).
  split; [exact H1|]. split; [exact H2|]. exact (preprocess_hooks_removed _ _ _ H1 H2).
Defined.

Lemma do_pass_walks_once_witness :
  reports_own_module (@pre_proc stable_fe) /\
  @do_pass posix_path (@pre_proc stable_fe) true (demo_gen 10 CALL_GRAPH_OP) =
    Done (outcome_state (@do_pass posix_path (@pre_proc stable_fe) true
                           (demo_gen 10 CALL_GRAPH_OP))) ["m"; "sub"] /\
  NoDup ["m"; "sub"].
Proof.
  assert (H1 : reports_own_module (@pre_proc stable_fe)).
  { intros pi s s' mods H. unfold pre_proc, py_focus in H. simpl in H.
    injection H as _ <-. set_solver. }
  assert (H2 : @do_pass posix_path (@pre_proc stable_fe) true (demo_gen 10 CALL_GRAPH_OP) =
    Done (outcome_state (@do_pass posix_path (@pre_proc stable_fe) true
                           (demo_gen 10 CALL_GRAPH_OP))) ["m"; "sub"])
    by (vm_compute; reflexivity).
  split; [exact H1|]. split; [exact H2|]. exact (do_pass_walks_once _ _ _ _ _ H1 H2).
Defined.

Lemma get_mod_name_roundtrip_witness :
  @os_relpath posix_path "pkg/sub/m.py" (Some "pkg") = join_on "/"%char (app ["sub"] [String.append "m" (String dot "py")]) /\
  forallb comp_ok (app ["sub"] ["m"]) = true /\ ext_ok "py" = true /\ app ["sub"] ["m"] <> ["__init__"] /\
  split_dots (@get_mod_name posix_path "pkg/sub/m.py" (Some "pkg")) = ["sub"; "m"].
Proof.
  assert (H1 : @os_relpath posix_path "pkg/sub/m.py" (Some "pkg") =
    join_on "/"%char (app ["sub"] [String.append "m" (String dot "py")])) by reflexivity.
  assert (H2 : forallb comp_ok (app ["sub"] ["m"]) = true) by reflexivity.
  assert (H3 : ext_ok "py" = true) by reflexivity.
  assert (H4 : app ["sub"] ["m"] <> ["__init__"]) by discriminate.
  do 4 (split; [assumption|]).
  exact (proj2 (get_mod_name_roundtrip _ _ _ _ _ H1 H2 H3 H4)).
Defined.
