(* ===== verification/Analyze.v ===== *)
(** * The post-processing loop and [analyze] (src/AID/AID.py 182-335)

    One iteration of the [while] body (save the snapshot, reset counters,
    the post-processing pass, the one-shot prune at iteration 0,
    [complete_definitions()]), the loop guard, the
    loop itself as a Fixpoint on fuel, and [analyze] with its operation
    dispatch.  The theorems: referential integrity (D1) of the store when the
    loop ends, termination within [max_iter] iterations, the exit condition
    (converged or capped), the cap of 10 that [__init__] hard-codes, the
    snapshot an iteration saves, monotone growth of the store after
    iteration 0 for a growing front-end (spec property 1), convergence
    within two iterations for a front-end whose post pass changes nothing
    (spec S1), each operation writing only its own output, the late
    rejection of an invalid operation, and that an iteration that changes
    a pointer value, even in place, never ends converged
    ([iteration_change_seen]).  [analyze] threads the generator through
    [ParameterExtraction], [TypeInference] and [Dataflow], each a step of
    the front-end that may change the managers or raise. *)

From S2P Require Import Prelude Namespace Definitions Scopes Classes Modules Collaborators Fixtures State Prune Passes.

Local Open Scope string_scope.

Section AnalyzeDefs.
Context `{FE : FrontEnd} `{OS : OsPath}.
(** One iteration of the [while] body. *)
Definition postprocess_iteration (iter_cnt : nat) : pyM CallGraphGenerator unit :=
  let* _ := py_modify (fun g => set_state (Some (extract_state g)) g) in
  let* _ := py_modify reset_counters in
  let* _ := do_pass post_proc false in
  let* _ := (if Nat.eqb iter_cnt 0
             then py_modify (fun g => set_defs_state (ext_prune (ptr_heap (mgrs g)) (def_mgr (mgrs g))) g)
             else py_ret tt) in
  py_modify (fun g => set_defs (complete_definitions (ptr_heap (mgrs g)) (def_mgr (mgrs g))) g).

(** The [while] condition. *)
Definition loop_guard (iter_cnt : nat) (g : CallGraphGenerator) : bool :=
  (bool_decide (max_iter g < 0)%Z || bool_decide (Z.of_nat iter_cnt < max_iter g)%Z) &&
  negb (has_converged g).

(** The [while] loop, [fuel] bounding its iterations ([None]: out of
    fuel); it ends with the generator and the final [iter_cnt]. *)
Fixpoint postprocess_loop (fuel iter_cnt : nat) (g : CallGraphGenerator)
    : option (outcome CallGraphGenerator nat) :=
  match fuel with
  | O => None
  | S fuel' =>
      if loop_guard iter_cnt g then
        match postprocess_iteration iter_cnt g with
        | Done g' _ => postprocess_loop fuel' (S iter_cnt) g'
        | Raised g' e => Some (Raised g' e)
        end
      else Some (Done g iter_cnt)
  end.

(** The loop from [iter_cnt = 0] and the [reset_counters()] after it. *)
Definition run_fixpoint (fuel : nat) (g : CallGraphGenerator)
    : option (outcome CallGraphGenerator unit) :=
  match postprocess_loop fuel 0 g with
  | None => None
  | Some (Done g' _) => Some (Done (reset_counters g') tt)
  | Some (Raised g' e) => Some (Raised g' e)
  end.

(** The final [if/elif/else] on [self.operation]. *)
Definition dispatch_operation (ti : ti_result) : pyM CallGraphGenerator unit :=
  let* g := py_get in
  if String.eqb (operation g) CALL_GRAPH_OP then
    let* _ := do_pass_attribute_matching_to_class (cg_proc ti) false in py_ret tt
  else if String.eqb (operation g) KEY_ERR_OP then
    let* _ := do_pass keyerr_proc false in py_ret tt
  else py_raise (mkExn "Exception" (String.append "Invalid operation: " (operation g))).

(** The calls of [analyze()] after the loop: [TypeInference.generate()],
    the [Dataflow] passes, [cg.add_dataflow_info(...)] and the dispatch. *)
Definition analyze_tail (params : gmap string (list string)) : pyM CallGraphGenerator unit :=
  let* ti := py_focus mgrs set_mgrs type_infer in
  let* df := py_focus mgrs set_mgrs dataflow_info in
  let* _ := py_modify (fun g => set_cg (add_dataflow_info df params (cg g)) g) in
  dispatch_operation ti.

(** The calls of [analyze()] before the loop: the pre-processing pass with
    its [complete_definitions()], then [ParameterExtraction(...)
    .get_parameter()]. *)
Definition analyze_head : pyM CallGraphGenerator (gmap string (list string)) :=
  let* _ := preprocess in py_focus mgrs set_mgrs get_parameter.

(** [analyze()]; [fuel] bounds the post-processing loop only. *)
Definition analyze (fuel : nat) (g : CallGraphGenerator)
    : option (outcome CallGraphGenerator unit) :=
  match analyze_head g with
  | Raised g' e => Some (Raised g' e)
  | Done g1 params =>
      match run_fixpoint fuel g1 with
      | None => None
      | Some (Raised g' e) => Some (Raised g' e)
      | Some (Done g3 _) => Some (analyze_tail params g3)
      end
  end.
End AnalyzeDefs.

(** The definition store grows (spec property 1). *)
Definition mgrs_defs_grow (m m' : managers) : Prop :=
  store_le (ptr_heap m, def_mgr m) (ptr_heap m', def_mgr m').
Definition defs_grow (g g' : CallGraphGenerator) : Prop := mgrs_defs_grow (mgrs g) (mgrs g').

(** The generator after one iteration whose post-processing pass changed
    nothing. *)
Definition stable_iteration (k : nat) (g : CallGraphGenerator) : CallGraphGenerator :=
  let g1 := reset_counters (set_state (Some (extract_state g)) g) in
  let g2 := if Nat.eqb k 0
            then set_defs_state (ext_prune (ptr_heap (mgrs g1)) (def_mgr (mgrs g1))) g1 else g1 in
  set_defs (complete_definitions (ptr_heap (mgrs g2)) (def_mgr (mgrs g2))) g2.

(** The key errors, and the call graph, are those of the first generator. *)
Definition same_key_errs (g g' : CallGraphGenerator) : Prop := key_errs g' = key_errs g.
Definition same_cg (g g' : CallGraphGenerator) : Prop := cg g' = cg g.

(** ** Concrete runs *)

Definition loop_of (fe : FrontEnd) (fuel : nat) (g : CallGraphGenerator) : CallGraphGenerator :=
  match @postprocess_loop fe posix_path fuel 0 g with Some o => outcome_state o | None => g end.

Definition head_of (fe : FrontEnd) (g : CallGraphGenerator) : CallGraphGenerator :=
  outcome_state (@analyze_head fe posix_path g).

Definition iter_of (fe : FrontEnd) (g : CallGraphGenerator) : CallGraphGenerator :=
  outcome_state (@postprocess_iteration fe posix_path 0 g).


(** ** Theorems *)

Section LoopProofs.
Context `{FE : FrontEnd} `{OS : OsPath}.
Lemma analyze_head_config : py_preserves same_config analyze_head.
Proof. unfold analyze_head. py_preserves_tac; first [apply preprocess_config | config_tac]. Qed.

Lemma analyze_head_state : py_preserves same_state analyze_head.
Proof.
  unfold analyze_head, preprocess. py_preserves_tac; try reflexivity.
  apply (do_pass_preserves same_state); [done|done|]. intros pi. unfold pre_proc.
  py_preserves_tac. reflexivity.
Qed.

Lemma postprocess_iteration_config k : py_preserves same_config (postprocess_iteration k).
Proof.
  unfold postprocess_iteration. py_preserves_tac;
    first [apply do_pass_config; intros pi; apply lifted_procs_config | config_tac].
Qed.

Lemma postprocess_loop_config fuel k g o :
  postprocess_loop fuel k g = Some o -> same_config g (outcome_state o).
Proof.
  revert k g. induction fuel as [|fuel IH]; intros k g; simpl; [done|].
  destruct (loop_guard k g); [|by intros [= <-]].
  destruct (postprocess_iteration k g) as [g' u|g' e] eqn:E.
  - intros Hl. etrans; [|exact (IH _ _ Hl)].
    exact (py_preserves_Done _ _ _ _ _ (postprocess_iteration_config k) E).
  - intros [= <-]. exact (py_preserves_Raised _ _ _ _ _ (postprocess_iteration_config k) E).
Qed.

Lemma postprocess_iteration_closed k g g' u :
  postprocess_iteration k g = Done g' u -> dm_closed (ptr_heap (mgrs g')) (def_mgr (mgrs g')).
Proof.
  intros H. unfold postprocess_iteration in H. py_run H. py_case H.
  destruct (Nat.eqb k 0); injection H as <- _; apply complete_closed.
Qed.

Lemma postprocess_loop_closed fuel k g g' n :
  dm_closed (ptr_heap (mgrs g)) (def_mgr (mgrs g)) ->
  postprocess_loop fuel k g = Some (Done g' n) -> dm_closed (ptr_heap (mgrs g')) (def_mgr (mgrs g')).
Proof.
  revert k g. induction fuel as [|fuel IH]; intros k g Hc; simpl; [done|].
  destruct (loop_guard k g); [|by intros [= <- _]].
  destruct (postprocess_iteration k g) as [g1 u|] eqn:E; [|done].
  apply IH. by eapply postprocess_iteration_closed.
Qed.

(** A loop whose guard holds at the start ends with a closed store. *)
Lemma postprocess_loop_closed_guard fuel k g g' n :
  loop_guard k g = true ->
  postprocess_loop fuel k g = Some (Done g' n) -> dm_closed (ptr_heap (mgrs g')) (def_mgr (mgrs g')).
Proof.
  intros Hg. destruct fuel as [|fuel]; simpl; [done|]. rewrite Hg.
  destruct (postprocess_iteration k g) as [g1 u|] eqn:E; [|done].
  apply postprocess_loop_closed. by eapply postprocess_iteration_closed.
Qed.

(** ** The loop: exit condition, bound, termination *)

Lemma loop_guard_false n g :
  loop_guard n g = false ->
  ((0 <= max_iter g)%Z /\ (max_iter g <= Z.of_nat n)%Z) \/ has_converged g = true.
Proof.
  unfold loop_guard. intros [H|H]%andb_false_iff.
  - apply orb_false_iff in H as [H1 H2].
    apply bool_decide_eq_false_1 in H1, H2. left. lia.
  - right. by apply negb_false_iff.
Qed.

Lemma postprocess_loop_exit fuel k g g' n :
  postprocess_loop fuel k g = Some (Done g' n) -> loop_guard n g' = false.
Proof.
  revert k g. induction fuel as [|fuel IH]; intros k g; simpl; [done|].
  destruct (loop_guard k g) eqn:G; [|by intros [= <- <-]].
  destruct (postprocess_iteration k g); [apply IH|done].
Qed.

Lemma postprocess_loop_max fuel k g g' n :
  (0 <= max_iter g)%Z ->
  postprocess_loop fuel k g = Some (Done g' n) -> n <= Nat.max k (Z.to_nat (max_iter g)).
Proof.
  revert k g. induction fuel as [|fuel IH]; intros k g HM; simpl; [done|].
  destruct (loop_guard k g) eqn:G; [|intros [= _ <-]; lia].
  unfold loop_guard in G. apply andb_true_iff in G as [G _].
  apply orb_true_iff in G as [G|G]; apply bool_decide_eq_true_1 in G; [lia|].
  destruct (postprocess_iteration k g) as [g1 u|] eqn:E; [|done].
  pose proof (py_preserves_Done _ _ _ _ _ (postprocess_iteration_config k) E)
    as (_ & _ & HM1 & _).
  intros Hl. apply IH in Hl; [|lia]. rewrite HM1 in Hl. lia.
Qed.

(** Enough fuel for a non-negative [max_iter]: the loop always ends. *)
(** Below a non-negative [max_iter], the loop only stops on convergence. *)
Lemma postprocess_loop_early fuel k g g' n :
  (0 <= max_iter g)%Z -> postprocess_loop fuel k g = Some (Done g' n) ->
  (Z.of_nat n < max_iter g)%Z -> has_converged g' = true.
Proof.
  intros HM Hl Hn. pose proof (postprocess_loop_config _ _ _ _ Hl) as (_ & _ & HM' & _).
  simpl in HM'. apply postprocess_loop_exit, loop_guard_false in Hl as [Hc|Hc]; [lia|done].
Qed.

Lemma postprocess_loop_terminates fuel k g :
  (0 <= max_iter g)%Z -> Z.to_nat (max_iter g) - k < fuel ->
  postprocess_loop fuel k g <> None.
Proof.
  revert k g. induction fuel as [|fuel IH]; intros k g HM Hf; [lia|]. simpl.
  destruct (loop_guard k g) eqn:G; [|done].
  unfold loop_guard in G. apply andb_true_iff in G as [G _].
  apply orb_true_iff in G as [G|G]; apply bool_decide_eq_true_1 in G; [lia|].
  destruct (postprocess_iteration k g) as [g1 u|] eqn:E; [|done].
  pose proof (py_preserves_Done _ _ _ _ _ (postprocess_iteration_config k) E)
    as (_ & _ & HM1 & _).
  apply IH; rewrite HM1; lia.
Qed.

(** More fuel never changes a result. *)
Lemma postprocess_loop_fuel_mono fuel fuel' k g o :
  fuel <= fuel' -> postprocess_loop fuel k g = Some o -> postprocess_loop fuel' k g = Some o.
Proof.
  revert fuel' k g. induction fuel as [|fuel IH]; intros fuel' k g Hle; simpl; [done|].
  destruct fuel' as [|fuel']; [lia|]. simpl.
  destruct (loop_guard k g); [|done].
  destruct (postprocess_iteration k g); [apply IH; lia|done].
Qed.

Lemma postprocess_iteration_state k g g' u :
  postprocess_iteration k g = Done g' u -> state g' = Some (extract_state g).
Proof.
  intros H. unfold postprocess_iteration in H. py_run H. py_case H.
  match goal with E : do_pass _ _ _ = Done _ _ |- _ =>
    apply (py_preserves_Done same_state) in E as Hs end;
    [|unfold do_pass; py_preserves_tac; apply do_pass_entries_state, post_proc_state].
  destruct (Nat.eqb k 0); injection H as <- _; exact Hs.
Qed.
End LoopProofs.

Section Headline.
Context `{FE : FrontEnd} `{OS : OsPath}.

(** C5 (functional): for a non-negative [max_iter], the post-processing
    loop started at [iter_cnt = k] ends with an iteration count of at most
    [max k max_iter], and if it ends below [max_iter] then the generator
    has converged. *)
Theorem postprocess_loop_result fuel k g g' n :
  (0 <= max_iter g)%Z -> postprocess_loop fuel k g = Some (Done g' n) ->
  n <= Nat.max k (Z.to_nat (max_iter g)) /\
  ((Z.of_nat n < max_iter g)%Z -> has_converged g' = true).
Proof.
  intros HM Hl. split; [by eapply postprocess_loop_max|by eapply postprocess_loop_early].
Qed.

(** C3 (termination): [analyze] on a freshly constructed generator never
    runs out of fuel with 11 loop steps, whatever [max_iter] argument the
    constructor received (even a negative one) and whatever the
    collaborators do. *)
Theorem analyze_init_terminates eps pkg arg op fuel :
  11 <= fuel -> analyze fuel (init_generator eps pkg arg op) <> None.
Proof.
  intros Hf. unfold analyze.
  destruct (analyze_head _) as [g1 u|g1 e] eqn:E; [|done].
  pose proof (py_preserves_Done _ _ _ _ _ analyze_head_config E) as (_ & _ & HM & _).
  simpl in HM. unfold run_fixpoint.
  destruct (postprocess_loop fuel 0 g1) as [[]|] eqn:El; [done|done|].
  exfalso. revert El. apply postprocess_loop_terminates; rewrite HM; lia.
Qed.

(** After [analyze]'s first calls on a generator built by [__init__], the
    loop's guard holds: no snapshot has been saved and [max_iter] is 10. *)
Lemma init_head_guard eps pkg arg op g1 p :
  analyze_head (init_generator eps pkg arg op) = Done g1 p -> loop_guard 0 g1 = true.
Proof.
  intros H.
  pose proof (py_preserves_Done _ _ _ _ _ analyze_head_config H) as (_ & _ & HM & _).
  pose proof (py_preserves_Done _ _ _ _ _ analyze_head_state H) as HS.
  unfold loop_guard. rewrite (has_converged_unsaved g1 HS), HM. reflexivity.
Qed.

(** C1 (invariant, spec D1 / property 2): whatever the front-end and the
    parameter extraction do, when [analyze] on a generator built by
    [__init__] has run the pre-processing pass, [get_parameter()] and the
    whole post-processing loop, every namespace named in a pointer set of
    the definition store is a key of the store: the loop runs at least
    once (no snapshot yet, [max_iter] is 10), and each iteration ends with
    [complete_definitions()]. *)
Theorem fixpoint_closed eps pkg arg op fuel g1 p g2 v :
  analyze_head (init_generator eps pkg arg op) = Done g1 p ->
  run_fixpoint fuel g1 = Some (Done g2 v) ->
  dm_closed (ptr_heap (mgrs g2)) (def_mgr (mgrs g2)).
Proof.
  intros Hh Hfix. unfold run_fixpoint in Hfix.
  destruct (postprocess_loop fuel 0 g1) as [[g3 n|]|] eqn:E; try discriminate.
  injection Hfix as <- _. apply (postprocess_loop_closed_guard _ _ _ _ _ (init_head_guard _ _ _ _ _ _ Hh) E).
Qed.

(** C4 (bounds): the loop of a freshly constructed generator runs at most
    10 iterations, whatever [max_iter] argument the constructor received;
    when it stops earlier the generator has converged. *)
Theorem init_loop_capped eps pkg arg op g1 u fuel g2 n :
  analyze_head (init_generator eps pkg arg op) = Done g1 u ->
  postprocess_loop fuel 0 g1 = Some (Done g2 n) ->
  n <= 10 /\ (n < 10 -> has_converged g2 = true).
Proof.
  intros Hpre Hl.
  pose proof (py_preserves_Done _ _ _ _ _ analyze_head_config Hpre) as (_ & _ & HM & _).
  simpl in HM. split.
  - apply postprocess_loop_max in Hl; rewrite HM in *; [lia..].
  - intros Hlt. eapply postprocess_loop_early; [|exact Hl|]; rewrite HM; lia.
Qed.

(** C6 (functional): after one iteration of the loop body, the generator
    has converged exactly when the snapshot of its new state is included
    in the snapshot taken at the start of that iteration. *)
Theorem iteration_convergence k g g' u :
  postprocess_iteration k g = Done g' u ->
  has_converged g' = true <-> snapshot_le (extract_state g') (extract_state g).
Proof.
  intros H. exact (has_converged_saved _ _ (postprocess_iteration_state _ _ _ _ H)).
Qed.
(** C31 (safety): the snapshot copies the pointer values, so an
    iteration after which some definition's pointers differ from what they
    were at its start, because a set object was changed in place or
    replaced, never ends converged: the loop cannot stop before the
    post-processing pass stops changing the store. *)
Theorem iteration_change_seen k g g' u ns d d' :
  postprocess_iteration k g = Done g' u ->
  def_mgr (mgrs g) !! ns = Some d -> def_mgr (mgrs g') !! ns = Some d' ->
  (names_of (ptr_heap (mgrs g')) (def_names d'), lits_of (ptr_heap (mgrs g')) (def_lits d')) <>
    (names_of (ptr_heap (mgrs g)) (def_names d), lits_of (ptr_heap (mgrs g)) (def_lits d)) ->
  has_converged g' = false.
Proof.
  intros H Hd Hd' Hne. apply not_true_iff_false. intros Hc.
  apply (has_converged_saved _ _ (postprocess_iteration_state _ _ _ _ H)) in Hc as [Hdefs _].
  rewrite map_subseteq_spec in Hdefs. apply Hne.
  specialize (Hdefs ns). unfold extract_state, extract_defs in Hdefs. simpl in Hdefs.
  rewrite !lookup_fmap, Hd, Hd' in Hdefs. specialize (Hdefs _ eq_refl). simpl in Hdefs. congruence.
Qed.
End Headline.

Section Dispatch.
Context `{FE : FrontEnd} `{OS : OsPath}.

(** C14 (error): an operation that is neither [CALL_GRAPH_OP] nor
    [KEY_ERR_OP] is only rejected at the very end of [analyze]: when the
    pre-processing pass, the parameter extraction, the fixed-point loop,
    the type inference and the dataflow passes return, [analyze] raises
    [Exception("Invalid operation: " + op)] from a generator that already
    carries the dataflow information. *)
Theorem analyze_invalid_operation fuel g g1 p g3 v m4 ti m5 df :
  operation g <> CALL_GRAPH_OP -> operation g <> KEY_ERR_OP ->
  analyze_head g = Done g1 p -> run_fixpoint fuel g1 = Some (Done g3 v) ->
  type_infer (mgrs g3) = Done m4 ti -> dataflow_info m4 = Done m5 df ->
  exists g4, analyze fuel g =
    Some (Raised g4 (mkExn "Exception" (String.append "Invalid operation: " (operation g)))) /\
    cg_dataflow (cg g4) <> None.
Proof.
  intros Hcg Hke Hh Hfix Hti Hdf. unfold analyze. rewrite Hh, Hfix.
  pose proof (py_preserves_Done _ _ _ _ _ analyze_head_config Hh) as (_ & _ & _ & Hop1).
  unfold run_fixpoint in Hfix.
  destruct (postprocess_loop fuel 0 g1) as [[g5 n|]|] eqn:E; try discriminate.
  injection Hfix as <- _.
  pose proof (postprocess_loop_config _ _ _ _ E) as (_ & _ & _ & Hop3). simpl in Hop3.
  eexists. unfold analyze_tail, dispatch_operation, py_bind, py_focus, py_get, py_modify, py_raise.
  rewrite Hti. simpl. rewrite Hdf. simpl.
  rewrite Hop3, Hop1. apply String.eqb_neq in Hcg, Hke. rewrite Hcg, Hke. by split.
Qed.
End Dispatch.

#[export] Instance mgrs_defs_grow_preorder : PreOrder mgrs_defs_grow.
Proof. split; [intros m; unfold mgrs_defs_grow; reflexivity|intros m1 m2 m3; unfold mgrs_defs_grow; apply transitivity]. Qed.

#[export] Instance defs_grow_preorder : PreOrder defs_grow.
Proof. split; [intros g; unfold defs_grow; reflexivity|intros g1 g2 g3; unfold defs_grow; apply transitivity]. Qed.

#[export] Instance same_key_errs_preorder : PreOrder same_key_errs.
Proof. split; [intros g; reflexivity|intros g1 g2 g3 H1 H2; unfold same_key_errs in *; congruence]. Qed.

#[export] Instance same_cg_preorder : PreOrder same_cg.
Proof. split; [intros g; reflexivity|intros g1 g2 g3 H1 H2; unfold same_cg in *; congruence]. Qed.

Section Operations.
Context `{FE : FrontEnd} `{OS : OsPath}.

(** C24 (safety, spec section 6): each operation writes only its own
    output: the call-graph pass leaves the key errors as they were, and the
    key-error pass leaves the call graph as it was. *)
Theorem dispatch_own_output ti g :
  (operation g = CALL_GRAPH_OP -> key_errs (outcome_state (dispatch_operation ti g)) = key_errs g) /\
  (operation g = KEY_ERR_OP -> cg (outcome_state (dispatch_operation ti g)) = cg g).
Proof.
  split; intros Hop; unfold dispatch_operation, py_bind at 1, py_get; rewrite Hop;
    unfold CALL_GRAPH_OP, KEY_ERR_OP; simpl.
  - refine (py_preserves_bind same_key_errs _ _ _ (fun _ => py_preserves_ret _ _) g).
    apply (do_pass_attribute_preserves same_key_errs); [intros; unfold same_key_errs; reflexivity..|].
    intros pi. unfold cg_proc. apply py_preserves_focus. intros; unfold same_key_errs; reflexivity.
  - refine (py_preserves_bind same_cg _ _ _ (fun _ => py_preserves_ret _ _) g).
    apply (do_pass_preserves same_cg); [intros; unfold same_cg; reflexivity..|].
    intros pi. unfold keyerr_proc. apply py_preserves_focus. intros; unfold same_cg; reflexivity.
Qed.

End Operations.

Section Growth.
Context `{FE : FrontEnd} `{OS : OsPath}.
Hypothesis post_grows : forall pi, py_preserves mgrs_defs_grow (post_analyze pi).

Lemma post_proc_grows pi : py_preserves defs_grow (post_proc pi).
Proof.
  unfold post_proc. apply (py_preserves_focus_rel defs_grow mgrs_defs_grow); [|apply post_grows].
  intros g m H. exact H.
Qed.

Lemma post_pass_grows : py_preserves defs_grow (do_pass post_proc false).
Proof.
  apply (do_pass_preserves defs_grow); [intros; unfold defs_grow, mgrs_defs_grow; simpl; reflexivity..|].
  apply post_proc_grows.
Qed.

Lemma iteration_grows k : k <> 0 -> py_preserves defs_grow (postprocess_iteration k).
Proof.
  intros Hk. apply Nat.eqb_neq in Hk. unfold postprocess_iteration. rewrite Hk.
  py_preserves_tac.
  3: apply post_pass_grows.
  all: unfold defs_grow, mgrs_defs_grow; simpl; first [reflexivity | apply complete_grows].
Qed.

(** C21 (invariant, spec property 1): when the post-processor only grows
    pointer sets, every iteration of the loop but the first keeps every
    definition, its kind and all of its pointers; only iteration 0, which
    runs the prune, can lose any. *)
Theorem iteration_monotone k g g' u :
  k <> 0 -> postprocess_iteration k g = Done g' u ->
  store_le (ptr_heap (mgrs g), def_mgr (mgrs g)) (ptr_heap (mgrs g'), def_mgr (mgrs g')).
Proof. intros Hk H. exact (py_preserves_Done _ _ _ _ _ (iteration_grows k Hk) H). Qed.

(** C28 (invariant, spec property 1 at iteration 0): when the
    post-processor only grows pointer sets, iteration 0, which runs the
    prune, loses only a set [P] of namespaces, gone from the store after
    it and EXT definitions wherever they were in it before: every other
    definition is kept with its kind, its literal sets grown and each of
    its name sets grown but for the elements of [P]. *)
Theorem iteration_zero_monotone g g' u :
  postprocess_iteration 0 g = Done g' u ->
  exists P, (forall t, t ∈ P -> def_mgr (mgrs g') !! t = None /\
               forall d, def_mgr (mgrs g) !! t = Some d -> def_type d = EXT_DEF) /\
    store_le_except P (ptr_heap (mgrs g), def_mgr (mgrs g)) (ptr_heap (mgrs g'), def_mgr (mgrs g')).
Proof.
  intros H. unfold postprocess_iteration in H. py_run H. py_case H. injection H as <- _.
  assert (Hg : defs_grow g s).
  { etrans; [|exact (py_preserves_Done _ _ _ _ _ post_pass_grows E)].
    unfold defs_grow, mgrs_defs_grow. simpl. reflexivity. }
  set (h := ptr_heap (mgrs s)). set (dm := def_mgr (mgrs s)). fold h dm in Hg.
  assert (Hr : ext_prune h dm = remove_all (elements (prune_candidates dm)) (h, dm)) by reflexivity.
  exists (prune_candidates dm). split.
  - intros t Ht. split.
    + simpl. fold h dm. rewrite Hr, lookup_complete.
      replace ((remove_all _ (h, dm)).2 !! t) with (@None defi)
        by (symmetry; apply remove_all_lookup_None; right; by apply elem_of_elements).
      rewrite decide_False; [done|]. intros [_ Hn]%remove_all_pointees. by apply Hn, elem_of_elements.
    + intros d Hd. destruct (prune_candidates_sound _ _ Ht) as (dp & Hdp & Htp & _).
      destruct (Hg t d Hd) as (d' & Hd' & Ht' & _). simpl in Hd'. fold dm in Hd'. congruence.
  - simpl. fold h dm. apply (store_le_except_le_l _ _ (h, dm)); [exact Hg|].
    apply (store_le_except_le_r _ _ (ext_prune h dm)).
    + rewrite Hr, <- (list_to_set_elements_L (prune_candidates dm)) at 1. apply remove_all_le_except.
    + destruct (ext_prune h dm). apply complete_grows.
Qed.

End Growth.

Section Stable.
Context `{FE : FrontEnd} `{OS : OsPath}.
Hypothesis post_stable : forall pi m, exists mods, post_analyze pi m = Done m mods.

Lemma set_mgrs_self g : set_mgrs (mgrs g) g = g.
Proof. by destruct g. Qed.

(** A walk by a processor that changes nothing changes nothing. *)
Lemma do_pass_entries_stable proc eps A g :
  (forall pi g, exists mods, proc pi g = Done g mods) ->
  exists tr, do_pass_entries proc false eps A g = Done g tr.
Proof.
  intros Hproc. revert A. induction eps as [|ep eps IH]; intros A; simpl; [by eexists|].
  unfold py_bind at 1. simpl.
  destruct (negb _); [apply IH|]. destruct (bool_decide _); [apply IH|].
  unfold py_bind, py_ret. simpl.
  match goal with |- context [proc ?pi g] => destruct (Hproc pi g) as [mods ->] end.
  destruct (IH (A ∪ mods)) as [tr ->]. by eexists.
Qed.

Lemma post_proc_stable pi g : exists mods, post_proc pi g = Done g mods.
Proof.
  unfold post_proc, py_focus. destruct (post_stable pi (mgrs g)) as [mods ->].
  exists mods. by rewrite set_mgrs_self.
Qed.

Lemma iteration_stable k g : postprocess_iteration k g = Done (stable_iteration k g) tt.
Proof.
  unfold postprocess_iteration, do_pass, py_bind, py_modify, py_get.
  match goal with |- context [do_pass_entries post_proc false ?eps ?A ?g0] =>
    destruct (do_pass_entries_stable post_proc eps A g0 post_proc_stable) as [tr ->] end.
  unfold stable_iteration. destruct (Nat.eqb k 0); reflexivity.
Qed.

(** An iteration after the first, from a closed store, ends converged. *)
Lemma stable_converged k g :
  k <> 0 -> dm_closed (ptr_heap (mgrs g)) (def_mgr (mgrs g)) -> has_converged (stable_iteration k g) = true.
Proof.
  intros Hk Hc. apply Nat.eqb_neq in Hk. unfold stable_iteration. rewrite Hk. simpl.
  rewrite complete_id by done.
  apply (has_converged_saved _ (extract_state g)); [done|].
  match goal with |- snapshot_le (extract_state ?g1) _ =>
    replace (extract_state g1) with (extract_state g); [reflexivity|] end.
  unfold extract_state. simpl. by rewrite extract_scopes_reset.
Qed.

(** C22 (liveness, spec scenario S1): when the post-processing pass changes
    nothing, the loop converges within two iterations: iteration 0 may
    prune, iteration 1 then reproduces the snapshot it saved. *)
Theorem stable_post_converges fuel g :
  3 <= fuel -> (max_iter g < 0 \/ 2 <= max_iter g)%Z ->
  exists g' n, postprocess_loop fuel 0 g = Some (Done g' n) /\ n <= 2 /\ has_converged g' = true.
Proof.
  intros Hf Hm. destruct fuel as [|[|[|fuel]]]; [lia..|]. cbn [postprocess_loop].
  destruct (loop_guard 0 g) eqn:G0.
  2: { exists g, 0. split; [done|]. split; [lia|].
       apply loop_guard_false in G0 as [[? ?]|?]; [lia|done]. }
  rewrite iteration_stable. destruct (loop_guard 1 (stable_iteration 0 g)) eqn:G1.
  2: { eexists _, 1. split; [reflexivity|]. split; [lia|].
       apply loop_guard_false in G1 as [[? ?]|?]; [simpl in *; lia|done]. }
  rewrite iteration_stable.
  assert (Hc2 : has_converged (stable_iteration 1 (stable_iteration 0 g)) = true)
    by (apply stable_converged; [lia|apply complete_closed]).
  destruct fuel; cbn [postprocess_loop]; unfold loop_guard at 1; rewrite Hc2, andb_false_r.
  all: eexists _, 2; split; [reflexivity|]; split; [lia|exact Hc2].
Qed.

End Stable.

Lemma fixpoint_closed_witness :
  @analyze_head stable_fe posix_path (demo_gen 10 CALL_GRAPH_OP) =
    Done (head_of stable_fe (demo_gen 10 CALL_GRAPH_OP)) ∅ /\
  @run_fixpoint stable_fe posix_path 11 (head_of stable_fe (demo_gen 10 CALL_GRAPH_OP)) =
    Some (Done (reset_counters (loop_of stable_fe 11 (head_of stable_fe (demo_gen 10 CALL_GRAPH_OP)))) tt) /\
  dm_closed (ptr_heap (mgrs (reset_counters (loop_of stable_fe 11 (head_of stable_fe (demo_gen 10 CALL_GRAPH_OP))))))
            (def_mgr (mgrs (reset_counters (loop_of stable_fe 11 (head_of stable_fe (demo_gen 10 CALL_GRAPH_OP)))))).
Proof.
  assert (H1 : @analyze_head stable_fe posix_path (demo_gen 10 CALL_GRAPH_OP) =
    Done (head_of stable_fe (demo_gen 10 CALL_GRAPH_OP)) ∅) by (vm_compute; reflexivity).
  assert (H2 : @run_fixpoint stable_fe posix_path 11 (head_of stable_fe (demo_gen 10 CALL_GRAPH_OP)) =
    Some (Done (reset_counters (loop_of stable_fe 11 (head_of stable_fe (demo_gen 10 CALL_GRAPH_OP)))) tt))
    by (vm_compute; reflexivity).
  split; [exact H1|]. split; [exact H2|].
  exact (fixpoint_closed demo_entries (Some "pkg") 10 CALL_GRAPH_OP _ _ _ _ _ H1 H2).
Defined.

Lemma analyze_init_terminates_witness :
  11 <= 11 /\ @analyze growing_fe posix_path 11 (demo_gen (-1) CALL_GRAPH_OP) <> None.
Proof. split; [lia|]. apply analyze_init_terminates. lia. Defined.

Lemma init_loop_capped_witness :
  @analyze_head growing_fe posix_path (demo_gen (-1) CALL_GRAPH_OP) =
    Done (head_of growing_fe (demo_gen (-1) CALL_GRAPH_OP)) ∅ /\
  @postprocess_loop growing_fe posix_path 11 0 (head_of growing_fe (demo_gen (-1) CALL_GRAPH_OP)) =
    Some (Done (loop_of growing_fe 11 (head_of growing_fe (demo_gen (-1) CALL_GRAPH_OP))) 10) /\
  10 <= 10 /\ (10 < 10 -> has_converged (loop_of growing_fe 11 (head_of growing_fe (demo_gen (-1) CALL_GRAPH_OP))) = true).
Proof.
  assert (H1 : @analyze_head growing_fe posix_path (demo_gen (-1) CALL_GRAPH_OP) =
    Done (head_of growing_fe (demo_gen (-1) CALL_GRAPH_OP)) ∅) by (vm_compute; reflexivity).
  assert (H2 : @postprocess_loop growing_fe posix_path 11 0 (head_of growing_fe (demo_gen (-1) CALL_GRAPH_OP)) =
    Some (Done (loop_of growing_fe 11 (head_of growing_fe (demo_gen (-1) CALL_GRAPH_OP))) 10))
    by (vm_compute; reflexivity).
  split; [exact H1|]. split; [exact H2|].
  exact (init_loop_capped demo_entries (Some "pkg") (-1)%Z CALL_GRAPH_OP _ _ _ _ _ H1 H2).
Defined.

Lemma postprocess_loop_result_witness :
  (0 <= max_iter (pre_of stable_fe (demo_gen 10 CALL_GRAPH_OP)))%Z /\
  @postprocess_loop stable_fe posix_path 11 0 (pre_of stable_fe (demo_gen 10 CALL_GRAPH_OP)) =
    Some (Done (loop_of stable_fe 11 (pre_of stable_fe (demo_gen 10 CALL_GRAPH_OP))) 1) /\
  1 <= Nat.max 0 (Z.to_nat (max_iter (pre_of stable_fe (demo_gen 10 CALL_GRAPH_OP)))) /\
  ((Z.of_nat 1 < max_iter (pre_of stable_fe (demo_gen 10 CALL_GRAPH_OP)))%Z ->
   has_converged (loop_of stable_fe 11 (pre_of stable_fe (demo_gen 10 CALL_GRAPH_OP))) = true).
Proof.
  assert (H0 : (0 <= max_iter (pre_of stable_fe (demo_gen 10 CALL_GRAPH_OP)))%Z)
    by (vm_compute; discriminate).
  assert (H1 : @postprocess_loop stable_fe posix_path 11 0 (pre_of stable_fe (demo_gen 10 CALL_GRAPH_OP)) =
    Some (Done (loop_of stable_fe 11 (pre_of stable_fe (demo_gen 10 CALL_GRAPH_OP))) 1))
    by (vm_compute; reflexivity).
  split; [exact H0|]. split; [exact H1|]. exact (postprocess_loop_result _ _ _ _ _ H0 H1).
Defined.

Lemma iteration_convergence_witness :
  @postprocess_iteration stable_fe posix_path 0 (pre_of stable_fe (demo_gen 10 CALL_GRAPH_OP)) =
    Done (iter_of stable_fe (pre_of stable_fe (demo_gen 10 CALL_GRAPH_OP))) tt /\
  (has_converged (iter_of stable_fe (pre_of stable_fe (demo_gen 10 CALL_GRAPH_OP))) = true <->
   snapshot_le (extract_state (iter_of stable_fe (pre_of stable_fe (demo_gen 10 CALL_GRAPH_OP))))
               (extract_state (pre_of stable_fe (demo_gen 10 CALL_GRAPH_OP)))).
Proof.
  assert (H1 : @postprocess_iteration stable_fe posix_path 0 (pre_of stable_fe (demo_gen 10 CALL_GRAPH_OP)) =
    Done (iter_of stable_fe (pre_of stable_fe (demo_gen 10 CALL_GRAPH_OP))) tt)
    by (vm_compute; reflexivity).
  split; [exact H1|]. exact (iteration_convergence _ _ _ _ H1).
Defined.

(** The spec's scenario S3: an unresolved [X.run] became EXT, and a class
    [pkg.X] with a method [run] was discovered.  The prune keeps [X.run]. *)
Lemma analyze_invalid_operation_witness :
  operation (demo_gen 10 "bogus") <> CALL_GRAPH_OP /\
  operation (demo_gen 10 "bogus") <> KEY_ERR_OP /\
  @analyze_head stable_fe posix_path (demo_gen 10 "bogus") =
    Done (head_of stable_fe (demo_gen 10 "bogus")) ∅ /\
  @run_fixpoint stable_fe posix_path 11 (head_of stable_fe (demo_gen 10 "bogus")) =
    Some (Done (reset_counters (loop_of stable_fe 11 (head_of stable_fe (demo_gen 10 "bogus")))) tt) /\
  @type_infer stable_fe (mgrs (reset_counters (loop_of stable_fe 11 (head_of stable_fe (demo_gen 10 "bogus"))))) =
    Done (mgrs (reset_counters (loop_of stable_fe 11 (head_of stable_fe (demo_gen 10 "bogus"))))) (mkTI ∅ ∅ ∅) /\
  @dataflow_info stable_fe (mgrs (reset_counters (loop_of stable_fe 11 (head_of stable_fe (demo_gen 10 "bogus"))))) =
    Done (mgrs (reset_counters (loop_of stable_fe 11 (head_of stable_fe (demo_gen 10 "bogus"))))) (mkDF ∅ ∅ ∅) /\
  exists g4, @analyze stable_fe posix_path 11 (demo_gen 10 "bogus") =
    Some (Raised g4 (mkExn "Exception" (String.append "Invalid operation: " "bogus"))) /\
    cg_dataflow (cg g4) <> None.
Proof.
  assert (H1 : operation (demo_gen 10 "bogus") <> CALL_GRAPH_OP) by (vm_compute; discriminate).
  assert (H2 : operation (demo_gen 10 "bogus") <> KEY_ERR_OP) by (vm_compute; discriminate).
  assert (H3 : @analyze_head stable_fe posix_path (demo_gen 10 "bogus") =
    Done (head_of stable_fe (demo_gen 10 "bogus")) ∅) by (vm_compute; reflexivity).
  assert (H4 : @run_fixpoint stable_fe posix_path 11 (head_of stable_fe (demo_gen 10 "bogus")) =
    Some (Done (reset_counters (loop_of stable_fe 11 (head_of stable_fe (demo_gen 10 "bogus")))) tt))
    by (vm_compute; reflexivity).
  do 4 (split; [assumption|]). split; [reflexivity|]. split; [reflexivity|].
  exact (analyze_invalid_operation _ _ _ _ _ _ _ _ _ _ H1 H2 H3 H4 eq_refl eq_refl).
Defined.

(** The growing front-end only adds pointers. *)
Lemma growing_fe_grows pi : py_preserves mgrs_defs_grow (@post_analyze growing_fe pi).
Proof.
  intros m. simpl. unfold mgrs_defs_grow, grow_module, add_to_root.
  destruct (_ ≫= _) as [r|]; [|reflexivity]. simpl.
  apply store_le_heap_grow; [|done]. intros r'. unfold deref at 2. simpl.
  destruct (decide (r' = r)) as [->|Hne]; [rewrite lookup_insert_eq; set_solver|].
  by rewrite lookup_insert_ne.
Qed.

Lemma iteration_monotone_witness :
  (forall pi, py_preserves mgrs_defs_grow (@post_analyze growing_fe pi)) /\ 1 <> 0 /\
  @postprocess_iteration growing_fe posix_path 1 (iter_of growing_fe (pre_of growing_fe (demo_gen 10 CALL_GRAPH_OP))) =
    Done (outcome_state (@postprocess_iteration growing_fe posix_path 1
            (iter_of growing_fe (pre_of growing_fe (demo_gen 10 CALL_GRAPH_OP))))) tt /\
  store_le (ptr_heap (mgrs (iter_of growing_fe (pre_of growing_fe (demo_gen 10 CALL_GRAPH_OP)))),
            def_mgr (mgrs (iter_of growing_fe (pre_of growing_fe (demo_gen 10 CALL_GRAPH_OP)))))
           (ptr_heap (mgrs (outcome_state (@postprocess_iteration growing_fe posix_path 1
              (iter_of growing_fe (pre_of growing_fe (demo_gen 10 CALL_GRAPH_OP)))))),
            def_mgr (mgrs (outcome_state (@postprocess_iteration growing_fe posix_path 1
              (iter_of growing_fe (pre_of growing_fe (demo_gen 10 CALL_GRAPH_OP))))))).
Proof.
  assert (H1 : 1 <> 0) by lia.
  assert (H2 : @postprocess_iteration growing_fe posix_path 1 (iter_of growing_fe (pre_of growing_fe (demo_gen 10 CALL_GRAPH_OP))) =
    Done (outcome_state (@postprocess_iteration growing_fe posix_path 1
            (iter_of growing_fe (pre_of growing_fe (demo_gen 10 CALL_GRAPH_OP))))) tt)
    by (vm_compute; reflexivity).
  split; [exact growing_fe_grows|]. split; [exact H1|]. split; [exact H2|].
  exact (iteration_monotone growing_fe_grows _ _ _ _ H1 H2).
Defined.

Lemma stable_post_converges_witness :
  (forall pi m, exists mods, @post_analyze stable_fe pi m = Done m mods) /\ 3 <= 3 /\
  (max_iter (pre_of stable_fe (demo_gen 10 CALL_GRAPH_OP)) < 0 \/
   2 <= max_iter (pre_of stable_fe (demo_gen 10 CALL_GRAPH_OP)))%Z /\
  exists g' n, @postprocess_loop stable_fe posix_path 3 0 (pre_of stable_fe (demo_gen 10 CALL_GRAPH_OP)) =
    Some (Done g' n) /\ n <= 2 /\ has_converged g' = true.
Proof.
  assert (H1 : forall pi m, exists mods, @post_analyze stable_fe pi m = Done m mods)
    by (intros pi m; eexists; reflexivity).
  assert (H2 : 3 <= 3) by lia.
  assert (H3 : (max_iter (pre_of stable_fe (demo_gen 10 CALL_GRAPH_OP)) < 0 \/
                2 <= max_iter (pre_of stable_fe (demo_gen 10 CALL_GRAPH_OP)))%Z)
    by (right; vm_compute; discriminate).
  do 3 (split; [assumption|]). exact (stable_post_converges H1 3 _ H2 H3).
Defined.

Lemma dispatch_own_output_witness :
  operation (demo_gen 10 CALL_GRAPH_OP) = CALL_GRAPH_OP /\
  key_errs (outcome_state (@dispatch_operation stable_fe posix_path (mkTI ∅ ∅ ∅) (demo_gen 10 CALL_GRAPH_OP))) =
    key_errs (demo_gen 10 CALL_GRAPH_OP).
Proof.
  assert (H : operation (demo_gen 10 CALL_GRAPH_OP) = CALL_GRAPH_OP) by reflexivity.
  split; [exact H|]. exact (proj1 (dispatch_own_output _ _) H).
Defined.

Lemma iteration_zero_monotone_witness :
  (forall pi, py_preserves mgrs_defs_grow (@post_analyze growing_fe pi)) /\
  @postprocess_iteration growing_fe posix_path 0 (pre_of growing_fe (demo_gen 10 CALL_GRAPH_OP)) =
    Done (iter_of growing_fe (pre_of growing_fe (demo_gen 10 CALL_GRAPH_OP))) tt /\
  exists P, (forall t, t ∈ P ->
      def_mgr (mgrs (iter_of growing_fe (pre_of growing_fe (demo_gen 10 CALL_GRAPH_OP)))) !! t = None /\
      forall d, def_mgr (mgrs (pre_of growing_fe (demo_gen 10 CALL_GRAPH_OP))) !! t = Some d -> def_type d = EXT_DEF) /\
    store_le_except P
      (ptr_heap (mgrs (pre_of growing_fe (demo_gen 10 CALL_GRAPH_OP))),
       def_mgr (mgrs (pre_of growing_fe (demo_gen 10 CALL_GRAPH_OP))))
      (ptr_heap (mgrs (iter_of growing_fe (pre_of growing_fe (demo_gen 10 CALL_GRAPH_OP)))),
       def_mgr (mgrs (iter_of growing_fe (pre_of growing_fe (demo_gen 10 CALL_GRAPH_OP))))).
Proof.
  assert (H : @postprocess_iteration growing_fe posix_path 0 (pre_of growing_fe (demo_gen 10 CALL_GRAPH_OP)) =
    Done (iter_of growing_fe (pre_of growing_fe (demo_gen 10 CALL_GRAPH_OP))) tt) by (vm_compute; reflexivity).
  split; [exact growing_fe_grows|]. split; [exact H|].
  exact (iteration_zero_monotone growing_fe_grows _ _ _ H).
Defined.



Lemma iteration_change_seen_witness :
  @postprocess_iteration growing_fe posix_path 0 (pre_of growing_fe (demo_gen 10 CALL_GRAPH_OP)) =
    Done (iter_of growing_fe (pre_of growing_fe (demo_gen 10 CALL_GRAPH_OP))) tt /\
  def_mgr (mgrs (pre_of growing_fe (demo_gen 10 CALL_GRAPH_OP))) !! "m" =
    Some (mkDefi "m" MOD_DEF {["" := 1%positive]} ∅) /\
  def_mgr (mgrs (iter_of growing_fe (pre_of growing_fe (demo_gen 10 CALL_GRAPH_OP)))) !! "m" =
    Some (mkDefi "m" MOD_DEF {["" := 1%positive]} ∅) /\
  (names_of (ptr_heap (mgrs (iter_of growing_fe (pre_of growing_fe (demo_gen 10 CALL_GRAPH_OP)))))
     {["" := 1%positive]},
   lits_of (ptr_heap (mgrs (iter_of growing_fe (pre_of growing_fe (demo_gen 10 CALL_GRAPH_OP))))) ∅) <>
  (names_of (ptr_heap (mgrs (pre_of growing_fe (demo_gen 10 CALL_GRAPH_OP)))) {["" := 1%positive]},
   lits_of (ptr_heap (mgrs (pre_of growing_fe (demo_gen 10 CALL_GRAPH_OP)))) ∅) /\
  has_converged (iter_of growing_fe (pre_of growing_fe (demo_gen 10 CALL_GRAPH_OP))) = false.
Proof.
  assert (H1 : @postprocess_iteration growing_fe posix_path 0 (pre_of growing_fe (demo_gen 10 CALL_GRAPH_OP)) =
    Done (iter_of growing_fe (pre_of growing_fe (demo_gen 10 CALL_GRAPH_OP))) tt) by (vm_compute; reflexivity).
  assert (H2 : def_mgr (mgrs (pre_of growing_fe (demo_gen 10 CALL_GRAPH_OP))) !! "m" =
    Some (mkDefi "m" MOD_DEF {["" := 1%positive]} ∅)) by (vm_compute; reflexivity).
  assert (H3 : def_mgr (mgrs (iter_of growing_fe (pre_of growing_fe (demo_gen 10 CALL_GRAPH_OP)))) !! "m" =
    Some (mkDefi "m" MOD_DEF {["" := 1%positive]} ∅)) by (vm_compute; reflexivity).
  assert (H4 : (names_of (ptr_heap (mgrs (iter_of growing_fe (pre_of growing_fe (demo_gen 10 CALL_GRAPH_OP)))))
     {["" := 1%positive]},
   lits_of (ptr_heap (mgrs (iter_of growing_fe (pre_of growing_fe (demo_gen 10 CALL_GRAPH_OP))))) ∅) <>
  (names_of (ptr_heap (mgrs (pre_of growing_fe (demo_gen 10 CALL_GRAPH_OP)))) {["" := 1%positive]},
   lits_of (ptr_heap (mgrs (pre_of growing_fe (demo_gen 10 CALL_GRAPH_OP)))) ∅)) by decide_closed.
  do 4 (split; [assumption|]). exact (iteration_change_seen _ _ _ _ _ _ _ H1 H2 H3 H4).
Defined.
