(* ===== verification/Outputs.v ===== *)
(** * The output methods (src/AID/AID.py 337-384)

    [output], [output_key_errs], the module tables, [output_functions],
    [output_classes] and [get_as_graph], each a read of the managers.  The
    theorem: after [set_bases], the MRO [output_classes()] reports is the
    class followed by a valid C3 linearisation of its known bases. *)

From S2P Require Import Prelude Namespace Definitions Scopes Classes Modules Collaborators State.

Local Open Scope string_scope.

Section OutputDefs.
Context `{FE : FrontEnd} `{OS : OsPath}.

(** [output()]: generates the dataflow call graph, then returns the graph. *)
Definition output (g : CallGraphGenerator) : CallGraphGenerator * gmap string (gset string) :=
  let c := generate_datacg (cg g) in (set_cg c g, cg_edges c).

Definition output_key_errs (g : CallGraphGenerator) : list key_err := key_errs g.

(** [output_edges()]: the edges of the graph as it is, with no dataflow
    generation. *)
Definition output_edges (g : CallGraphGenerator) : gmap string (gset string) := cg_edges (cg g).

Definition generate_mods (pkg : option string) (mods : gmap string module_node)
    : gmap string (option string * list string) :=
  (fun node => (if str_truthy (mod_filename node)
                then Some (os_relpath (default "" (mod_filename node)) pkg) else None,
                mod_methods node)) <$> mods.

Definition output_internal_mods (g : CallGraphGenerator) :=
  generate_mods (package g) (internal_mods (module_mgr (mgrs g))).

Definition output_external_mods (g : CallGraphGenerator) :=
  generate_mods (package g) (external_mods (module_mgr (mgrs g))).
End OutputDefs.

Definition output_functions (g : CallGraphGenerator) : list string :=
  fst <$> filter (fun kv : string * defi => def_type kv.2 = FUN_DEF) (map_to_list (def_mgr (mgrs g))).

Definition output_classes (g : CallGraphGenerator) : gmap string (list string * string) :=
  (fun c => (cls_mro c, cls_module c)) <$> class_mgr (mgrs g).

Definition get_as_graph (g : CallGraphGenerator) : list (string * defi) :=
  map_to_list (def_mgr (mgrs g)).


(** A fresh generator whose class registry is [cm]. *)
Definition with_classes (cm : class_manager) : CallGraphGenerator :=
  set_mgrs (mkManagers (mkImportManager None false) ∅ ∅ cm empty_module_manager (mkPHeap ∅ ∅))
    (init_generator [] None 10 CALL_GRAPH_OP).

(** ** Theorems *)

(** C30 (functional, spec property 6): after [set_bases] on a registered
    class, when C3 succeeds on its known bases, [output_classes()] reports
    the class with the MRO [cls :: l] and its module, and [l] is a valid C3
    linearisation of the known bases' MROs and of the known bases. *)
Theorem output_classes_set_bases g cm ns bases c l :
  class_mgr (mgrs g) = cm_set_bases ns bases cm -> cm !! ns = Some c ->
  c3_merge (c3_inputs (mkClass (cls_ns c) (cls_module c) bases (cls_mro c)) cm) = Some l ->
  output_classes g !! ns = Some (cls_ns c :: l, cls_module c) /\
  c3_valid (c3_inputs (mkClass (cls_ns c) (cls_module c) bases (cls_mro c)) cm) l.
Proof.
  intros Hcm Hc Hm. destruct (c3_mro_valid _ _ _ Hm) as [Hmro Hv]. split; [|exact Hv].
  unfold output_classes. rewrite Hcm, lookup_fmap. unfold cm_set_bases.
  rewrite lookup_alter_eq, Hc. cbn -[c3_mro]. by rewrite Hmro.
Qed.

Lemma output_classes_set_bases_witness :
  class_mgr (mgrs (with_classes (cm_set_bases "D" ["B"; "C"; "X"] (<["D" := diamond_D]> diamond_cm)))) =
    cm_set_bases "D" ["B"; "C"; "X"] (<["D" := diamond_D]> diamond_cm) /\
  <["D" := diamond_D]> diamond_cm !! "D" = Some diamond_D /\
  c3_merge (c3_inputs (mkClass "D" "m" ["B"; "C"; "X"] ["D"]) (<["D" := diamond_D]> diamond_cm)) =
    Some ["B"; "C"; "A"] /\
  output_classes (with_classes (cm_set_bases "D" ["B"; "C"; "X"] (<["D" := diamond_D]> diamond_cm))) !! "D" =
    Some (["D"; "B"; "C"; "A"], "m").
Proof.
  assert (H1 : <["D" := diamond_D]> diamond_cm !! "D" = Some diamond_D) by (vm_compute; reflexivity).
  assert (H2 : c3_merge (c3_inputs (mkClass "D" "m" ["B"; "C"; "X"] ["D"]) (<["D" := diamond_D]> diamond_cm)) =
    Some ["B"; "C"; "A"]) by (vm_compute; reflexivity).
  split; [reflexivity|]. split; [exact H1|]. split; [exact H2|].
  exact (proj1 (output_classes_set_bases
    (with_classes (cm_set_bases "D" ["B"; "C"; "X"] (<["D" := diamond_D]> diamond_cm))) _ "D" ["B"; "C"; "X"] diamond_D _ eq_refl H1 H2)).
Defined.
