(* ===== verification/PyObjects.v ===== *)
(** * Python values, dicts on a heap, and keyword-argument binding

    The part of Python's object model that [src/SDK_dataset/yolink/client.py]
    relies on: values ([None], booleans, ints, strings, references to dicts,
    coroutine objects, opaque objects of collaborators), truthiness, dicts as
    mutable objects on a heap (so that two names bound to one dict see each
    other's writes), [dict.pop], [d[k] = v], [dict.update], the keyword
    dictionary a call site builds from [k=v] and [**kw] arguments, and the
    binding of a call's arguments to a function's parameters.  Dict keys are
    strings (the client only uses string keys); a dict is the list of its
    items in insertion order, as Python keeps them. *)

From S2P Require Import Prelude.

Local Open Scope string_scope.

(** ** Values *)

(** The coroutine functions of the client: calling an [async def] gives a
    coroutine object that holds the bound arguments and runs nothing. *)
Inductive coro_fn := CoRequest | CoGet | CoPost.

#[warnings="-register-all"]
Inductive pyval :=
| VNone
| VBool (b : bool)
| VInt (z : Z)
| VStr (s : string)
| VDict (l : positive)
| VCoro (f : coro_fn) (args : list (string * pyval))
| VClient
| VObj (o : positive).

Abbreviation kwargs := (list (string * pyval)).

Definition type_name (v : pyval) : string :=
  match v with
  | VNone => "NoneType" | VBool _ => "bool" | VInt _ => "int" | VStr _ => "str"
  | VDict _ => "dict" | VCoro _ _ => "coroutine" | VClient => "YoLinkClient"
  | VObj _ => "object"
  end.

(** The heap of dicts, and the state of whatever else the program talks to. *)
Record world (E : Type) := mkWorld {
  w_dicts : gmap positive kwargs;
  w_next : positive;
  w_ext : E;
}.
Arguments mkWorld {E} _ _ _.
Arguments w_dicts {E} _.
Arguments w_next {E} _.
Arguments w_ext {E} _.

Definition set_dicts {E} (d : gmap positive kwargs) (w : world E) : world E :=
  mkWorld d (w_next w) (w_ext w).
Definition set_ext {E} (x : E) (w : world E) : world E :=
  mkWorld (w_dicts w) (w_next w) x.

(** [bool(v)]: an empty dict, [None], [False], [0] and [""] are false;
    coroutines and other objects are true. *)
Definition truthy {E} (w : world E) (v : pyval) : bool :=
  match v with
  | VNone => false
  | VBool b => b
  | VInt z => negb (Z.eqb z 0)
  | VStr s => negb (String.eqb s "")
  | VDict l => match w_dicts w !! l with Some (_ :: _) => true | _ => false end
  | VCoro _ _ | VClient | VObj _ => true
  end.

Definition py_truthy {E} (v : pyval) : pyM (world E) bool := fun w => Done w (truthy w v).

(** ** Dict items *)

Fixpoint assoc_lookup (k : string) (l : kwargs) : option pyval :=
  match l with
  | [] => None
  | (k', v) :: l' => if String.eqb k k' then Some v else assoc_lookup k l'
  end.

(** [d[k] = v]: an existing key keeps its position. *)
Fixpoint assoc_set (k : string) (v : pyval) (l : kwargs) : kwargs :=
  match l with
  | [] => [(k, v)]
  | (k', v') :: l' => if String.eqb k k' then (k, v) :: l' else (k', v') :: assoc_set k v l'
  end.

Fixpoint assoc_delete (k : string) (l : kwargs) : kwargs :=
  match l with
  | [] => []
  | (k', v') :: l' => if String.eqb k k' then l' else (k', v') :: assoc_delete k l'
  end.

(** The items of [d] after [d.update(src)]: each item of [src] in order. *)
Definition assoc_merge (l src : kwargs) : kwargs :=
  fold_left (fun acc kv => assoc_set kv.1 kv.2 acc) src l.

(** [kwargs.pop(k, default)] on the callee's own keyword dict. *)
Definition kw_pop (k : string) (default : pyval) (kw : kwargs) : pyval * kwargs :=
  match assoc_lookup k kw with
  | Some v => (v, assoc_delete k kw)
  | None => (default, kw)
  end.

(** ** Dicts on the heap *)

Definition type_error (msg : string) : PyExn := mkExn "TypeError" msg.
Definition attribute_error (v : pyval) (attr : string) : PyExn :=
  mkExn "AttributeError" ("'" ++ type_name v ++ "' object has no attribute '" ++ attr ++ "'").

(** A reference the heap does not hold; no reachable value is one. *)
Definition dangling : PyExn := mkExn "SystemError" "dangling dict reference".

(** The literal [{...}]: a new dict object. *)
Definition dict_new {E} (items : kwargs) : pyM (world E) pyval :=
  fun w => Done (mkWorld (<[w_next w := items]> (w_dicts w)) (Pos.succ (w_next w)) (w_ext w))
                (VDict (w_next w)).

(** [d[k] = v]. *)
Definition dict_setitem {E} (d : pyval) (k : string) (v : pyval) : pyM (world E) unit :=
  match d with
  | VDict l => fun w =>
      match w_dicts w !! l with
      | Some items => Done (set_dicts (<[l := assoc_set k v items]> (w_dicts w)) w) tt
      | None => Raised w dangling
      end
  | _ => py_raise (type_error ("'" ++ type_name d ++ "' object does not support item assignment"))
  end.

(** [d.update(src)]: [src] a dict, or an iterable of pairs; a non-empty
    string is an iterable of one-character strings, which are not pairs. *)
Definition dict_update {E} (d src : pyval) : pyM (world E) unit :=
  match d with
  | VDict l => fun w =>
      match src with
      | VDict l' =>
          match w_dicts w !! l, w_dicts w !! l' with
          | Some items, Some new => Done (set_dicts (<[l := assoc_merge items new]> (w_dicts w)) w) tt
          | _, _ => Raised w dangling
          end
      | VStr "" => Done w tt
      | VStr _ => Raised w (mkExn "ValueError"
                    "dictionary update sequence element #0 has length 1; 2 is required")
      | _ => Raised w (type_error ("'" ++ type_name src ++ "' object is not iterable"))
      end
  | _ => py_raise (attribute_error d "update")
  end.

(** ** Calls *)

(** The keyword dict a call site builds from [k=v] and [**kw] items, in
    source order: a key given twice is a [TypeError]. *)
Fixpoint merge_kwargs {S} (fname : string) (acc items : kwargs) : pyM S kwargs :=
  match items with
  | [] => py_ret acc
  | (k, v) :: rest =>
      if bool_decide (is_Some (assoc_lookup k acc))
      then py_raise (type_error (fname ++ "() got multiple values for keyword argument '" ++ k ++ "'"))
      else merge_kwargs fname (app acc [(k, v)]) rest
  end.

(** Keyword arguments: a parameter's name binds the parameter (a second
    value for it is a [TypeError]); any other name goes to [**kwargs]. *)
Fixpoint bind_keywords {S} (fname : string) (names : list string) (bound extra kw : kwargs)
    : pyM S (kwargs * kwargs) :=
  match kw with
  | [] => py_ret (bound, extra)
  | (k, v) :: rest =>
      if bool_decide (k ∈ names) then
        if bool_decide (is_Some (assoc_lookup k bound))
        then py_raise (type_error (fname ++ "() got multiple values for argument '" ++ k ++ "'"))
        else bind_keywords fname names (app bound [(k, v)]) extra rest
      else bind_keywords fname names bound (app extra [(k, v)]) rest
  end.

(** Parameters not bound take their default; a parameter without one is
    a missing argument. *)
Fixpoint fill_defaults {S} (fname : string) (params : list (string * option pyval)) (bound : kwargs)
    : pyM S kwargs :=
  match params with
  | [] => py_ret []
  | (p, dflt) :: rest =>
      match assoc_lookup p bound, dflt with
      | Some v, _ => let* tl := fill_defaults fname rest bound in py_ret ((p, v) :: tl)
      | None, Some d => let* tl := fill_defaults fname rest bound in py_ret ((p, d) :: tl)
      | None, None =>
          py_raise (type_error (fname ++ "() missing 1 required positional argument: '" ++ p ++ "'"))
      end
  end.

(** Binding [f( *pos, **kw)] to [def f(p1, p2=d, ..., **kwargs)]: the
    parameters in order, then the items of [**kwargs]. *)
Definition bind_args {S} (fname : string) (params : list (string * option pyval))
    (pos : list pyval) (kw : kwargs) : pyM S kwargs :=
  if bool_decide (length params < length pos)
  then py_raise (type_error (fname ++ "() takes too many positional arguments"))
  else
    let* '(bound, extra) := bind_keywords fname params.*1 (zip params.*1 pos) [] kw in
    let* full := fill_defaults fname params bound in
    py_ret (app full extra).

(** A bound argument, by name. *)
Definition arg (name : string) (args : kwargs) : pyval := default VNone (assoc_lookup name args).

(** ** Well-formed heaps: every dict has each key once *)

Definition keys_nodup (l : kwargs) : Prop := NoDup l.*1.

Definition heap_wf {E} (w : world E) : Prop :=
  map_Forall (fun _ items => keys_nodup items) (w_dicts w).

(** Every dict reference of the heap is below the allocation pointer. *)
Definition heap_bounded {E} (w : world E) : Prop :=
  forall l, is_Some (w_dicts w !! l) -> (l < w_next w)%positive.

(** The heap of dicts is untouched by a step. *)
Definition same_heap {E} (w w' : world E) : Prop := w_dicts w' = w_dicts w /\ w_next w' = w_next w.

(** A well-formed heap: keys unique in every dict, references below the
    allocation pointer; [ok_step] relates a world to one that is
    well-formed whenever the first is. *)
Definition heap_ok {E} (w : world E) : Prop := heap_wf w /\ heap_bounded w.
Definition ok_step {E} (w w' : world E) : Prop := heap_ok w -> heap_ok w'.

(** A computation that touches no state and can only fail with a
    [TypeError]: argument binding and keyword-dict building. *)
Definition type_safe {S A} (m : pyM S A) : Prop :=
  forall s, (exists a, m s = Done s a) \/ (exists msg, m s = Raised s (type_error msg)).

(** ** Theorems *)

Section AssocLemmas.

Lemma assoc_lookup_set_eq k v l : assoc_lookup k (assoc_set k v l) = Some v.
Proof.
  induction l as [|[k' v'] l IH]; simpl; [by rewrite String.eqb_refl|].
  destruct (String.eqb k k') eqn:E; simpl; [by rewrite String.eqb_refl|by rewrite E].
Qed.

Lemma assoc_lookup_set_ne k k2 v l :
  k2 <> k -> assoc_lookup k2 (assoc_set k v l) = assoc_lookup k2 l.
Proof.
  intros Hne. apply String.eqb_neq in Hne as Hb.
  induction l as [|[k' v'] l IH]; simpl; [by rewrite Hb|].
  destruct (String.eqb k k') eqn:E; simpl.
  - apply String.eqb_eq in E as ->. by rewrite Hb.
  - by rewrite IH.
Qed.

Lemma assoc_lookup_set k k2 v l :
  assoc_lookup k2 (assoc_set k v l) = if String.eqb k2 k then Some v else assoc_lookup k2 l.
Proof.
  destruct (String.eqb k2 k) eqn:E.
  - apply String.eqb_eq in E as ->. apply assoc_lookup_set_eq.
  - apply String.eqb_neq in E. by apply assoc_lookup_set_ne.
Qed.

Lemma assoc_lookup_Some_elem k v l : assoc_lookup k l = Some v -> k ∈ l.*1.
Proof.
  induction l as [|[k' v'] l IH]; simpl; [done|].
  destruct (String.eqb k k') eqn:E; [apply String.eqb_eq in E as ->; intros; left|].
  intros H. right. by apply IH.
Qed.

Lemma assoc_lookup_None_not_elem k l : assoc_lookup k l = None <-> k ∉ l.*1.
Proof.
  induction l as [|[k' v'] l IH]; simpl; [split; [set_solver|done]|].
  rewrite elem_of_cons. destruct (String.eqb k k') eqn:E.
  - apply String.eqb_eq in E as ->. split; [done|]. intros H. exfalso. by apply H; left.
  - apply String.eqb_neq in E. rewrite IH. tauto.
Qed.

Lemma assoc_set_keys k v l :
  (assoc_set k v l).*1 = if bool_decide (k ∈ l.*1) then l.*1 else (l.*1 ++ [k])%list.
Proof.
  induction l as [|[k' v'] l IH]; cbn [assoc_set]; [done|].
  destruct (String.eqb k k') eqn:E; rewrite !fmap_cons; simpl.
  - apply String.eqb_eq in E as ->. rewrite bool_decide_eq_true_2; [done|by left].
  - apply String.eqb_neq in E. rewrite IH.
    case_bool_decide as H1; case_bool_decide as H2; try done; exfalso.
    + apply H2. by right.
    + apply elem_of_cons in H2 as [->|?]; done.
Qed.

Lemma assoc_set_nodup k v l : keys_nodup l -> keys_nodup (assoc_set k v l).
Proof.
  unfold keys_nodup. rewrite assoc_set_keys. case_bool_decide; [done|].
  intros Hnd. apply NoDup_app. split; [done|]. split; [|apply NoDup_singleton].
  intros x Hx ->%list_elem_of_singleton. done.
Qed.

Lemma assoc_merge_nodup l src : keys_nodup l -> keys_nodup (assoc_merge l src).
Proof.
  unfold assoc_merge. revert l. induction src as [|[k v] src IH]; intros l Hl; simpl; [done|].
  apply IH, assoc_set_nodup, Hl.
Qed.

(** [d.update(src)] looks a key up in [src] first, then in [d]. *)
Lemma assoc_lookup_merge k l src :
  assoc_lookup k (assoc_merge l src) =
  match assoc_lookup k (reverse src) with Some v => Some v | None => assoc_lookup k l end.
Proof.
  unfold assoc_merge. revert l. induction src as [|[k' v'] src IH]; intros l; simpl; [done|].
  rewrite IH, reverse_cons. clear IH. induction (reverse src) as [|[k2 v2] r IHr]; simpl.
  - rewrite assoc_lookup_set. by destruct (String.eqb k k').
  - destruct (String.eqb k k2); [done|exact IHr].
Qed.

Lemma assoc_lookup_delete k k2 l :
  keys_nodup l -> assoc_lookup k2 (assoc_delete k l) = if String.eqb k2 k then None else assoc_lookup k2 l.
Proof.
  unfold keys_nodup. induction l as [|[k' v'] l IH]; simpl; intros Hnd.
  - by destruct (String.eqb k2 k).
  - apply NoDup_cons in Hnd as [Hn Hnd].
    destruct (String.eqb k k') eqn:E.
    + apply String.eqb_eq in E as <-. destruct (String.eqb k2 k) eqn:E2; [|done].
      apply String.eqb_eq in E2 as ->. by apply assoc_lookup_None_not_elem.
    + simpl. rewrite IH by done. destruct (String.eqb k2 k') eqn:E2; [|done].
      apply String.eqb_eq in E2 as ->. by rewrite String.eqb_sym, E.
Qed.

Lemma assoc_delete_keys k l : sublist (assoc_delete k l).*1 l.*1.
Proof.
  induction l as [|[k' v'] l IH]; cbn [assoc_delete]; [done|].
  destruct (String.eqb k k'); rewrite ?fmap_cons; [by apply sublist_cons|by apply sublist_skip].
Qed.

Lemma assoc_delete_nodup k l : keys_nodup l -> keys_nodup (assoc_delete k l).
Proof. unfold keys_nodup. intros H. eapply sublist_NoDup; [exact H|apply assoc_delete_keys]. Qed.

Lemma kw_pop_nodup k d kw : keys_nodup kw -> keys_nodup (kw_pop k d kw).2.
Proof. unfold kw_pop. destruct (assoc_lookup k kw); [apply assoc_delete_nodup|done]. Qed.

Lemma kw_pop_present k d v kw : assoc_lookup k kw = Some v -> kw_pop k d kw = (v, assoc_delete k kw).
Proof. unfold kw_pop. by intros ->. Qed.

End AssocLemmas.

#[export] Hint Resolve assoc_set_nodup assoc_merge_nodup assoc_delete_nodup kw_pop_nodup : aid.

Section CallLemmas.
Context {S : Type}.

(** A keyword dict with pairwise distinct keys merges without error. *)
Lemma merge_kwargs_nodup fname acc items (s : S) :
  NoDup (acc ++ items)%list.*1 -> merge_kwargs fname acc items s = Done s (acc ++ items)%list.
Proof.
  revert acc. induction items as [|[k v] items IH]; intros acc Hnd; simpl.
  - by rewrite app_nil_r.
  - rewrite fmap_app in Hnd. simpl in Hnd.
    apply NoDup_app in Hnd as (Hacc & Hdis & Hnd).
    rewrite bool_decide_eq_false_2.
    + rewrite IH; [by rewrite <- app_assoc|].
      rewrite <- app_assoc. simpl. rewrite fmap_app. simpl.
      apply NoDup_app. split; [done|]. split; [|done]. intros x Hx Hy. by apply (Hdis x Hx).
    + intros [x Hx]. apply assoc_lookup_Some_elem in Hx. apply (Hdis k Hx). by left.
Qed.

(** A prefix of distinct keys merges without error. *)
Lemma merge_kwargs_app fname acc l1 l2 (s : S) :
  NoDup (acc ++ l1)%list.*1 -> merge_kwargs fname acc (l1 ++ l2)%list s = merge_kwargs fname (acc ++ l1)%list l2 s.
Proof.
  revert acc. induction l1 as [|[k v] l1 IH]; intros acc Hnd; simpl; [by rewrite app_nil_r|].
  rewrite fmap_app in Hnd. simpl in Hnd. apply NoDup_app in Hnd as (Hacc & Hdis & Hnd).
  rewrite bool_decide_eq_false_2.
  - rewrite IH; [by rewrite <- app_assoc|].
    rewrite <- app_assoc. simpl. rewrite fmap_app. simpl.
    apply NoDup_app. split; [done|]. split; [|done]. intros x Hx Hy. by apply (Hdis x Hx).
  - intros [x Hx]. apply assoc_lookup_Some_elem in Hx. apply (Hdis k Hx). by left.
Qed.

Lemma merge_kwargs_cons_fresh fname acc k v rest (s : S) :
  assoc_lookup k acc = None ->
  merge_kwargs fname acc ((k, v) :: rest) s = merge_kwargs fname (acc ++ [(k, v)])%list rest s.
Proof. intros H. simpl. rewrite bool_decide_eq_false_2; [done|]. rewrite H. by intros [? ?]. Qed.

(** A key of [acc] met again is a [TypeError] naming the key. *)
Lemma merge_kwargs_dup fname acc k v items (s : S) :
  is_Some (assoc_lookup k acc) ->
  merge_kwargs fname acc ((k, v) :: items) s =
  Raised s (type_error (fname ++ "() got multiple values for keyword argument '" ++ k ++ "'")).
Proof. intros H. simpl. by rewrite bool_decide_eq_true_2. Qed.

End CallLemmas.

Section HeapLemmas.
Context {E : Type}.

Lemma heap_wf_insert (w : world E) l items :
  heap_wf w -> keys_nodup items -> map_Forall (fun _ its => keys_nodup its) (<[l := items]> (w_dicts w)).
Proof. intros Hw Hi. by apply map_Forall_insert_2. Qed.

Lemma dict_new_wf (w w' : world E) items v :
  heap_wf w -> keys_nodup items -> dict_new items w = Done w' v -> heap_wf w'.
Proof. intros Hw Hi [= <- _]. by apply heap_wf_insert. Qed.

Lemma dict_setitem_wf d k v (w w' : world E) u :
  heap_wf w -> dict_setitem d k v w = Done w' u -> heap_wf w'.
Proof.
  intros Hw. destruct d; try discriminate. simpl.
  destruct (w_dicts w !! l) as [items|] eqn:El; [|discriminate]. intros [= <- _].
  apply heap_wf_insert; [done|]. apply assoc_set_nodup. exact (Hw _ _ El).
Qed.

Lemma dict_update_wf d src (w w' : world E) u :
  heap_wf w -> dict_update d src w = Done w' u -> heap_wf w'.
Proof.
  intros Hw. destruct d; try discriminate. simpl.
  destruct src as [| | |s| | | |]; try discriminate.
  - destruct s; [by intros [= <- _]|discriminate].
  - destruct (w_dicts w !! l) as [items|] eqn:El, (w_dicts w !! l0); try discriminate.
    intros [= <- _]. apply heap_wf_insert; [done|]. apply assoc_merge_nodup. exact (Hw _ _ El).
Qed.

Lemma py_truthy_Done v (w w' : world E) b : py_truthy v w = Done w' b -> w' = w /\ b = truthy w v.
Proof. by intros [= <- <-]. Qed.

(** [d[k] = v] on a dict of the heap writes exactly that item. *)
Lemma dict_setitem_dict l k v items (w : world E) :
  w_dicts w !! l = Some items ->
  dict_setitem (VDict l) k v w = Done (set_dicts (<[l := assoc_set k v items]> (w_dicts w)) w) tt.
Proof. intros H. simpl. by rewrite H. Qed.

Lemma dict_update_dict l l' items new (w : world E) :
  w_dicts w !! l = Some items -> w_dicts w !! l' = Some new ->
  dict_update (VDict l) (VDict l') w = Done (set_dicts (<[l := assoc_merge items new]> (w_dicts w)) w) tt.
Proof. intros H1 H2. simpl. by rewrite H1, H2. Qed.

End HeapLemmas.

Section TypeSafe.
Context {S : Type}.

Lemma type_safe_ret {A} (a : A) : type_safe (S:=S) (py_ret a).
Proof. intros s. left. by exists a. Qed.

Lemma type_safe_type_error {A} msg : type_safe (S:=S) (A:=A) (py_raise (type_error msg)).
Proof. intros s. right. by exists msg. Qed.

Lemma type_safe_bind {A B} (m : pyM S A) (k : A -> pyM S B) :
  type_safe m -> (forall a, type_safe (k a)) -> type_safe (py_bind m k).
Proof.
  intros Hm Hk s. unfold py_bind. destruct (Hm s) as [[a ->]|[msg ->]]; [apply Hk|].
  right. by exists msg.
Qed.

Lemma merge_kwargs_type_safe fname acc items : type_safe (S:=S) (merge_kwargs fname acc items).
Proof.
  revert acc. induction items as [|[k v] items IH]; intros acc; simpl; [apply type_safe_ret|].
  case_bool_decide; [apply type_safe_type_error|apply IH].
Qed.

Lemma bind_keywords_type_safe fname names bound extra kw :
  type_safe (S:=S) (bind_keywords fname names bound extra kw).
Proof.
  revert bound extra. induction kw as [|[k v] kw IH]; intros bound extra; simpl; [apply type_safe_ret|].
  repeat case_bool_decide; first [apply type_safe_type_error | apply IH].
Qed.

Lemma fill_defaults_type_safe fname params bound : type_safe (S:=S) (fill_defaults fname params bound).
Proof.
  induction params as [|[p [d|]] params IH]; simpl; [apply type_safe_ret| |];
    destruct (assoc_lookup p bound);
    first [apply type_safe_type_error | apply type_safe_bind; [exact IH|intros; apply type_safe_ret]].
Qed.

Lemma bind_args_type_safe fname params pos kw : type_safe (S:=S) (bind_args fname params pos kw).
Proof.
  unfold bind_args. case_bool_decide; [apply type_safe_type_error|].
  apply type_safe_bind; [apply bind_keywords_type_safe|intros [bound extra]].
  apply type_safe_bind; [apply fill_defaults_type_safe|intros; apply type_safe_ret].
Qed.

(** Keywords that name no parameter all go to [**kwargs], in order. *)
Lemma bind_keywords_fresh fname names bound extra kw (s : S) :
  (forall k, k ∈ kw.*1 -> k ∉ names) ->
  bind_keywords fname names bound extra kw s = Done s (bound, app extra kw).
Proof.
  revert extra. induction kw as [|[k v] kw IH]; intros extra Hf; simpl.
  - by rewrite app_nil_r.
  - rewrite bool_decide_eq_false_2 by (apply Hf; left).
    rewrite IH; [by rewrite <- app_assoc|]. intros k' Hk'. apply Hf. by right.
Qed.

Lemma fill_defaults_bound fname params bound (s : S) :
  (forall p, p ∈ params.*1 -> is_Some (assoc_lookup p bound)) ->
  fill_defaults fname params bound s = Done s ((fun pd => (pd.1, arg pd.1 bound)) <$> params).
Proof.
  induction params as [|[p d] params IH]; intros Hb; [done|]. cbn [fill_defaults].
  destruct (Hb p) as [v Hv]; [by left|]. rewrite Hv.
  assert (Hrest : fill_defaults fname params bound s = Done s ((fun pd => (pd.1, arg pd.1 bound)) <$> params)).
  { apply IH. intros q Hq. apply Hb. by right. }
  destruct d; unfold py_bind; rewrite Hrest; unfold arg; simpl; by rewrite Hv.
Qed.

End TypeSafe.

Lemma assoc_lookup_app k l1 l2 :
  assoc_lookup k (app l1 l2) = match assoc_lookup k l1 with Some v => Some v | None => assoc_lookup k l2 end.
Proof. induction l1 as [|[k' v'] l1 IH]; simpl; [done|]. by destruct (String.eqb k k'). Qed.

Lemma assoc_lookup_zip_Some k names vs :
  length vs = length names -> k ∈ names -> is_Some (assoc_lookup k (zip names vs)).
Proof.
  revert vs. induction names as [|n names IH]; intros [|v vs] Hl Hk; simpl in *; try lia.
  - by apply elem_of_nil in Hk.
  - destruct (String.eqb k n) eqn:E; [by eexists|].
    apply elem_of_cons in Hk as [->|Hk]; [by rewrite String.eqb_refl in E|]. apply IH; [lia|done].
Qed.

(** With distinct parameter names, the positional values read back. *)
Lemma zip_read_back (params : list (string * option pyval)) vs :
  NoDup params.*1 -> length vs = length params ->
  (fun pd => (pd.1, arg pd.1 (zip params.*1 vs))) <$> params = zip params.*1 vs.
Proof.
  revert vs. induction params as [|[p d] params IH]; intros [|v vs] Hnd Hl; simpl in *; try done; try lia.
  apply NoDup_cons in Hnd as [Hn Hnd]. unfold arg at 1. simpl. rewrite String.eqb_refl. f_equal.
  transitivity ((fun pd => (pd.1, arg pd.1 (zip params.*1 vs))) <$> params); [|apply IH; [done|lia]].
  apply list_fmap_ext. intros i [q dq] Hi. simpl.
  unfold arg. simpl. destruct (String.eqb q p) eqn:E; [|done].
  apply String.eqb_eq in E as ->. exfalso. apply Hn. apply list_elem_of_fmap.
  exists (p, dq). split; [done|]. by eapply list_elem_of_lookup_2.
Qed.

(** A call with one positional value per parameter and keywords that name
    no parameter binds them all, then collects the keywords. *)
Lemma bind_args_fresh {S} fname params pos kw (s : S) :
  length pos = length params -> NoDup params.*1 ->
  (forall k, k ∈ kw.*1 -> k ∉ params.*1) ->
  bind_args fname params pos kw s = Done s (app (zip params.*1 pos) kw).
Proof.
  intros Hl Hnd Hf. unfold bind_args. rewrite bool_decide_eq_false_2 by lia.
  unfold py_bind at 1. rewrite bind_keywords_fresh by done. simpl.
  unfold py_bind. rewrite fill_defaults_bound.
  - rewrite zip_read_back by done. done.
  - intros p Hp. apply assoc_lookup_zip_Some; [|done]. by rewrite length_fmap.
Qed.

Lemma kw_pop_lookup k d kw k2 :
  keys_nodup kw -> assoc_lookup k2 (kw_pop k d kw).2 = if String.eqb k2 k then None else assoc_lookup k2 kw.
Proof.
  intros Hnd. unfold kw_pop. destruct (assoc_lookup k kw) eqn:E; simpl.
  - by apply assoc_lookup_delete.
  - destruct (String.eqb k2 k) eqn:E2; [|done]. apply String.eqb_eq in E2 as ->. done.
Qed.

Section Bounded.
Context {E : Type}.

Lemma dict_new_bounded (w w' : world E) items v :
  heap_bounded w -> dict_new items w = Done w' v -> heap_bounded w'.
Proof.
  intros Hb [= <- _] l. cbn [w_dicts w_next]. rewrite lookup_insert_is_Some.
  intros [->|[_ Hl]]; [lia|]. specialize (Hb _ Hl). lia.
Qed.

Lemma insert_bounded (w : world E) l items :
  heap_bounded w -> is_Some (w_dicts w !! l) -> heap_bounded (set_dicts (<[l := items]> (w_dicts w)) w).
Proof.
  intros Hb Hl l'. simpl. rewrite lookup_insert_is_Some. intros [<-|[_ H]]; by apply Hb.
Qed.

Lemma dict_setitem_bounded d k v (w w' : world E) u :
  heap_bounded w -> dict_setitem d k v w = Done w' u -> heap_bounded w'.
Proof.
  intros Hb. destruct d; try discriminate. simpl.
  destruct (w_dicts w !! l) eqn:El; [|discriminate]. intros [= <- _]. apply insert_bounded; [done|by eexists].
Qed.

Lemma dict_update_bounded d src (w w' : world E) u :
  heap_bounded w -> dict_update d src w = Done w' u -> heap_bounded w'.
Proof.
  intros Hb. destruct d; try discriminate. simpl.
  destruct src as [| | |s| | | |]; try discriminate.
  - destruct s; [by intros [= <- _]|discriminate].
  - destruct (w_dicts w !! l) eqn:El, (w_dicts w !! l0); try discriminate.
    intros [= <- _]. apply insert_bounded; [done|by eexists].
Qed.

End Bounded.

#[export] Hint Resolve dict_new_bounded dict_setitem_bounded dict_update_bounded
  dict_new_wf dict_setitem_wf dict_update_wf : aid.

#[export] Instance same_heap_preorder {E} : PreOrder (@same_heap E).
Proof. split; [by intros w|]. intros w1 w2 w3 [H1 H2] [H3 H4]. split; congruence. Qed.

#[export] Instance ok_step_preorder {E} : PreOrder (@ok_step E).
Proof. split; [intros w Hw; exact Hw|]. intros w1 w2 w3 H1 H2 H. auto. Qed.

Section HeapOk.
Context {E : Type}.

Lemma py_truthy_ok v : py_preserves (@ok_step E) (py_truthy v).
Proof. intros w. simpl. reflexivity. Qed.

(** A dict operation raises without touching the heap, or succeeds on it. *)
Lemma dict_op_ok (m : pyM (world E) unit) :
  (forall w, (exists e, m w = Raised w e) \/ (exists w', m w = Done w' tt)) ->
  (forall w w', heap_wf w -> m w = Done w' tt -> heap_wf w') ->
  (forall w w', heap_bounded w -> m w = Done w' tt -> heap_bounded w') ->
  py_preserves ok_step m.
Proof.
  intros Hm Hwf Hb w [Hw Hbw]. destruct (Hm w) as [[e ->]|[w' Hd]]; [done|].
  rewrite Hd. split; eauto.
Qed.

Lemma dict_setitem_ok d k v : py_preserves (@ok_step E) (dict_setitem d k v).
Proof.
  apply dict_op_ok; [|intros; by eapply dict_setitem_wf|intros; by eapply dict_setitem_bounded].
  intros w. destruct d; simpl; try (left; by eexists). destruct (w_dicts w !! l); [right|left]; by eexists.
Qed.

Lemma dict_update_ok d src : py_preserves (@ok_step E) (dict_update d src).
Proof.
  apply dict_op_ok; [|intros; by eapply dict_update_wf|intros; by eapply dict_update_bounded].
  intros w. destruct d; simpl; try (left; by eexists).
  destruct src as [| | |s| | | |]; try (left; by eexists).
  - destruct s; [right|left]; by eexists.
  - destruct (w_dicts w !! l), (w_dicts w !! l0); try (left; by eexists). right. by eexists.
Qed.

End HeapOk.

#[export] Hint Resolve py_truthy_ok dict_setitem_ok dict_update_ok : aid.

