(* ===== verification/YoLinkClient.v ===== *)
(** * The YoLink client (src/SDK_dataset/yolink/client.py)

    [YoLinkClient] wraps an authentication manager: [request] (lines 20-50)
    pops the [headers], [params], [data] and [extra_*] keyword arguments,
    sets the [Authorization] header, merges the extra values in and calls
    the session's [request]; [get] and [post] (52-58) call [request]; and
    [execute] (60-78), under tenacity's [@retry], posts a BSDP packet and
    parses the BRDP answer.  All four are [async def], so calling one only
    binds its arguments into a coroutine object; its body runs when the
    coroutine is awaited.  [get], [post] and [execute] call coroutine
    functions without [await].

    The authentication manager, the aiohttp session and response, the BRDP
    model and the exception classes of the libraries are not in the
    repository; they are the [YoLinkEnv] and [PyExnClasses] interfaces.

    The theorems: [execute] never returns and fails at the missing
    [await] (so tenacity never retries); [get] returns an un-run
    coroutine; the token header and the extra headers in the caller's
    dict; the aliasing of [params]/[data]; the exact session call, the
    [timeout] conflict and the [headers=None] error. *)

From S2P Require Import Prelude PyObjects.

Local Open Scope string_scope.

(** ** Collaborators *)

(** [isinstance] on exception classes, by class name.  The one fact the
    client depends on: the built-in [TypeError] and [AttributeError] derive
    only from [Exception] (and [BaseException]). *)
Class PyExnClasses := {
  exn_isinstance : string -> string -> bool;
  builtin_error_bases : forall c k, c ∈ ["TypeError"; "AttributeError"] ->
    exn_isinstance c k = true -> k ∈ [c; "Exception"; "BaseException"];
}.

(** The methods of the objects the client talks to, each a step of the
    world: [YoLinkAuthMgr]'s three methods, [ClientSession.request], a
    method without arguments of an object ([raise_for_status], [text],
    [check_response]) and [BRDP.parse_raw]. *)
Class YoLinkEnv (E : Type) := {
  check_and_refresh_token : pyM (world E) pyval;
  http_auth_header : pyM (world E) pyval;
  client_session : pyM (world E) pyval;
  obj_request : positive -> pyval -> pyval -> kwargs -> pyM (world E) pyval;
  obj_method : positive -> string -> pyM (world E) pyval;
  brdp_parse_raw : pyval -> pyM (world E) pyval;
}.

(** The methods the client calls on a response or a BRDP. *)
Inductive client_method := RaiseForStatus | Text | CheckResponse.

Definition method_name (m : client_method) : string :=
  match m with
  | RaiseForStatus => "raise_for_status" | Text => "text" | CheckResponse => "check_response"
  end.

(** ** tenacity's [@retry(retry=retry_if_exception_type(X), stop=stop_after_attempt(n))]

    An attempt that returns ends the loop; one that raises an exception the
    predicate rejects re-raises it at once; one that raises a retriable
    exception is retried unless it was attempt number [n] or later, in which
    case a [RetryError] is raised ([reraise] is left [False]).  [left] is
    [n] minus the number of attempts made before this one. *)
Definition retry_error (e : PyExn) : PyExn := mkExn "RetryError" ("RetryError[" ++ exn_class e ++ "]").

Fixpoint retry_loop {St A} (retriable : PyExn -> bool) (left : nat) (attempt : pyM St A)
    {struct left} : pyM St A :=
  fun s =>
    match attempt s with
    | Done s' a => Done s' a
    | Raised s' e =>
        if retriable e then
          match left with
          | S (S _ as l) => retry_loop retriable l attempt s'
          | _ => Raised s' (retry_error e)
          end
        else Raised s' e
    end.

(** An attempt that also counts how often it ran. *)
Definition counted {St A} (m : pyM St A) : pyM (nat * St) A :=
  fun ns => match m ns.2 with
            | Done s a => Done (S ns.1, s) a
            | Raised s e => Raised (S ns.1, s) e
            end.

(** ** The client *)

Section Client.
Context `{EX : PyExnClasses} {E : Type} `{ENV : YoLinkEnv E}.

(** [v.m()]: none of the three methods exists on a built-in value. *)
Definition call_method (v : pyval) (m : client_method) : pyM (world E) pyval :=
  match v with
  | VObj o => obj_method o (method_name m)
  | _ => py_raise (attribute_error v (method_name m))
  end.

Definition request_params : list (string * option pyval) :=
  [("self", None); ("method", None); ("url", None); ("auth_required", Some (VBool true))].
Definition get_params : list (string * option pyval) := [("self", None); ("url", None)].
Definition post_params : list (string * option pyval) := [("self", None); ("url", None)].
Definition execute_params : list (string * option pyval) :=
  [("self", None); ("url", None); ("bsdp", None)].

Definition coro_params (f : coro_fn) : list (string * option pyval) :=
  match f with CoRequest => request_params | CoGet => get_params | CoPost => post_params end.
Definition coro_name (f : coro_fn) : string :=
  match f with
  | CoRequest => "YoLinkClient.request" | CoGet => "YoLinkClient.get" | CoPost => "YoLinkClient.post"
  end.

(** Calling an [async def]: the arguments are bound, the body does not run. *)
Definition call_async (f : coro_fn) (pos : list pyval) (kw : kwargs) : pyM (world E) pyval :=
  let* args := bind_args (coro_name f) (coro_params f) pos kw in
  py_ret (VCoro f args).

(** Lines 32-39: the token check and the [Authorization] header, then the
    extra headers, into the [headers] dict. *)
Definition set_auth_headers (auth_required headers extra_headers : pyval) : pyM (world E) unit :=
  let* a := py_truthy auth_required in
  let* _ := (if a then
               let* _ := check_and_refresh_token in
               let* h := http_auth_header in
               dict_setitem headers "Authorization" h
             else py_ret tt) in
  let* b := py_truthy extra_headers in
  if b then dict_update headers extra_headers else py_ret tt.

(** Lines 40-43 (and 44-47 for [data]): [x = x or {}; x.update(extra)]
    when [extra] is truthy. *)
Definition extend_optional (x extra : pyval) : pyM (world E) pyval :=
  let* b := py_truthy extra in
  if b then
    let* t := py_truthy x in
    let* x' := (if t then py_ret x else dict_new []) in
    let* _ := dict_update x' extra in
    py_ret x'
  else py_ret x.

(** Lines 24-47.  The default [{}] of the first [pop] is a new dict built
    before the call, whether or not [headers] was passed. *)
Definition request_prepare (auth_required : pyval) (kw : kwargs)
    : pyM (world E) (pyval * pyval * pyval * kwargs) :=
  let* fresh := dict_new [] in
  let '(headers, kw) := kw_pop "headers" fresh kw in
  let '(params, kw) := kw_pop "params" VNone kw in
  let '(data, kw) := kw_pop "data" VNone kw in
  let '(extra_headers, kw) := kw_pop "extra_headers" VNone kw in
  let '(extra_params, kw) := kw_pop "extra_params" VNone kw in
  let '(extra_data, kw) := kw_pop "extra_data" VNone kw in
  let* _ := set_auth_headers auth_required headers extra_headers in
  let* params := extend_optional params extra_params in
  let* data := extend_optional data extra_data in
  py_ret (headers, params, data, kw).

(** Lines 48-50: [self._auth_mgr.client_session()] is evaluated, then its
    [request] attribute, then the keyword dict [**kwargs, headers=...,
    params=..., data=..., timeout=8]. *)
Definition session_call (method url headers params data : pyval) (kw : kwargs)
    : pyM (world E) pyval :=
  let* sess := client_session in
  match sess with
  | VObj o =>
      let* kw' := merge_kwargs "ClientSession.request" []
                    (app kw [("headers", headers); ("params", params); ("data", data); ("timeout", VInt 8)]) in
      obj_request o method url kw'
  | _ => py_raise (attribute_error sess "request")
  end.

(** The body of [request], run when its coroutine is awaited. *)
Definition request_body (method url auth_required : pyval) (kw : kwargs) : pyM (world E) pyval :=
  let* '(headers, params, data, kw) := request_prepare auth_required kw in
  session_call method url headers params data kw.

(** Lines 52-58: [return self.request("GET" | "POST", url, True, **kwargs)]
    returns the coroutine of [request] without awaiting it. *)
Definition get_body (args : kwargs) : pyM (world E) pyval :=
  call_async CoRequest [VClient; VStr "GET"; arg "url" args; VBool true] (drop 2 args).
Definition post_body (args : kwargs) : pyM (world E) pyval :=
  call_async CoRequest [VClient; VStr "POST"; arg "url" args; VBool true] (drop 2 args).

(** [await v]. *)
Definition await_val (v : pyval) : pyM (world E) pyval :=
  match v with
  | VCoro CoRequest args =>
      request_body (arg "method" args) (arg "url" args) (arg "auth_required" args) (drop 4 args)
  | VCoro CoGet args => get_body args
  | VCoro CoPost args => post_body args
  | _ => py_raise (type_error ("object " ++ type_name v ++ " can't be used in 'await' expression"))
  end.

(** The exception of lines 73-75. *)
Definition request_failed : PyExn := mkExn "YoLinkClientError" "-1003: yolink client request failed!".

(** Lines 67-71, the [try] block of [execute]: [self.post(url, json=bsdp,
    **kwargs)] is not awaited, so [yl_resp] is a coroutine object. *)
Definition execute_try (args : kwargs) : pyM (world E) pyval :=
  let* kw := merge_kwargs "YoLinkClient.post" [] (("json", arg "bsdp" args) :: drop 3 args) in
  let* yl_resp := call_async CoPost [VClient; arg "url" args] kw in
  let* _ := call_method yl_resp RaiseForStatus in
  let* yl_body := call_method yl_resp Text in
  let* brdp := brdp_parse_raw yl_body in
  let* _ := call_method brdp CheckResponse in
  py_ret brdp.

(** Lines 72-77, its [except] clauses: a [ClientError] becomes a
    [YoLinkClientError("-1003", ...)]; a [YoLinkClientError] is re-raised;
    any other exception propagates. *)
Definition execute_except (e : PyExn) : pyM (world E) pyval :=
  if exn_isinstance (exn_class e) "ClientError" then py_raise request_failed
  else if exn_isinstance (exn_class e) "YoLinkClientError" then py_raise e
  else py_raise e.

(** Lines 66-78, one attempt of [execute] on its bound arguments. *)
Definition execute_body (args : kwargs) : pyM (world E) pyval :=
  py_try (execute_try args) execute_except.

Definition yl_retriable (e : PyExn) : bool := exn_isinstance (exn_class e) "YoLinkDeviceConnectionFailed".

(** Lines 60-64: [await client.execute( *pos, **kw)].  tenacity's wrapper
    calls the decorated function anew for each attempt, so the binding of
    the arguments is part of the attempt. *)
Definition execute (pos : list pyval) (kw : kwargs) : pyM (world E) pyval :=
  retry_loop yl_retriable 2
    (let* args := bind_args "YoLinkClient.execute" execute_params pos kw in execute_body args).

End Client.

(** The keyword arguments [request] pops for itself. *)
Definition request_popped : list string :=
  ["headers"; "params"; "data"; "extra_headers"; "extra_params"; "extra_data"].

(** ** A concrete environment for the witnesses

    Exception classes with the hierarchies of Python's built-ins and of the
    YoLink SDK; an authentication manager that counts token refreshes in
    the world; a session whose [request] answers an opaque response. *)

Definition fixture_mro (c : string) : list string :=
  if String.eqb c "YoLinkDeviceConnectionFailed"
  then [c; "YoLinkClientError"; "YoLinkError"; "Exception"; "BaseException"]
  else if String.eqb c "ClientConnectionError" then [c; "ClientError"; "Exception"; "BaseException"]
  else [c; "Exception"; "BaseException"].

Definition fixture_exns : PyExnClasses := {|
  exn_isinstance := fun c k => bool_decide (k ∈ fixture_mro c);
  builtin_error_bases := ltac:(
    intros c k Hc Hk; apply bool_decide_eq_true_1 in Hk; unfold fixture_mro in Hk;
    apply elem_of_cons in Hc as [->|Hc]; [exact Hk|];
    apply elem_of_cons in Hc as [->|Hc]; [exact Hk|by apply elem_of_nil in Hc]);
|}.

Definition fixture_env : YoLinkEnv nat := {|
  check_and_refresh_token := fun w => Done (set_ext (S (w_ext w)) w) VNone;
  http_auth_header := fun w => Done w (VStr "Bearer token");
  client_session := fun w => Done w (VObj 1);
  obj_request := fun _ _ _ _ w => Done w (VObj 2);
  obj_method := fun _ _ w => Done w VNone;
  brdp_parse_raw := fun _ w => Done w (VObj 3);
|}.

(** Dict 1 holds the caller's headers, dict 2 its extra headers with an
    [Authorization] of its own, dict 3 an empty [params] dict, dict 4 the
    extra params. *)
Definition fixture_world : world nat :=
  mkWorld {[ 1%positive := [("X-Trace", VStr "1")];
             2%positive := [("Authorization", VStr "mine")];
             3%positive := [];
             4%positive := [("page", VInt 2)] ]} 5%positive 0.

Definition api_url : pyval := VStr "https://api.yosmart.com/open/yolink/v2/api".

(** An attempt that always finds the device offline. *)
Definition offline_attempt : pyM unit pyval :=
  fun s => Raised s (mkExn "YoLinkDeviceConnectionFailed" "device offline").

(** A call of [request] that passes its own [timeout]. *)
Definition timeout_kwargs : kwargs := [("headers", VDict 1); ("timeout", VInt 3)].
Definition timeout_world : world nat :=
  outcome_state (@request_prepare nat fixture_env (VBool true) timeout_kwargs fixture_world).
Definition auth_world : world nat :=
  outcome_state (@set_auth_headers nat fixture_env (VBool true) (VDict 1) (VDict 2) fixture_world).

(** A call of [request] with headers, an empty [params] dict, extra
    params and a keyword of the session's own. *)
Definition full_kwargs : kwargs :=
  [("headers", VDict 1); ("params", VDict 3); ("extra_params", VDict 4); ("ssl", VBool false)].
Definition full_world : world nat :=
  outcome_state (@request_prepare nat fixture_env (VBool true) full_kwargs fixture_world).

(** ** Theorems *)


Lemma elem_TypeError : "TypeError" ∈ ["TypeError"; "AttributeError"].
Proof. by left. Qed.

Lemma elem_AttributeError : "AttributeError" ∈ ["TypeError"; "AttributeError"].
Proof. right. by left. Qed.

#[export] Hint Resolve elem_TypeError elem_AttributeError : aid.

Section ClientProofs.
Context `{EX : PyExnClasses} {E : Type} `{ENV : YoLinkEnv E}.

(** The three library classes the client tests for are none of a built-in
    error's bases. *)
Lemma builtin_not_library c :
  c ∈ ["TypeError"; "AttributeError"] ->
  exn_isinstance c "ClientError" = false /\ exn_isinstance c "YoLinkClientError" = false /\
  exn_isinstance c "YoLinkDeviceConnectionFailed" = false.
Proof.
  intros Hc.
  assert (Hk : forall k, k ∉ [c; "Exception"; "BaseException"] -> exn_isinstance c k = false).
  { intros k Hk. destruct (exn_isinstance c k) eqn:Hi; [|done].
    exfalso. by apply Hk, builtin_error_bases. }
  apply elem_of_cons in Hc as [->|Hc]; [|apply elem_of_cons in Hc as [->|Hc]; [|by apply elem_of_nil in Hc]];
    (split; [|split]); apply Hk; intros Hm; repeat (apply elem_of_cons in Hm as [Hm|Hm]; [discriminate|]);
    by apply elem_of_nil in Hm.
Qed.

Lemma call_async_type_safe f pos kw (w : world E) :
  (exists args, call_async f pos kw w = Done w (VCoro f args)) \/
  (exists msg, call_async f pos kw w = Raised w (type_error msg)).
Proof.
  unfold call_async, py_bind.
  destruct (bind_args_type_safe (S:=world E) (coro_name f) (coro_params f) pos kw w) as [[a ->]|[msg ->]];
    [left; by exists a|right; by exists msg].
Qed.

(** The [try] block fails at [yl_resp.raise_for_status()], unless building
    the call of [post] already failed, and touches nothing. *)
Lemma execute_try_raises args (w : world E) :
  exists e, execute_try args w = Raised w e /\ exn_class e ∈ ["TypeError"; "AttributeError"].
Proof.
  unfold execute_try.
  destruct (merge_kwargs_type_safe (S:=world E) "YoLinkClient.post" [] (("json", arg "bsdp" args) :: drop 3 args) w)
    as [[kw Hkw]|[msg Hmsg]]; [rewrite (py_bind_Done _ _ _ _ _ Hkw)|rewrite (py_bind_Raised _ _ _ _ _ Hmsg); eauto with aid].
  destruct (call_async_type_safe CoPost [VClient; arg "url" args] kw w) as [[a Ha]|[msg Hmsg]];
    [rewrite (py_bind_Done _ _ _ _ _ Ha)|rewrite (py_bind_Raised _ _ _ _ _ Hmsg); eauto with aid].
  eexists. split; [reflexivity|]. auto with aid.
Qed.

(** Neither [except] clause changes a built-in error. *)
Lemma execute_except_builtin e :
  exn_class e ∈ ["TypeError"; "AttributeError"] -> execute_except (E:=E) e = py_raise e.
Proof.
  intros Hc. unfold execute_except. destruct (builtin_not_library _ Hc) as (-> & -> & _). done.
Qed.

Lemma execute_attempt_raises pos kw (w : world E) :
  exists e, (let* args := bind_args "YoLinkClient.execute" execute_params pos kw in execute_body args) w =
            Raised w e /\ exn_class e ∈ ["TypeError"; "AttributeError"].
Proof.
  destruct (bind_args_type_safe (S:=world E) "YoLinkClient.execute" execute_params pos kw w) as [[a Ha]|[msg Hmsg]];
    [rewrite (py_bind_Done _ _ _ _ _ Ha)|rewrite (py_bind_Raised _ _ _ _ _ Hmsg); eauto with aid].
  destruct (execute_try_raises a w) as (e & He & Hc). exists e. split; [|done].
  unfold execute_body, py_try. rewrite He. by rewrite execute_except_builtin.
Qed.

(** An attempt whose exception is not retriable is the whole loop. *)
Lemma retry_loop_not_retriable {St A} (r : PyExn -> bool) n (m : pyM St A) s s' e :
  m s = Raised s' e -> r e = false -> retry_loop r n m s = Raised s' e.
Proof. intros Hm Hr. destruct n as [|[|n]]; simpl; by rewrite Hm, Hr. Qed.

(** C15 (safety): [await client.execute(...)] never returns a BRDP: on every
    input it raises [TypeError] or [AttributeError], with the world exactly
    as it was, so no request is ever sent, and it never retries. *)
Theorem execute_never_returns pos kw (w : world E) :
  exists e, execute pos kw w = Raised w e /\ exn_class e ∈ ["TypeError"; "AttributeError"].
Proof.
  destruct (execute_attempt_raises pos kw w) as (e & He & Hc). exists e. split; [|done].
  apply (retry_loop_not_retriable _ _ _ _ _ _ He). unfold yl_retriable.
  by destruct (builtin_not_library _ Hc) as (_ & _ & ->).
Qed.

(** C16 (error): with keyword arguments that [post] and [execute] accept,
    [execute] raises [AttributeError: 'coroutine' object has no attribute
    'raise_for_status']: [self.post(...)] is called without [await]. *)
Theorem execute_missing_await url bsdp kw (w : world E) :
  keys_nodup kw -> (forall k, k ∈ kw.*1 -> k ∉ ["self"; "url"; "bsdp"; "json"]) ->
  execute [VClient; url; bsdp] kw w =
  Raised w (mkExn "AttributeError" "'coroutine' object has no attribute 'raise_for_status'").
Proof.
  intros Hnd Hf. apply retry_loop_not_retriable.
  - rewrite (py_bind_Done _ _ _ _ _ (bind_args_fresh "YoLinkClient.execute" execute_params
      [VClient; url; bsdp] kw w eq_refl ltac:(decide_closed)
      ltac:(intros k Hk Hin; apply (Hf k Hk); simpl in Hin; set_solver))).
    unfold execute_body, py_try, execute_try.
    change (arg "bsdp" _) with bsdp. change (arg "url" _) with url. change (drop 3 _) with kw.
    rewrite (py_bind_Done _ _ _ _ _ (merge_kwargs_nodup "YoLinkClient.post" [] (("json", bsdp) :: kw) w
      ltac:(simpl; constructor; [intros Hj; by apply (Hf _ Hj); set_solver|exact Hnd]))).
    unfold call_async.
    rewrite (py_bind_Done _ _ _ _ _ (py_bind_Done _ _ _ _ _ (bind_args_fresh "YoLinkClient.post" post_params
      [VClient; url] (("json", bsdp) :: kw) w eq_refl ltac:(decide_closed)
      ltac:(intros k Hk Hin; simpl in Hk, Hin; apply elem_of_cons in Hk as [->|Hk];
            [set_solver|apply (Hf k Hk); set_solver])))).
    simpl. rewrite execute_except_builtin; [reflexivity|simpl; auto with aid].
  - unfold yl_retriable. simpl. by destruct (builtin_not_library _ elem_AttributeError) as (_ & _ & ->).
Qed.

Lemma coro_params_nodup f : NoDup (coro_params f).*1.
Proof. destruct f; decide_closed. Qed.

(** Calling an [async def] with one value per parameter and keywords that
    name no parameter: the coroutine holds them all, and nothing runs. *)
Lemma call_async_fresh f pos kw (w : world E) :
  length pos = length (coro_params f) -> (forall k, k ∈ kw.*1 -> k ∉ (coro_params f).*1) ->
  call_async f pos kw w = Done w (VCoro f (app (zip (coro_params f).*1 pos) kw)).
Proof.
  intros Hl Hf. unfold call_async.
  by rewrite (py_bind_Done _ _ _ _ _ (bind_args_fresh _ _ _ _ _ Hl (coro_params_nodup f) Hf)).
Qed.

(** C17 (functional): [await client.get(url, **kw)] returns the coroutine
    of [request("GET", url, True, **kw)] without running it: the world is
    unchanged (no token check, no header, no HTTP request); only a second
    [await] would run [request]'s body. *)
Theorem get_returns_coroutine url kw (w : world E) :
  (forall k, k ∈ kw.*1 -> k ∉ ["self"; "url"; "method"; "auth_required"]) ->
  py_bind (call_async CoGet [VClient; url] kw) await_val w =
    Done w (VCoro CoRequest
      (app [("self", VClient); ("method", VStr "GET"); ("url", url); ("auth_required", VBool true)] kw)) /\
  await_val (VCoro CoRequest
      (app [("self", VClient); ("method", VStr "GET"); ("url", url); ("auth_required", VBool true)] kw)) =
    request_body (VStr "GET") url (VBool true) kw.
Proof.
  intros Hf. split; [|reflexivity].
  rewrite (py_bind_Done _ _ _ _ _ (call_async_fresh CoGet [VClient; url] kw w eq_refl
    ltac:(intros k Hk Hin; apply (Hf k Hk); simpl in Hin; set_solver))).
  cbn [await_val]. unfold get_body. change (arg "url" _) with url. change (drop 2 _) with kw.
  exact (call_async_fresh CoRequest [VClient; VStr "GET"; url; VBool true] kw w eq_refl
    ltac:(intros k Hk Hin; apply (Hf k Hk); simpl in Hin; set_solver)).
Qed.

End ClientProofs.

Section RequestProofs.
Context `{EX : PyExnClasses} {E : Type} `{ENV : YoLinkEnv E}.

(** C19 (functional): [params = params or {}; params.update(extra_params)]
    writes into the caller's dict when it has items, but when the caller
    passed an empty dict, a new dict receives the extra values and the
    caller's dict stays empty: whether the caller sees the update depends
    on whether its dict was empty. *)
Theorem extend_optional_aliasing lx le xs es (w w' : world E) r :
  heap_bounded w -> lx <> le -> w_dicts w !! lx = Some xs -> w_dicts w !! le = Some es -> es <> [] ->
  extend_optional (VDict lx) (VDict le) w = Done w' r ->
  (xs <> [] -> r = VDict lx /\ w_dicts w' !! lx = Some (assoc_merge xs es)) /\
  (xs = [] -> r <> VDict lx /\ w_dicts w' !! lx = Some [] /\
     exists l', r = VDict l' /\ w_dicts w' !! l' = Some (assoc_merge [] es)).
Proof.
  intros Hb Hne Hx He Hes H.
  unfold extend_optional, py_bind, py_truthy in H. cbn [truthy] in H. rewrite He in H.
  destruct es as [|e0 es0]; [done|]. rewrite Hx in H.
  pose proof (Hb lx ltac:(by eexists)) as Hbx. pose proof (Hb le ltac:(by eexists)) as Hbe.
  destruct xs as [|x0 xs0]; split; intros Hxs; try done.
  - unfold dict_new, dict_update in H. cbn [w_dicts w_next] in H.
    rewrite lookup_insert_eq, lookup_insert_ne in H by lia. rewrite He in H.
    injection H as <- <-. split; [intros [= ?]; lia|]. split.
    + simpl. rewrite !lookup_insert_ne by lia. done.
    + eexists. split; [reflexivity|]. simpl. by rewrite lookup_insert_eq.
  - cbn [py_ret] in H. rewrite (dict_update_dict _ _ _ _ _ Hx He) in H. injection H as <- <-.
    split; [done|]. simpl. by rewrite lookup_insert_eq.
Qed.

End RequestProofs.

Section PrepareProofs.
Context `{EX : PyExnClasses} {E : Type} `{ENV : YoLinkEnv E}.

(** [request] keeps, of its keyword arguments, those it does not pop. *)
Lemma request_prepare_kwargs auth kw (w w1 : world E) hd p d kw1 :
  keys_nodup kw -> request_prepare auth kw w = Done w1 (hd, p, d, kw1) ->
  keys_nodup kw1 /\
  forall k, assoc_lookup k kw1 = if bool_decide (k ∈ request_popped) then None else assoc_lookup k kw.
Proof.
  intros Hnd H. unfold request_prepare in H. py_inv. cbv beta in Hk.
  repeat match type of Hk with
  | context [kw_pop ?k ?d ?l] =>
      let P := fresh "P" in destruct (kw_pop k d l) as [? ?] eqn:P; cbv beta iota in Hk;
      apply (f_equal snd) in P; simpl in P
  end.
  py_steps. unfold py_ret in *. simplify_eq. subst. split.
  - by repeat apply kw_pop_nodup.
  - intros k. rewrite !kw_pop_lookup by (by repeat apply kw_pop_nodup).
    case_bool_decide as Hin; unfold request_popped in Hin.
    + repeat (apply elem_of_cons in Hin as [->|Hin]; [reflexivity|]). by apply elem_of_nil in Hin.
    + assert (Hne : forall k', k' ∈ request_popped -> String.eqb k k' = false).
      { intros k' Hk'. apply String.eqb_neq. by intros ->. }
      unfold request_popped in Hne. rewrite !Hne by set_solver. reflexivity.
Qed.

(** C20 (error): a [timeout] keyword given to [request] makes the session
    call raise [TypeError] (line 49 passes [timeout=8] as well), after the
    token check, the session lookup and the writes into the caller's
    [headers] dict: the raise leaves the world of those steps. *)
Theorem request_timeout_conflict method url auth kw v (w w1 w2 : world E) hd p d kw1 o :
  keys_nodup kw -> assoc_lookup "timeout" kw = Some v ->
  request_prepare auth kw w = Done w1 (hd, p, d, kw1) -> client_session w1 = Done w2 (VObj o) ->
  request_body method url auth kw w =
  Raised w2 (type_error "ClientSession.request() got multiple values for keyword argument 'timeout'").
Proof.
  intros Hnd Ht Hp Hs. destruct (request_prepare_kwargs _ _ _ _ _ _ _ _ Hnd Hp) as [Hnd1 Hk1].
  unfold request_body. rewrite (py_bind_Done _ _ _ _ _ Hp). unfold session_call.
  rewrite (py_bind_Done _ _ _ _ _ Hs). unfold py_bind.
  rewrite (merge_kwargs_app _ [] kw1) by exact Hnd1. simpl app.
  assert (Hpop : forall k, k ∈ request_popped -> assoc_lookup k kw1 = None).
  { intros k Hk. rewrite Hk1. by rewrite bool_decide_eq_true_2. }
  do 3 (rewrite merge_kwargs_cons_fresh;
    [|rewrite ?assoc_lookup_app, Hpop by (unfold request_popped; set_solver); reflexivity]).
  rewrite merge_kwargs_dup; [reflexivity|]. rewrite !assoc_lookup_app, Hk1, bool_decide_eq_false_2, Ht; [by eexists|].
  unfold request_popped. set_solver.
Qed.

(** C25 (functional): without a [timeout] keyword, [request] ends by the
    session's [request(method, url, **kwargs, headers=..., params=...,
    data=..., timeout=8)]: the session receives the keyword arguments the
    caller passed and [request] does not pop, in the caller's order, then
    the four of line 49. *)
Theorem request_session_call method url auth kw (w w1 w2 : world E) hd p d kw1 o :
  keys_nodup kw -> assoc_lookup "timeout" kw = None ->
  request_prepare auth kw w = Done w1 (hd, p, d, kw1) -> client_session w1 = Done w2 (VObj o) ->
  request_body method url auth kw w =
    obj_request o method url
      (kw1 ++ [("headers", hd); ("params", p); ("data", d); ("timeout", VInt 8)])%list w2 /\
  forall k, assoc_lookup k kw1 = if bool_decide (k ∈ request_popped) then None else assoc_lookup k kw.
Proof.
  intros Hnd Ht Hp Hs. destruct (request_prepare_kwargs _ _ _ _ _ _ _ _ Hnd Hp) as [Hnd1 Hk1].
  split; [|exact Hk1].
  unfold request_body. rewrite (py_bind_Done _ _ _ _ _ Hp). unfold session_call.
  rewrite (py_bind_Done _ _ _ _ _ Hs). unfold py_bind.
  rewrite (merge_kwargs_app _ [] kw1) by exact Hnd1. simpl app.
  assert (Hpop : forall k, k ∈ "timeout" :: request_popped -> assoc_lookup k kw1 = None).
  { intros k Hk. rewrite Hk1. case_bool_decide; [done|].
    apply elem_of_cons in Hk as [->|Hk]; [done|contradiction]. }
  do 4 (rewrite merge_kwargs_cons_fresh;
    [|rewrite ?assoc_lookup_app, Hpop by (unfold request_popped; set_solver); reflexivity]).
  simpl. by rewrite <- !app_assoc.
Qed.

End PrepareProofs.

Section HeaderErrors.
Context `{EX : PyExnClasses} {E : Type} `{ENV : YoLinkEnv E}.

(** [headers["Authorization"] = ...] on [None], after the token check and
    the header computation. *)
Lemma set_auth_headers_none auth eh (w w1 w2 : world E) t h :
  truthy w auth = true -> check_and_refresh_token w = Done w1 t -> http_auth_header w1 = Done w2 h ->
  set_auth_headers auth VNone eh w =
    Raised w2 (type_error "'NoneType' object does not support item assignment").
Proof.
  intros Ha Ht Hh. unfold set_auth_headers, py_truthy. unfold py_bind at 1. rewrite Ha.
  rewrite (py_bind_Raised _ _ w w2 (type_error "'NoneType' object does not support item assignment")); [done|].
  rewrite (py_bind_Done _ _ _ _ _ Ht), (py_bind_Done _ _ _ _ _ Hh). reflexivity.
Qed.

(** C29 (error): a caller passing [headers=None] to [request] with
    [auth_required] truthy gets [TypeError: 'NoneType' object does not
    support item assignment] from line 36, raised after the token check
    and the header computation, whose effects stay; the session is never
    asked for. *)
Theorem request_headers_none method url auth kw (w w0 w1 w2 : world E) fresh t h :
  assoc_lookup "headers" kw = Some VNone ->
  dict_new [] w = Done w0 fresh -> truthy w0 auth = true ->
  check_and_refresh_token w0 = Done w1 t -> http_auth_header w1 = Done w2 h ->
  request_body method url auth kw w =
    Raised w2 (type_error "'NoneType' object does not support item assignment").
Proof.
  intros Hk Hn Ha Ht Hh. unfold request_body, request_prepare.
  rewrite (py_bind_Raised _ _ w w2 (type_error "'NoneType' object does not support item assignment")); [done|].
  rewrite (py_bind_Done _ _ _ _ _ Hn), (kw_pop_present _ _ _ _ Hk).
  repeat match goal with |- context [kw_pop ?k ?d ?l] => destruct (kw_pop k d l) end.
  by rewrite (py_bind_Raised _ _ _ _ _ (set_auth_headers_none _ _ _ _ _ _ _ Ha Ht Hh)).
Qed.

End HeaderErrors.

Section AuthProofs.
Context `{EX : PyExnClasses} {E : Type} `{ENV : YoLinkEnv E}.
Hypothesis token_frame : py_preserves same_heap check_and_refresh_token.
Hypothesis header_frame : py_preserves same_heap http_auth_header.

(** C18 (functional): with [auth_required] truthy, [request] writes the
    token header into the caller's own [headers] dict, then the extra
    headers over it: the dict the caller passed ends with its items, the
    [Authorization] value [http_auth_header()] returned, and the extra
    headers, which win over the token header. *)
Theorem auth_header_precedence auth l le hs es (w w' : world E) u :
  truthy w auth = true -> l <> le -> w_dicts w !! l = Some hs -> w_dicts w !! le = Some es ->
  set_auth_headers auth (VDict l) (VDict le) w = Done w' u ->
  exists w1 t w2 h, check_and_refresh_token w = Done w1 t /\ http_auth_header w1 = Done w2 h /\
    w_dicts w' !! l = Some (assoc_merge (assoc_set "Authorization" h hs) es) /\
    assoc_lookup "Authorization" (assoc_merge (assoc_set "Authorization" h hs) es) =
      Some (default h (assoc_lookup "Authorization" (reverse es))).
Proof.
  intros Ha Hne Hl Hle H. unfold set_auth_headers in H. py_steps.
  match goal with Hm : py_truthy auth _ = _ |- _ => apply py_truthy_Done in Hm as [-> ->] end.
  rewrite Ha in *. py_steps.
  match goal with
  | Hm : check_and_refresh_token w = Done ?s ?a, Hm0 : http_auth_header ?s = Done ?s2 ?a2 |- _ =>
      exists s, a, s2, a2; split; [done|]; split; [done|];
      destruct (py_preserves_Done _ _ _ _ _ token_frame Hm) as [D1 _];
      destruct (py_preserves_Done _ _ _ _ _ header_frame Hm0) as [D2 _]
  end.
  match goal with Hk1 : dict_setitem _ _ _ _ = _ |- _ =>
    rewrite (dict_setitem_dict l _ _ hs) in Hk1 by (rewrite D2, D1; exact Hl); injection Hk1 as <- _ end.
  match goal with Hm1 : py_truthy _ _ = _ |- _ => apply py_truthy_Done in Hm1 as [-> ->] end.
  cbn [truthy w_dicts set_dicts] in *. rewrite lookup_insert_ne, D2, D1, Hle in * by done.
  split.
  - destruct es as [|e0 es0].
    + injection Hk as <- _. simpl. by rewrite lookup_insert_eq.
    + rewrite (dict_update_dict _ _ (assoc_set "Authorization" a2 hs) (e0 :: es0)) in Hk;
        [|by simpl; rewrite lookup_insert_eq|by simpl; rewrite lookup_insert_ne].
      injection Hk as <- _. simpl. by rewrite lookup_insert_eq.
  - rewrite assoc_lookup_merge. destruct (assoc_lookup _ (reverse es)); [done|apply assoc_lookup_set_eq].
Qed.

End AuthProofs.

(** ** Witnesses on the concrete environment *)

(** The dicts of [fixture_world] are 1 to 4, each with distinct keys. *)
Lemma fixture_world_dicts l its :
  w_dicts fixture_world !! l = Some its -> (l < 5)%positive /\ keys_nodup its.
Proof.
  intros Hx. unfold fixture_world in Hx. simpl in Hx.
  repeat (apply lookup_insert_Some in Hx as [[<- <-]|[_ Hx]];
          [split; [simpl; lia|unfold keys_nodup; decide_closed]|]).
  apply lookup_singleton_Some in Hx as [<- <-]. split; [simpl; lia|unfold keys_nodup; decide_closed].
Qed.

Lemma fixture_world_ok : heap_ok fixture_world.
Proof.
  split.
  - intros l its Hl. exact (proj2 (fixture_world_dicts _ _ Hl)).
  - intros l [its Hl]. exact (proj1 (fixture_world_dicts _ _ Hl)).
Qed.

Lemma execute_missing_await_witness :
  keys_nodup [("timeout", VInt 3)] /\
  (forall k, k ∈ [("timeout", VInt 3)].*1 -> k ∉ ["self"; "url"; "bsdp"; "json"]) /\
  @execute fixture_exns nat fixture_env [VClient; api_url; VNone] [("timeout", VInt 3)] fixture_world =
  Raised fixture_world (mkExn "AttributeError" "'coroutine' object has no attribute 'raise_for_status'").
Proof.
  assert (H1 : keys_nodup [("timeout", VInt 3)]) by (unfold keys_nodup; decide_closed).
  assert (H2 : forall k, k ∈ [("timeout", VInt 3)].*1 -> k ∉ ["self"; "url"; "bsdp"; "json"])
    by (intros k Hk; simpl in Hk; apply list_elem_of_singleton in Hk as ->; decide_closed).
  split; [exact H1|]. split; [exact H2|].
  exact (@execute_missing_await fixture_exns nat fixture_env _ _ _ _ H1 H2).
Defined.

Lemma get_returns_coroutine_witness :
  (forall k, k ∈ [("timeout", VInt 3)].*1 -> k ∉ ["self"; "url"; "method"; "auth_required"]) /\
  py_bind (@call_async nat CoGet [VClient; api_url] [("timeout", VInt 3)]) (@await_val nat fixture_env) fixture_world =
    Done fixture_world (VCoro CoRequest
      (app [("self", VClient); ("method", VStr "GET"); ("url", api_url); ("auth_required", VBool true)]
           [("timeout", VInt 3)])) /\
  @await_val nat fixture_env (VCoro CoRequest
      (app [("self", VClient); ("method", VStr "GET"); ("url", api_url); ("auth_required", VBool true)]
           [("timeout", VInt 3)])) =
    @request_body nat fixture_env (VStr "GET") api_url (VBool true) [("timeout", VInt 3)].
Proof.
  assert (H : forall k, k ∈ [("timeout", VInt 3)].*1 -> k ∉ ["self"; "url"; "method"; "auth_required"])
    by (intros k Hk; simpl in Hk; apply list_elem_of_singleton in Hk as ->; decide_closed).
  split; [exact H|]. exact (@get_returns_coroutine nat fixture_env _ _ _ H).
Defined.

Lemma extend_optional_aliasing_witness :
  heap_bounded fixture_world /\ (3%positive <> 4%positive) /\
  w_dicts fixture_world !! 3%positive = Some [] /\
  w_dicts fixture_world !! 4%positive = Some [("page", VInt 2)] /\ [("page", VInt 2)] <> [] /\
  @extend_optional nat (VDict 3) (VDict 4) fixture_world =
    Done (outcome_state (@extend_optional nat (VDict 3) (VDict 4) fixture_world)) (VDict 5) /\
  (([] : kwargs) <> [] -> VDict 5 = VDict 3 /\
     w_dicts (outcome_state (@extend_optional nat (VDict 3) (VDict 4) fixture_world)) !! 3%positive =
       Some (assoc_merge [] [("page", VInt 2)])) /\
  (([] : kwargs) = [] -> VDict 5 <> VDict 3 /\
     w_dicts (outcome_state (@extend_optional nat (VDict 3) (VDict 4) fixture_world)) !! 3%positive = Some [] /\
     exists l', VDict 5 = VDict l' /\
       w_dicts (outcome_state (@extend_optional nat (VDict 3) (VDict 4) fixture_world)) !! l' =
         Some (assoc_merge [] [("page", VInt 2)])).
Proof.
  assert (Hb : heap_bounded fixture_world) by apply fixture_world_ok.
  assert (Hne : 3%positive <> 4%positive) by lia.
  assert (H3 : w_dicts fixture_world !! 3%positive = Some []) by reflexivity.
  assert (H4 : w_dicts fixture_world !! 4%positive = Some [("page", VInt 2)]) by reflexivity.
  assert (Hes : [("page", VInt 2)] <> []) by discriminate.
  assert (Hrun : @extend_optional nat (VDict 3) (VDict 4) fixture_world =
    Done (outcome_state (@extend_optional nat (VDict 3) (VDict 4) fixture_world)) (VDict 5))
    by (vm_compute; reflexivity).
  do 6 (split; [assumption|]). exact (extend_optional_aliasing _ _ _ _ _ _ _ Hb Hne H3 H4 Hes Hrun).
Defined.

Lemma auth_header_precedence_witness :
  py_preserves same_heap (@check_and_refresh_token nat fixture_env) /\
  py_preserves same_heap (@http_auth_header nat fixture_env) /\
  truthy fixture_world (VBool true) = true /\ (1%positive <> 2%positive) /\
  w_dicts fixture_world !! 1%positive = Some [("X-Trace", VStr "1")] /\
  w_dicts fixture_world !! 2%positive = Some [("Authorization", VStr "mine")] /\
  @set_auth_headers nat fixture_env (VBool true) (VDict 1) (VDict 2) fixture_world = Done auth_world tt /\
  exists w1 t w2 h, @check_and_refresh_token nat fixture_env fixture_world = Done w1 t /\
    @http_auth_header nat fixture_env w1 = Done w2 h /\
    w_dicts auth_world !! 1%positive =
      Some (assoc_merge (assoc_set "Authorization" h [("X-Trace", VStr "1")]) [("Authorization", VStr "mine")]) /\
    assoc_lookup "Authorization"
      (assoc_merge (assoc_set "Authorization" h [("X-Trace", VStr "1")]) [("Authorization", VStr "mine")]) =
      Some (default h (assoc_lookup "Authorization" (reverse [("Authorization", VStr "mine")]))).
Proof.
  assert (Ht : py_preserves same_heap (@check_and_refresh_token nat fixture_env)) by (intros w; split; reflexivity).
  assert (Hh : py_preserves same_heap (@http_auth_header nat fixture_env)) by (intros w; split; reflexivity).
  assert (H1 : truthy fixture_world (VBool true) = true) by reflexivity.
  assert (H2 : 1%positive <> 2%positive) by lia.
  assert (H3 : w_dicts fixture_world !! 1%positive = Some [("X-Trace", VStr "1")]) by reflexivity.
  assert (H4 : w_dicts fixture_world !! 2%positive = Some [("Authorization", VStr "mine")]) by reflexivity.
  assert (Hrun : @set_auth_headers nat fixture_env (VBool true) (VDict 1) (VDict 2) fixture_world = Done auth_world tt)
    by (vm_compute; reflexivity).
  do 7 (split; [assumption|]).
  exact (auth_header_precedence Ht Hh (VBool true) 1 2 _ _ _ _ tt H1 H2 H3 H4 Hrun).
Defined.

Lemma request_timeout_conflict_witness :
  keys_nodup timeout_kwargs /\ assoc_lookup "timeout" timeout_kwargs = Some (VInt 3) /\
  @request_prepare nat fixture_env (VBool true) timeout_kwargs fixture_world =
    Done timeout_world (VDict 1, VNone, VNone, [("timeout", VInt 3)]) /\
  @client_session nat fixture_env timeout_world = Done timeout_world (VObj 1) /\
  @request_body nat fixture_env (VStr "GET") api_url (VBool true) timeout_kwargs fixture_world =
  Raised timeout_world (type_error "ClientSession.request() got multiple values for keyword argument 'timeout'").
Proof.
  assert (H1 : keys_nodup timeout_kwargs) by (unfold keys_nodup; decide_closed).
  assert (H2 : assoc_lookup "timeout" timeout_kwargs = Some (VInt 3)) by reflexivity.
  assert (H3 : @request_prepare nat fixture_env (VBool true) timeout_kwargs fixture_world =
    Done timeout_world (VDict 1, VNone, VNone, [("timeout", VInt 3)])) by (vm_compute; reflexivity).
  assert (H4 : @client_session nat fixture_env timeout_world = Done timeout_world (VObj 1)) by reflexivity.
  do 4 (split; [assumption|]).
  exact (request_timeout_conflict (VStr "GET") api_url (VBool true) _ _ _ _ _ _ _ _ _ _ H1 H2 H3 H4).
Defined.

Lemma request_session_call_witness :
  keys_nodup full_kwargs /\ assoc_lookup "timeout" full_kwargs = None /\
  @request_prepare nat fixture_env (VBool true) full_kwargs fixture_world =
    Done full_world (VDict 1, VDict 6, VNone, [("ssl", VBool false)]) /\
  @client_session nat fixture_env full_world = Done full_world (VObj 1) /\
  @request_body nat fixture_env (VStr "GET") api_url (VBool true) full_kwargs fixture_world =
    @obj_request nat fixture_env 1 (VStr "GET") api_url
      [("ssl", VBool false); ("headers", VDict 1); ("params", VDict 6); ("data", VNone); ("timeout", VInt 8)]
      full_world.
Proof.
  assert (H1 : keys_nodup full_kwargs) by (unfold keys_nodup; decide_closed).
  assert (H2 : assoc_lookup "timeout" full_kwargs = None) by reflexivity.
  assert (H3 : @request_prepare nat fixture_env (VBool true) full_kwargs fixture_world =
    Done full_world (VDict 1, VDict 6, VNone, [("ssl", VBool false)])) by (vm_compute; reflexivity).
  assert (H4 : @client_session nat fixture_env full_world = Done full_world (VObj 1)) by reflexivity.
  do 4 (split; [assumption|]).
  exact (proj1 (request_session_call (VStr "GET") api_url (VBool true) _ _ _ _ _ _ _ _ _ H1 H2 H3 H4)).
Defined.

Lemma request_headers_none_witness :
  assoc_lookup "headers" [("headers", VNone)] = Some VNone /\
  dict_new (E:=nat) [] fixture_world = Done (outcome_state (dict_new (E:=nat) [] fixture_world)) (VDict 5) /\
  truthy (outcome_state (dict_new (E:=nat) [] fixture_world)) (VBool true) = true /\
  @check_and_refresh_token nat fixture_env (outcome_state (dict_new (E:=nat) [] fixture_world)) =
    Done (set_ext 1 (outcome_state (dict_new (E:=nat) [] fixture_world))) VNone /\
  @http_auth_header nat fixture_env (set_ext 1 (outcome_state (dict_new (E:=nat) [] fixture_world))) =
    Done (set_ext 1 (outcome_state (dict_new (E:=nat) [] fixture_world))) (VStr "Bearer token") /\
  @request_body nat fixture_env (VStr "GET") api_url (VBool true) [("headers", VNone)] fixture_world =
    Raised (set_ext 1 (outcome_state (dict_new (E:=nat) [] fixture_world)))
      (type_error "'NoneType' object does not support item assignment").
Proof.
  assert (H1 : assoc_lookup "headers" [("headers", VNone)] = Some VNone) by reflexivity.
  assert (H2 : dict_new (E:=nat) [] fixture_world =
    Done (outcome_state (dict_new (E:=nat) [] fixture_world)) (VDict 5)) by reflexivity.
  assert (H3 : truthy (outcome_state (dict_new (E:=nat) [] fixture_world)) (VBool true) = true) by reflexivity.
  assert (H4 : @check_and_refresh_token nat fixture_env (outcome_state (dict_new (E:=nat) [] fixture_world)) =
    Done (set_ext 1 (outcome_state (dict_new (E:=nat) [] fixture_world))) VNone) by reflexivity.
  assert (H5 : @http_auth_header nat fixture_env (set_ext 1 (outcome_state (dict_new (E:=nat) [] fixture_world))) =
    Done (set_ext 1 (outcome_state (dict_new (E:=nat) [] fixture_world))) (VStr "Bearer token")) by reflexivity.
  do 5 (split; [assumption|]).
  exact (request_headers_none (VStr "GET") api_url (VBool true) _ _ _ _ _ _ _ _ H1 H2 H3 H4 H5).
Defined.
